(** * Question-paper generation pipeline of Smart_Acad

    A shallow embedding of [QuestionPaperGenerator]
    (src/ktu_question_generator/__init__.py): the text extractor, the
    past-question harvester, the prompt composer and the output parser
    [_format_response], followed by the properties of the specification
    that were checked against them.

    Conventions of the embedding.

    - A Python [str] is a [string]; a character is one 8-bit code point
      (the Latin-1 range of Unicode), classified as CPython classifies it
      ([str.isspace], [str.isdigit], the regex classes [\s] and [\d]).
      The one operation of the program that leaves this range is
      [str.title]; its result, and the instruction built from it, is a
      [Text.t], a list of code points.
    - A Python [int] is a [Z]; a value that may be [None] is an [option].
    - A [dict] is an association list in insertion order; assignment to a
      key that is present replaces the value in place.
    - Code that can raise lives in the [result] monad; [try]/[except] is
      [try_except].
    - The regular expressions are matched by the semantics of CPython's
      backtracking engine (version 3.7 and later, where [re.split] splits
      on empty matches). Each pattern is a function from the text at the
      current position to the capture and the number of characters the
      match consumes; [Re.scan_from] is the engine's left-to-right loop. *)

From Stdlib Require Import String Ascii List ZArith Lia Bool Arith.
Import ListNotations.

Open Scope string_scope.

(** ** Characters *)

Module Char.

Definition code (c : ascii) : nat := nat_of_ascii c.

Definition between (lo hi : nat) (c : ascii) : bool :=
  ((lo <=? code c) && (code c <=? hi))%nat.

(** [str.isspace] and the regex class [\s]: TAB..CR, FS..US, SPACE,
    NEL (0x85) and NBSP (0xA0). *)
Definition isspace (c : ascii) : bool :=
  between 9 13 c || between 28 32 c || (code c =? 133)%nat || (code c =? 160)%nat.

(** The regex class [\d]: the decimal digits. *)
Definition isdecimal (c : ascii) : bool := between 48 57 c.

(** [str.isdigit]: the decimal digits and the superscripts 2, 3, 1. *)
Definition isdigit (c : ascii) : bool :=
  isdecimal c || (code c =? 178)%nat || (code c =? 179)%nat || (code c =? 185)%nat.

(** The regex class [[a-z]]. *)
Definition islower_az (c : ascii) : bool := between 97 122 c.

(** The regex class [[A-Z]]. *)
Definition isupper_az (c : ascii) : bool := between 65 90 c.

(** Lower-case form of an ASCII letter, as used for matching under
    [re.IGNORECASE]. *)
Definition lower_az (c : ascii) : ascii :=
  if isupper_az c then ascii_of_nat (code c + 32)%nat else c.

Definition eqb_nocase (a b : ascii) : bool :=
  Ascii.eqb (lower_az a) (lower_az b).

Definition newline : ascii := ascii_of_nat 10.

(** Cased characters of the Latin-1 range, for [str.title]. *)
Definition is_lower (c : ascii) : bool :=
  islower_az c || (code c =? 170)%nat || (code c =? 181)%nat || (code c =? 186)%nat
  || between 223 246 c || between 248 255 c.

Definition is_upper (c : ascii) : bool :=
  isupper_az c || between 192 214 c || between 216 222 c.

Definition is_cased (c : ascii) : bool := is_lower c || is_upper c.

(** [c.lower()] for one character. *)
Definition to_lower (c : ascii) : ascii :=
  if is_upper c then ascii_of_nat (code c + 32)%nat else c.

(** [c.title()] for one character, as code points: the micro sign
    becomes the Greek capital mu, the sharp s the two letters [Ss], and
    the y with diaeresis its capital, which lies outside the range; the
    ordinal indicators are cased but have no other form. *)
Definition to_title (c : ascii) : list N :=
  if (code c =? 181)%nat then [924%N]
  else if (code c =? 223)%nat then [83%N; 115%N]
  else if (code c =? 255)%nat then [376%N]
  else if islower_az c || between 224 246 c || between 248 254 c
  then [N.of_nat (code c - 32)]
  else [N.of_nat (code c)].

End Char.

(** ** Strings *)

Module Str.

Definition nl : string := String Char.newline "".

Definition is_empty (s : string) : bool :=
  match s with "" => true | _ => false end.

(** [bool(s)] *)
Definition truthy (s : string) : bool := negb (is_empty s).

(** [s.startswith(p)] *)
Definition startswith (s p : string) : bool := prefix p s.

(** [s.lstrip()] *)
Fixpoint lstrip (s : string) : string :=
  match s with
  | "" => ""
  | String c s' => if Char.isspace c then lstrip s' else s
  end.

(** [s.rstrip()] *)
Fixpoint rstrip (s : string) : string :=
  match s with
  | "" => ""
  | String c s' =>
      let r := rstrip s' in
      if is_empty r && Char.isspace c then "" else String c r
  end.

(** [s.strip()] *)
Definition strip (s : string) : string := rstrip (lstrip s).

(** [s[:n]] *)
Fixpoint take (n : nat) (s : string) : string :=
  match n, s with
  | S k, String c s' => String c (take k s')
  | _, _ => ""
  end.

(** [s[n:]] *)
Fixpoint drop (n : nat) (s : string) : string :=
  match n, s with
  | S k, String _ s' => drop k s'
  | _, _ => s
  end.

(** [sub in s] *)
Fixpoint contains (sub s : string) : bool :=
  prefix sub s ||
  match s with
  | "" => false
  | String _ s' => contains sub s'
  end.

(** [s.split('\n')] *)
Fixpoint split_lines (s : string) : list string :=
  match s with
  | "" => [""]
  | String c s' =>
      if Ascii.eqb c Char.newline then "" :: split_lines s'
      else match split_lines s' with
           | h :: t => String c h :: t
           | [] => [String c ""]
           end
  end.

(** [sep.join(parts)] *)
Definition join (sep : string) (parts : list string) : string :=
  String.concat sep parts.

(** The longest prefix of characters of a class, and what follows. *)
Fixpoint span (p : ascii -> bool) (s : string) : string * string :=
  match s with
  | "" => ("", "")
  | String c s' =>
      if p c then let (a, b) := span p s' in (String c a, b)
      else ("", s)
  end.

(** Case-insensitive [startswith], for literals under [re.IGNORECASE]. *)
Fixpoint startswith_nocase (s p : string) : bool :=
  match p, s with
  | "", _ => true
  | String a p', String b s' => Char.eqb_nocase a b && startswith_nocase s' p'
  | String _ _, "" => false
  end.

(** Decimal digits of a natural number, most significant first. *)
Fixpoint digits_of_pos (fuel : nat) (n : N) (acc : string) : string :=
  match fuel with
  | O => acc
  | S k =>
      let d := String (ascii_of_N (48 + N.modulo n 10)%N) acc in
      if N.ltb n 10%N then d else digits_of_pos k (N.div n 10%N) d
  end.

(** The decimal form of an integer: what [str(n)] gives when it does
    not raise, see [Py.str]. *)
Definition of_Z (n : Z) : string :=
  let m := Z.abs_N n in
  let d := digits_of_pos (S (N.to_nat (N.log2 m))) m "" in
  if Z.ltb n 0%Z then String "-" d else d.

Fixpoint all (p : ascii -> bool) (s : string) : bool :=
  match s with
  | "" => true
  | String c s' => p c && all p s'
  end.

(** Value of a string of decimal digits. *)
Fixpoint value_from (acc : Z) (s : string) : Z :=
  match s with
  | "" => acc
  | String c s' => value_from (10 * acc + Z.of_nat (Char.code c - 48)%nat)%Z s'
  end.

End Str.

(** ** Texts of code points *)

Module Text.

(** A [str] of any characters, as the list of its code points. *)
Definition t : Type := list N.

Definition of_char (c : ascii) : N := N.of_nat (Char.code c).

(** A [str] of the Latin-1 range as a text. *)
Fixpoint of_str (s : string) : t :=
  match s with
  | "" => []
  | String c s' => of_char c :: of_str s'
  end.

Definition nl : t := of_str Str.nl.

(** [sep.join(parts)] *)
Fixpoint join (sep : t) (parts : list t) : t :=
  match parts with
  | [] => []
  | [x] => x
  | x :: rest => (x ++ sep ++ join sep rest)%list
  end.

(** [s.split('\n')] *)
Fixpoint split_lines (s : t) : list t :=
  match s with
  | [] => [[]]
  | c :: s' =>
      if N.eqb c 10 then [] :: split_lines s'
      else match split_lines s' with
           | h :: rest => (c :: h) :: rest
           | [] => [[c]]
           end
  end.

(** [s.title()]: a cased character is title-cased when the previous
    character is not cased, and lower-cased otherwise. *)
Fixpoint title_from (prev_cased : bool) (s : string) : t :=
  match s with
  | "" => []
  | String c s' =>
      ((if prev_cased then [of_char (Char.to_lower c)] else Char.to_title c)
       ++ title_from (Char.is_cased c) s')%list
  end.

Definition title (s : string) : t := title_from false s.

End Text.

(** ** Exceptions *)

Inductive exn_kind : Type :=
| IndexError
| ValueError
| TypeError
| KeyError
| OtherError.

(** An exception: its class and [str(e)]. *)
Record exn : Type := Exception { kind : exn_kind; message : string }.

Inductive result (A : Type) : Type :=
| Ok (a : A)
| Raise (e : exn).

Arguments Ok {A} a.
Arguments Raise {A} e.

Definition bind {A B : Type} (m : result A) (f : A -> result B) : result B :=
  match m with
  | Ok a => f a
  | Raise e => Raise e
  end.

Notation "x <- m ;; k" := (bind m (fun x => k))
  (at level 61, m at next level, right associativity).

(** [try: body  except (handled...): handler] *)
Definition try_except {A : Type} (body : result A) (handled : exn_kind -> bool)
    (handler : result A) : result A :=
  match body with
  | Ok a => Ok a
  | Raise e => if handled (kind e) then handler else Raise e
  end.

(** ** Regular expressions *)

Module Re.

(** A pattern, seen from the position where a match is attempted: the
    capture and the number of characters consumed. Every pattern that is
    scanned for below consumes at least one character. *)
Definition pattern (A : Type) : Type := string -> option (A * nat).

Section Engine.
Context {A : Type}.
Variable pat : pattern A.

(** The scanning loop of [re.sub] and [re.findall]: leftmost matches,
    not overlapping, the search resuming where the last match ended.
    [skip] counts the characters of that match still to be passed. *)
Fixpoint scan_from (skip : nat) (s : string) : list (ascii + A) :=
  match s with
  | "" => []
  | String c s' =>
      match skip with
      | S k => scan_from k s'
      | O =>
          match pat s with
          | Some (a, S k) => inr a :: scan_from k s'
          | _ => inl c :: scan_from 0 s'
          end
      end
  end.

Definition scan (s : string) : list (ascii + A) := scan_from 0 s.

(** [re.findall(pat, s)] *)
Definition findall (s : string) : list A :=
  flat_map (fun t => match t with inl _ => [] | inr a => [a] end) (scan s).

(** [re.sub(pat, repl, s)] for a replacement without group references *)
Definition sub (repl : string) (s : string) : string :=
  fold_right
    (fun t acc => match t with
                  | inl c => String c acc
                  | inr _ => repl ++ acc
                  end) "" (scan s).

(** [re.search(pat, s)]: the capture of the leftmost match *)
Fixpoint search (s : string) : option A :=
  match pat s with
  | Some (a, _) => Some a
  | None =>
      match s with
      | "" => None
      | String _ s' => search s'
      end
  end.

(** [re.match(pat, s)]: a match at the start of [s] only *)
Definition match_start (s : string) : option A := option_map fst (pat s).

(** [re.sub('^' + pat, repl, s)] without [re.MULTILINE]: the pattern
    can match at the start of [s] only. *)
Definition sub_at_start (repl : string) (s : string) : string :=
  match pat s with
  | Some (_, n) => repl ++ Str.drop n s
  | None => s
  end.
End Engine.

(** A literal, not empty. *)
Definition literal (lit : string) : pattern unit := fun s =>
  if prefix lit s then Some (tt, String.length lit) else None.

(** The lazy quantifier [.*?] in front of a continuation [k]: the
    fewest characters after which [k] matches. Without [re.DOTALL] the
    dot does not match a newline. *)
Fixpoint lazy_dot (dotall : bool) (k : string -> bool) (s : string)
    : option nat :=
  if k s then Some 0
  else match s with
       | "" => None
       | String c s' =>
           if negb dotall && Ascii.eqb c Char.newline then None
           else option_map S (lazy_dot dotall k s')
       end.

(** [$] without [re.MULTILINE]: the end of the text, or just before a
    newline that ends the text. *)
Definition at_end (s : string) : bool :=
  match s with
  | "" => true
  | String c "" => Ascii.eqb c Char.newline
  | _ => false
  end.

(** [\s+] *)
Definition whitespace_run : pattern unit := fun s =>
  let (ws, _) := Str.span Char.isspace s in
  if Str.truthy ws then Some (tt, String.length ws) else None.

(** [\[.*?\]] *)
Definition bracketed : pattern unit := fun s =>
  match s with
  | String "[" r =>
      match lazy_dot false (prefix "]") r with
      | Some n => Some (tt, n + 2)
      | None => None
      end
  | _ => None
  end.

(** [\*\*(.*?)\*\*], capturing group 1 *)
Definition bold_header : pattern string := fun s =>
  if prefix "**" s then
    let body := Str.drop 2 s in
    match lazy_dot false (prefix "**") body with
    | Some n => Some (Str.take n body, n + 4)
    | None => None
    end
  else None.

(** [\[(\d+)\s*Marks\]], capturing group 1. The digits, the white space
    and the letter M exclude one another, so the greedy runs are never
    shortened by backtracking. *)
Definition marks_tag : pattern string := fun s =>
  match s with
  | String "[" r =>
      let (ds, r1) := Str.span Char.isdecimal r in
      let (ws, r2) := Str.span Char.isspace r1 in
      if Str.truthy ds && prefix "Marks]" r2
      then Some (ds, 1 + String.length ds + String.length ws + 6)
      else None
  | _ => None
  end.

(** [\d+\.\s*] (used behind [^]) *)
Definition leading_number : pattern unit := fun s =>
  let (ds, r1) := Str.span Char.isdecimal s in
  match r1 with
  | String "." r2 =>
      let (ws, _) := Str.span Char.isspace r2 in
      if Str.truthy ds then Some (tt, String.length ds + 1 + String.length ws) else None
  | _ => None
  end.

(** [\[.*?\]\s*] (used behind [^]) *)
Definition leading_tag : pattern unit := fun s =>
  match s with
  | String "[" r =>
      match lazy_dot false (prefix "]") r with
      | Some n =>
          let (ws, _) := Str.span Char.isspace (Str.drop (S n) r) in
          Some (tt, n + 2 + String.length ws)
      | None => None
      end
  | _ => None
  end.

(** [re.split(r'(?=a\))', s, maxsplit=1)]: the text is cut in front of
    the first [a)], also when that is at its start. *)
Definition split_before_a (s : string) : list string :=
  match lazy_dot true (prefix "a)") s with
  | Some n => [Str.take n s; Str.drop n s]
  | None => [s]
  end.

(** [[a-z]\)] as a lookahead *)
Definition option_marker (s : string) : bool :=
  match s with
  | String c (String ")" _) => Char.islower_az c
  | _ => false
  end.

(** The end of an option, [(?:\s*(?=[a-z]\))|$)]: the characters it
    consumes when it matches. A shorter run of white space would leave
    white space in front of the lookahead, so only the whole run can be
    followed by a marker. *)
Definition option_end (s : string) : option nat :=
  let (ws, r) := Str.span Char.isspace s in
  if option_marker r then Some (String.length ws)
  else if at_end s then Some 0
  else None.

Definition is_some {A : Type} (o : option A) : bool :=
  match o with Some _ => true | None => false end.

(** One character given back by a greedy run of [n] characters. *)
Definition give_back (n : nat) : option nat :=
  match n with
  | S k => Some k
  | O => None
  end.

(** [[^a-z\)]] *)
Definition option_first (c : ascii) : bool :=
  negb (Char.islower_az c) && negb (Ascii.eqb c ")").

(** [([a-z]\))\s*([^a-z\)](?:.*?))(?:\s*(?=[a-z]\))|$)] under
    [re.DOTALL], capturing groups 1 and 2. After the marker the greedy
    [\s*] takes the whole run of white space; when the character after
    the run cannot start group 2 the engine gives one white space
    character back, and group 2 starts with it. Once group 2 has
    started the match cannot fail, as [$] matches at the end of the
    text at the latest. *)
Definition option_item : pattern (string * string) := fun s =>
  match s with
  | String c (String ")" r) =>
      if Char.islower_az c then
        let (ws, r1) := Str.span Char.isspace r in
        let skipped :=
          match r1 with
          | String g _ =>
              if option_first g then Some (String.length ws) else give_back (String.length ws)
          | "" => give_back (String.length ws)
          end in
        match skipped with
        | Some w =>
            match Str.drop w r with
            | String g body =>
                match lazy_dot true (fun t => is_some (option_end t)) body with
                | Some n =>
                    match option_end (Str.drop n body) with
                    | Some e =>
                        Some ((String c ")", String g (Str.take n body)),
                              2 + w + 1 + n + e)
                    | None => None
                    end
                | None => None
                end
            | "" => None
            end
        | None => None
        end
      else None
  | _ => None
  end.

(** The heading marker of the harvester,
    [(?:Q\s*\d+\.?|Question\s*\d*:?|Part\s*[A-Z]\s*\(.*?\):?)] under
    [re.IGNORECASE] and [re.DOTALL]: its length. The alternatives are
    tried in this order, and as the rest of the pattern matches after
    any of them the first one that matches is kept. *)
Definition optional (c : ascii) (s : string) : nat :=
  match s with
  | String d _ => if Ascii.eqb c d then 1 else 0
  | "" => 0
  end.

Definition is_letter_az (c : ascii) : bool :=
  Char.isupper_az c || Char.islower_az c.

Definition marker_q (s : string) : option nat :=
  if Str.startswith_nocase s "Q" then
    let (ws, r1) := Str.span Char.isspace (Str.drop 1 s) in
    let (ds, r2) := Str.span Char.isdecimal r1 in
    if Str.truthy ds then Some (1 + String.length ws + String.length ds + optional "." r2)
    else None
  else None.

Definition marker_question (s : string) : option nat :=
  if Str.startswith_nocase s "Question" then
    let (ws, r1) := Str.span Char.isspace (Str.drop 8 s) in
    let (ds, r2) := Str.span Char.isdecimal r1 in
    Some (8 + String.length ws + String.length ds + optional ":" r2)
  else None.

Definition marker_part (s : string) : option nat :=
  if Str.startswith_nocase s "Part" then
    let (ws, r1) := Str.span Char.isspace (Str.drop 4 s) in
    match r1 with
    | String l r2 =>
        if is_letter_az l then
          let (ws', r3) := Str.span Char.isspace r2 in
          match r3 with
          | String "(" r4 =>
              match lazy_dot true (prefix ")") r4 with
              | Some n =>
                  Some (4 + String.length ws + 1 + String.length ws' + 1 + n + 1
                        + optional ":" (Str.drop (S n) r4))
              | None => None
              end
          | _ => None
          end
        else None
    | "" => None
    end
  else None.

Definition or_else {A : Type} (a b : option A) : option A :=
  match a with Some _ => a | None => b end.

Definition heading_marker (s : string) : option nat :=
  or_else (marker_q s) (or_else (marker_question s) (marker_part s)).

(** The lookahead that ends a question,
    [(?=(?:Q\s*\d+|Question\s*\d+|Part\s*[A-Z]\s*\()|$)] *)
Definition next_heading (s : string) : bool :=
  (Str.startswith_nocase s "Q" &&
     (let (_, r1) := Str.span Char.isspace (Str.drop 1 s) in
      Str.truthy (fst (Str.span Char.isdecimal r1))))
  || (Str.startswith_nocase s "Question" &&
     (let (_, r1) := Str.span Char.isspace (Str.drop 8 s) in
      Str.truthy (fst (Str.span Char.isdecimal r1))))
  || (Str.startswith_nocase s "Part" &&
     (let (_, r1) := Str.span Char.isspace (Str.drop 4 s) in
      match r1 with
      | String l r2 =>
          is_letter_az l && prefix "(" (snd (Str.span Char.isspace r2))
      | "" => false
      end))
  || at_end s.

(** The harvester's pattern, capturing its one group: the text between
    a heading marker and the next heading. *)
Definition past_question : pattern string := fun s =>
  match heading_marker s with
  | Some m =>
      let rest := Str.drop m s in
      match lazy_dot true next_heading rest with
      | Some n => Some (Str.take n rest, m + n)
      | None => None
      end
  | None => None
  end.

End Re.

(** ** Python built-ins used by the generator *)

Module Py.

(** [s.replace(old, new)]; [old] is never empty in this program. *)
Definition replace (old new s : string) : string :=
  Re.sub (Re.literal old) new s.

(** [sys.get_int_max_str_digits()], CPython's default. *)
Definition int_max_str_digits : nat := 4300.

(** [int(s)] on the texts that reach it here, which are runs of decimal
    digits: the value, or [ValueError] beyond the conversion limit. Any
    other text is rejected with [ValueError]. *)
Definition int (s : string) : result Z :=
  if Str.is_empty s || negb (Str.all Char.isdecimal s) then
    Raise (Exception ValueError
             ("invalid literal for int() with base 10: '" ++ s ++ "'"))
  else if (int_max_str_digits <? String.length s)%nat then
    Raise (Exception ValueError
             ("Exceeds the limit (4300 digits) for integer string conversion: value has "
              ++ Str.of_Z (Z.of_nat (String.length s))
              ++ " digits; use sys.set_int_max_str_digits() to increase the limit"))
  else Ok (Str.value_from 0 s).

(** [str(n)] for an [int], also as an f-string writes it: the decimal
    form, or [ValueError] when it has more digits than the conversion
    limit; the sign does not count. *)
Definition str (n : Z) : result string :=
  if (int_max_str_digits <? String.length (Str.of_Z (Z.abs n)))%nat then
    Raise (Exception ValueError
             "Exceeds the limit (4300 digits) for integer string conversion; use sys.set_int_max_str_digits() to increase the limit")
  else Ok (Str.of_Z n).

(** [s[0]] *)
Definition first_char (s : string) : result ascii :=
  match s with
  | String c _ => Ok c
  | "" => Raise (Exception IndexError "string index out of range")
  end.

(** [first, *rest = xs] *)
Definition unpack_first {A : Type} (xs : list A) : result (A * list A) :=
  match xs with
  | x :: rest => Ok (x, rest)
  | [] => Raise (Exception ValueError
                   "not enough values to unpack (expected at least 1, got 0)")
  end.

(** [xs[-1] = f(xs[-1])], the update in place of the last element *)
Fixpoint update_last {A : Type} (f : A -> A) (xs : list A) : result (list A) :=
  match xs with
  | [] => Raise (Exception IndexError "list index out of range")
  | [x] => Ok [f x]
  | x :: rest => rest' <- update_last f rest ;; Ok (x :: rest')
  end.

(** [a or b] for a value that may be [None] or a falsy value *)
Definition or_Z (a : option Z) (b : Z) : Z :=
  match a with
  | Some n => if Z.eqb n 0 then b else n
  | None => b
  end.

Definition or_str (a : option string) (b : string) : string :=
  match a with
  | Some s => if Str.is_empty s then b else s
  | None => b
  end.

End Py.

(** ** Dictionaries *)

Module Dict.

Definition t (V : Type) : Type := list (string * V).

Definition empty {V : Type} : t V := [].

(** [d[k] = v] *)
Fixpoint set {V : Type} (d : t V) (k : string) (v : V) : t V :=
  match d with
  | [] => [(k, v)]
  | (k', v') :: d' =>
      if String.eqb k' k then (k', v) :: d' else (k', v') :: set d' k v
  end.

Fixpoint get {V : Type} (d : t V) (k : string) : option V :=
  match d with
  | [] => None
  | (k', v') :: d' => if String.eqb k' k then Some v' else get d' k
  end.

(** [d.get(k, default)] *)
Definition get_default {V : Type} (d : t V) (k : string) (default : V) : V :=
  match get d k with
  | Some v => v
  | None => default
  end.

End Dict.

(** ** Data model *)

(** A section of a template: the dict with keys ['name'], ['type'],
    ['questions'] and ['marks_per_question']. *)
Record SectionDef : Type := {
  sec_name : string;
  sec_type : string;
  sec_questions : Z;
  sec_marks_per_question : Z
}.

Record Template : Type := {
  tpl_name : string;
  tpl_institution : string;
  tpl_course : string;
  tpl_subject : string;
  tpl_total_marks : Z;
  tpl_duration_minutes : Z;
  tpl_sections : list SectionDef
}.

(** [difficulty_distribution] *)
Record DifficultyQuota : Type := {
  easy : Z;
  medium : Z;
  hard : Z
}.

(** A parsed question. The key ['options'] is present only for a
    question of a multiple-choice section. *)
Record Question : Type := {
  q_text : string;
  q_difficulty : string;
  q_marks : Z;
  q_options : option (list string)
}.

(** The value [_format_response] returns: [{'sections': sections}]. *)
Record GeneratedDocument : Type := {
  doc_sections : Dict.t (list Question)
}.

(** The objects compared by [current_section in template['sections']]: a
    string on the left, the section dicts of the list on the right. *)
Inductive pyobj : Type :=
| PyStr (s : string)
| PySection (d : SectionDef).

Definition section_eqb (a b : SectionDef) : bool :=
  String.eqb (sec_name a) (sec_name b)
  && String.eqb (sec_type a) (sec_type b)
  && Z.eqb (sec_questions a) (sec_questions b)
  && Z.eqb (sec_marks_per_question a) (sec_marks_per_question b).

(** [a == b]: objects of different types are never equal. *)
Definition py_eq (a b : pyobj) : bool :=
  match a, b with
  | PyStr x, PyStr y => String.eqb x y
  | PySection x, PySection y => section_eqb x y
  | _, _ => false
  end.

(** [x in xs] for a list [xs] *)
Definition py_in (x : pyobj) (xs : list pyobj) : bool := existsb (py_eq x) xs.

(** ** The output parser *)

(** The variables of the loop of [_format_response]. *)
Record ParserState : Type := {
  sections : Dict.t (list Question);
  current_section : option string;
  current_questions : list Question
}.

Definition initial_state : ParserState :=
  {| sections := Dict.empty; current_section := None; current_questions := [] |}.

(** [bool(current_section)]: neither [None] nor the empty string. *)
Definition section_open (cs : option string) : bool :=
  match cs with
  | Some nm => Str.truthy nm
  | None => false
  end.

(** [section_types], the dict comprehension over the template. *)
Definition section_types (template : Template) : Dict.t string :=
  fold_left (fun d sec => Dict.set d (sec_name sec) (sec_type sec))
            (tpl_sections template) Dict.empty.

(** The name of the open section, where [current_section] is truthy. *)
Definition section_name (cs : option string) : string :=
  match cs with
  | Some nm => nm
  | None => ""
  end.

(** The commit [if current_section: sections[current_section] = current_questions]. *)
Definition commit (st : ParserState) : Dict.t (list Question) :=
  if section_open (current_section st) then
    Dict.set (sections st) (section_name (current_section st))
             (current_questions st)
  else sections st.

(** The difficulty tag: the first of the three literals found in the
    line, removed everywhere in it. *)
Definition extract_difficulty (line : string) : option string * string :=
  if Str.contains "[Easy]" line then
    (Some "easy", Str.strip (Py.replace "[Easy]" "" line))
  else if Str.contains "[Medium]" line then
    (Some "medium", Str.strip (Py.replace "[Medium]" "" line))
  else if Str.contains "[Hard]" line then
    (Some "hard", Str.strip (Py.replace "[Hard]" "" line))
  else (None, line).

(** The marks tag. When [int] raises inside the [try], the line keeps
    the tag and [marks] is [None]. *)
Definition extract_marks (line : string) : result (option Z * string) :=
  match Re.search Re.marks_tag line with
  | Some digits =>
      try_except
        (m <- Py.int digits ;;
         Ok (Some m, Str.strip (Re.sub Re.marks_tag "" line)))
        (fun k => match k with ValueError | TypeError => true | _ => false end)
        (Ok (None, line))
  | None => Ok (None, line)
  end.

(** The fall-back to the template's marks: guarded by
    [current_section in template['sections']], which compares the
    section name with the section dicts of the list. *)
Definition default_marks (template : Template) (cs : string)
    (marks : option Z) : option Z :=
  match marks with
  | Some _ => marks
  | None =>
      if py_in (PyStr cs) (map PySection (tpl_sections template)) then
        match find (fun sec => String.eqb (sec_name sec) cs)
                   (tpl_sections template) with
        | Some sec => Some (sec_marks_per_question sec)
        | None => None
        end
      else None
  end.

(** The options of a multiple-choice question, from the text that
    starts at the first [a)]. *)
Definition extract_options (blob : string) : list string :=
  map (fun o => Py.replace Str.nl " " (Str.strip (snd o)))
      (filter (fun o => Str.truthy (Str.strip (snd o)))
              (Re.findall Re.option_item blob)).

(** A line that starts a question item. [line] is not empty. *)
Definition starts_item (line : string) : result bool :=
  if Str.startswith line "- " then Ok true
  else if Str.startswith line "a)" then Ok true
  else if Str.startswith line "b)" then Ok true
  else c <- Py.first_char line ;; Ok (Char.isdigit c).

(** The body of the branch for a question item: the question that is
    appended to [current_questions]. *)
Definition parse_item (template : Template) (cs : string) (line : string)
    : result Question :=
  let (difficulty, line1) := extract_difficulty line in
  r <- extract_marks line1 ;;
  let (marks0, line2) := r in
  let marks := default_marks template cs marks0 in
  let q_type := Dict.get_default (section_types template) cs "" in
  let clean_line := Re.sub_at_start Re.leading_number "" line2 in
  let clean_line := Re.sub_at_start Re.leading_tag "" clean_line in
  if String.eqb q_type "multiple_choice" then
    p <- Py.unpack_first (Re.split_before_a clean_line) ;;
    let (main_q, opts) := p in
    let options :=
      match opts with
      | blob :: _ => extract_options blob
      | [] => []
      end in
    Ok {| q_text := Str.strip main_q;
          q_difficulty := Py.or_str difficulty "medium";
          q_marks := Py.or_Z marks 0;
          q_options := Some options |}
  else
    Ok {| q_text := Str.strip clean_line;
          q_difficulty := Py.or_str difficulty "medium";
          q_marks := Py.or_Z marks 0;
          q_options := None |}.

(** [current_questions[-1]['text'] += " " + line] *)
Definition continue_question (line : string) (q : Question) : Question :=
  {| q_text := q_text q ++ " " ++ line;
     q_difficulty := q_difficulty q;
     q_marks := q_marks q;
     q_options := q_options q |}.

(** The part of an iteration under [# Process questions]: what a line
    that is not a header does to [current_questions]. *)
Definition process_line (template : Template) (cs : option string)
    (qs : list Question) (line : string) : result (list Question) :=
  if Str.truthy line && section_open cs then
    item <- starts_item line ;;
    if item then
      q <- parse_item template (section_name cs) line ;;
      Ok (qs ++ [q])%list
    else
      match qs with
      | _ :: _ => Py.update_last (continue_question line) qs
      | [] => Ok qs
      end
  else Ok qs.

(** One iteration of the loop over the lines. *)
Definition step (template : Template) (st : ParserState) (raw : string)
    : result ParserState :=
  let line := Str.strip raw in
  match Re.match_start Re.bold_header line with
  | Some nm =>
      Ok {| sections := commit st;
            current_section := Some nm;
            current_questions := [] |}
  | None =>
      qs <- process_line template (current_section st)
                         (current_questions st) line ;;
      Ok {| sections := sections st;
            current_section := current_section st;
            current_questions := qs |}
  end.

Fixpoint run_lines (template : Template) (st : ParserState)
    (lines : list string) : result ParserState :=
  match lines with
  | [] => Ok st
  | l :: rest => st' <- step template st l ;; run_lines template st' rest
  end.

(** [QuestionPaperGenerator._format_response] *)
Definition _format_response (text : string) (template : Template)
    : result GeneratedDocument :=
  st <- run_lines template initial_state (Str.split_lines text) ;;
  Ok {| doc_sections := commit st |}.

(** ** The text extractor *)

(** What [fitz] gives for a path: the text of every page, or the
    exception raised while the document is opened or read. *)
Definition Pdf : Type := result (list string).

(** The normalisation of one page,
    [re.sub(r'\s+', ' ', text).strip()]. *)
Definition normalize_page (text : string) : string :=
  Str.strip (Re.sub Re.whitespace_run " " text).

(** [QuestionPaperGenerator.extract_text_from_pdf] *)
Definition extract_text_from_pdf (pdf_path : Pdf) : string :=
  match pdf_path with
  | Ok pages => Str.join " " (map normalize_page pages)
  | Raise _ => ""
  end.

(** ** The question harvester *)

(** [QuestionPaperGenerator._clean_question] *)
Definition _clean_question (question : string) : string :=
  let question := Re.sub Re.bracketed "" question in
  let question := Str.strip (Re.sub Re.whitespace_run " " question) in
  Str.take 500 question.

(** [QuestionPaperGenerator.extract_questions_from_past_papers] *)
Definition extract_questions_from_past_papers (pdf_paths : list Pdf)
    : list string :=
  flat_map
    (fun path =>
       let text := extract_text_from_pdf path in
       let questions := Re.findall Re.past_question text in
       map _clean_question
           (filter (fun q => Str.truthy (Str.strip q)) questions))
    pdf_paths.

(** ** The prompt composer *)

(** A text given line by line; a triple-quoted literal that starts and
    ends with a line break has an empty first and last line. *)
Definition text_of_lines (ls : list string) : string := Str.join Str.nl ls.

Definition difficulty_prompt (difficulty_distribution : DifficultyQuota)
    : result string :=
  e <- Py.str (easy difficulty_distribution) ;;
  m <- Py.str (medium difficulty_distribution) ;;
  h <- Py.str (hard difficulty_distribution) ;;
  Ok (text_of_lines
        [ "";
          "**Difficulty Distribution:**";
          "- Easy Questions: " ++ e ++ "%";
          "- Medium Questions: " ++ m ++ "%";
          "- Hard Questions: " ++ h ++ "%";
          "" ]).

Definition sample_questions (past : list string) : string :=
  Str.join Str.nl (map (fun q => "- " ++ q) (firstn 15 past)).

Definition past_questions_section (past_questions : option (list string))
    : string :=
  match past_questions with
  | Some (q :: qs) =>
      text_of_lines
        [ "";
          "**Avoidance Requirements:**";
          "Do not create questions similar to these past questions:";
          sample_questions (q :: qs);
          "";
          "**Additional Guidelines:**";
          "1. Ensure new questions are distinct in both content and phrasing";
          "2. Cover similar concepts but with different approaches";
          "3. Vary question types and formats";
          "" ]
  | _ => ""
  end.

(** The f-string of one section; its type is the only part that may
    leave the Latin-1 range. *)
Definition section_prompt (section : SectionDef) : result Text.t :=
  let ty := Text.title (Py.replace "_" " " (sec_type section)) in
  questions <- Py.str (sec_questions section) ;;
  marks <- Py.str (sec_marks_per_question section) ;;
  total <- Py.str (sec_questions section * sec_marks_per_question section) ;;
  Ok (Text.join Text.nl
        [ [];
          (Text.of_str ("**" ++ sec_name section ++ " (") ++ ty
           ++ Text.of_str "):**")%list;
          Text.of_str ("- Number of questions: " ++ questions);
          Text.of_str ("- Marks per question: " ++ marks);
          Text.of_str ("- Total marks: " ++ total);
          [] ]).

(** The loop over [template['sections']]. *)
Fixpoint section_prompts (sections : list SectionDef) : result (list Text.t) :=
  match sections with
  | [] => Ok []
  | section :: rest =>
      p <- section_prompt section ;;
      ps <- section_prompts rest ;;
      Ok (p :: ps)
  end.

(** The lines of the f-string of the system instruction in front of the
    section prompts, and those between them and the two last parts. *)
Definition system_prompt_head : list string :=
  [ "";
    "You are an AI specialized in generating academic question papers.";
    "Follow these guidelines strictly:";
    "";
    "**Paper Structure:**" ].

Definition system_prompt_rules : list string :=
  [ "";
    "**Formatting Rules:**";
    "1. Start each section with the section name";
    "2. List questions with bullet points (-)";
    "3. For sub-questions use a) and b)";
    "4. Explicitly include marks allocation in brackets [X Marks]";
    "5. Keep questions concise but unambiguous";
    "6. Label each question with its difficulty level [Easy/Medium/Hard]";
    "";
    "**Quality Requirements:**";
    "1. Questions must be unambiguous and academically rigorous";
    "2. Cover all major topics from the source material";
    "3. Include appropriate technical terms";
    "4. Follow the specified difficulty distribution" ].

(** The f-string of the system instruction, from its parts. *)
Definition system_prompt_of (section_prompts : list Text.t)
    (difficulty_prompt past_questions_section : string) : Text.t :=
  Text.join Text.nl
    (map Text.of_str system_prompt_head
     ++ [ Text.join Text.nl section_prompts ]
     ++ map Text.of_str system_prompt_rules
     ++ map Text.of_str [ difficulty_prompt; past_questions_section; "" ])%list.

(** The system instruction, in the order in which the code builds its
    parts: the numbers of the quota are written first, then the numbers
    of the sections, and the first number that is too long to be
    written raises. *)
Definition system_prompt (template : Template)
    (difficulty_distribution : DifficultyQuota)
    (past_questions : option (list string)) : result Text.t :=
  dp <- difficulty_prompt difficulty_distribution ;;
  sps <- section_prompts (tpl_sections template) ;;
  Ok (system_prompt_of sps dp (past_questions_section past_questions)).

Definition user_prompt (combined_text : string) : string :=
  "Generate a comprehensive question paper from: " ++ Str.take 4000 combined_text.

(** ** The generation step *)

(** The generation service, [ollama.chat] followed by
    [response["message"]["content"]]: from the system and the user
    instruction to the text of the answer, or the exception raised. *)
Definition ChatService : Type := Text.t -> string -> result string.

(** What [generate_questions] returns: [{"error": message}] or the
    document. The instructions are composed outside the [try], so that
    an exception of the composer leaves the function. *)
Inductive Outcome : Type :=
| Failure (error : string)
| Paper (doc : GeneratedDocument).

(** [QuestionPaperGenerator.generate_questions] *)
Definition generate_questions (chat : ChatService) (combined_text : string)
    (template : Template) (difficulty_distribution : DifficultyQuota)
    (past_questions : option (list string)) : result Outcome :=
  if Str.is_empty combined_text then
    Ok (Failure "No meaningful content found in the PDFs")
  else
    system <- system_prompt template difficulty_distribution past_questions ;;
    let user := user_prompt combined_text in
    match
      (content <- chat system user ;;
       _format_response content template)
    with
    | Ok doc => Ok (Paper doc)
    | Raise e => Ok (Failure ("Error generating questions: " ++ message e))
    end.

(** ** Vocabulary of the statements *)

(** The header test of the parser on a raw line, and the name it opens. *)
Definition header_of (raw : string) : option string :=
  Re.match_start Re.bold_header (Str.strip raw).

Definition is_section_header (raw : string) : bool :=
  Re.is_some (header_of raw).

(** A line that is bold from end to end once trimmed: it starts and ends
    with two asterisks that do not overlap. *)
Fixpoint ends_with_stars (s : string) : bool :=
  match s with
  | "" => false
  | String a s' =>
      match s' with
      | String b "" => Ascii.eqb a "*" && Ascii.eqb b "*"
      | _ => ends_with_stars s'
      end
  end.

Definition whole_line_bold (raw : string) : bool :=
  let line := Str.strip raw in
  prefix "**" line && ends_with_stars (Str.drop 2 line).

(** The lines of a section body: the lines up to the next header. *)
Fixpoint body_lines (lines : list string) : list string :=
  match lines with
  | [] => []
  | l :: rest => if is_section_header l then [] else l :: body_lines rest
  end.

(** The parser in a section just opened under the name [nm]. *)
Definition opened (nm : string) : ParserState :=
  {| sections := Dict.empty; current_section := Some nm; current_questions := [] |}.

(** The state after a question has been appended. *)
Definition appended (st : ParserState) (q : Question) : ParserState :=
  {| sections := sections st;
     current_section := current_section st;
     current_questions := (current_questions st ++ [q])%list |}.

(** A template with one section of each kind, for the examples. *)
Definition section_a : SectionDef :=
  {| sec_name := "Section A"; sec_type := "short_answer";
     sec_questions := 4; sec_marks_per_question := 5 |}.

Definition section_b : SectionDef :=
  {| sec_name := "Section B"; sec_type := "multiple_choice";
     sec_questions := 10; sec_marks_per_question := 1 |}.

Definition example_template : Template :=
  {| tpl_name := "Midterm"; tpl_institution := "KTU"; tpl_course := "B.Tech";
     tpl_subject := "Mathematics"; tpl_total_marks := 30;
     tpl_duration_minutes := 90; tpl_sections := [section_a; section_b] |}.

Definition not_newline (c : ascii) : bool := negb (Ascii.eqb c Char.newline).

(** [c * n] *)
Fixpoint repeat_char (c : ascii) (n : nat) : string :=
  match n with
  | O => ""
  | S k => String c (repeat_char c k)
  end.

(** A generation service that answers every request with the same text. *)
Definition answering (content : string) : ChatService :=
  fun _ _ => Ok content.

(** A generation service that is down. *)
Definition unreachable (msg : string) : ChatService :=
  fun _ _ => Raise (Exception OtherError msg).

Definition example_quota : DifficultyQuota :=
  {| easy := 30; medium := 40; hard := 30 |}.

Module Spacing.

Definition starts_with_space (s : string) : bool :=
  match s with
  | String c _ => Char.isspace c
  | "" => false
  end.

Fixpoint ends_with_space (s : string) : bool :=
  match s with
  | "" => false
  | String c s' =>
      match s' with
      | "" => Char.isspace c
      | String _ _ => ends_with_space s'
      end
  end.

Fixpoint no_double_space (s : string) : bool :=
  match s with
  | "" => true
  | String a s' =>
      match s' with
      | String b _ => negb (Char.isspace a && Char.isspace b)
      | "" => true
      end && no_double_space s'
  end.

(** No two consecutive white space characters, none at either end. *)
Definition well_spaced (s : string) : bool :=
  no_double_space s && negb (starts_with_space s) && negb (ends_with_space s).

(** Only white space (or nothing). *)
Definition blank (s : string) : bool := Str.all Char.isspace s.

End Spacing.

(** [c in s] for a character *)
Fixpoint has_char (c : ascii) (s : string) : bool :=
  match s with
  | "" => false
  | String d s' => Ascii.eqb c d || has_char c s'
  end.

(** No opening bracket is followed, anywhere later, by a closing one. *)
Fixpoint brackets_unclosed (s : string) : bool :=
  match s with
  | "" => true
  | String c s' =>
      (if Ascii.eqb c "[" then negb (has_char "]" s') else true)
      && brackets_unclosed s'
  end.

(** No bracketed fragment is left in [s]: the pattern of
    [_clean_question] matches nowhere. *)
Definition bracket_free (s : string) : Prop :=
  Re.search Re.bracketed s = None.

(** ** The platform of the routes *)

(** What the routes take from the libraries and from the configuration,
    and which is not modelled here. *)
Record Platform : Type := {
  (** [current_app.instance_path] *)
  instance_path : string;
  (** [werkzeug.utils.secure_filename] *)
  secure_filename : string -> string;
  (** [os.path.join] of two components *)
  path_join : string -> string -> string;
  (** [repr] of a [str] *)
  repr : string -> string
}.

(** The state that the routes change: the files on disk, each with what
    [fitz] gives for it, and the messages flashed to the user, each with
    its category. *)
Record World : Type := {
  disk : Dict.t Pdf;
  flashes : list (string * string)
}.

(** [flash(message, category)] *)
Definition flash (message category : string) (w : World) : World :=
  {| disk := disk w; flashes := (flashes w ++ [(message, category)])%list |}.

(** [file.save(path)]: the file is created, or replaced. *)
Definition write (path : string) (payload : Pdf) (w : World) : World :=
  {| disk := Dict.set (disk w) path payload; flashes := flashes w |}.

(** What [fitz.open(path)] gives in a world. *)
Definition read (w : World) (path : string) : Pdf :=
  match Dict.get (disk w) path with
  | Some pdf => pdf
  | None => Raise (Exception OtherError ("no such file: '" ++ path ++ "'"))
  end.

(** [s.lower()] *)
Fixpoint str_lower (s : string) : string :=
  match s with
  | "" => ""
  | String c s' => String (Char.to_lower c) (str_lower s')
  end.

(** [s.endswith(suffix)] *)
Definition str_endswith (s suffix : string) : bool :=
  String.eqb (Str.drop (String.length s - String.length suffix) s) suffix.

(** ** Uploaded files *)

(** A [FileStorage]: the name given by the browser and the content. An
    upload is truthy when its name is not empty. *)
Record Upload : Type := {
  filename : string;
  payload : Pdf
}.

Definition is_named (file : Upload) : bool := Str.truthy (filename file).

Definition is_pdf (file : Upload) : bool :=
  str_endswith (str_lower (filename file)) ".pdf".

(** [os.path.join(current_app.instance_path, 'uploads', file_type)] *)
Definition upload_folder (env : Platform) (file_type : string) : string :=
  path_join env (path_join env (instance_path env) "uploads") file_type.

(** The path under which the file at position [i] of the request is
    saved. A position is below the length of a list, and so far below
    the limit of [str]. *)
Definition saved_path (env : Platform) (file_type : string) (i : nat)
    (file : Upload) : string :=
  path_join env (upload_folder env file_type)
    (secure_filename env
       (file_type ++ "_" ++ Str.of_Z (Z.of_nat i) ++ "_" ++ filename file)).

(** The loop of [save_uploaded_files], from position [i] on. *)
Fixpoint save_from (env : Platform) (file_type : string) (i : nat)
    (files : list Upload) (saved_paths : list string) (w : World)
    : option (list string) * World :=
  match files with
  | [] =>
      (match saved_paths with
       | [] => None
       | _ :: _ => Some saved_paths
       end, w)
  | file :: rest =>
      if is_named file then
        if is_pdf file then
          let pdf_path := saved_path env file_type i file in
          save_from env file_type (S i) rest
                    (saved_paths ++ [pdf_path])%list
                    (write pdf_path (payload file) w)
        else (None, flash "Only PDF files are allowed" "error" w)
      else save_from env file_type (S i) rest saved_paths w
  end.

(** [save_uploaded_files] *)
Definition save_uploaded_files (env : Platform) (files : list Upload)
    (file_type : string) (w : World) : option (list string) * World :=
  save_from env file_type 0 files [] w.

(** The files of a request with their positions, as [enumerate] gives
    them, from position [i] on. *)
Fixpoint enumerate_from {A : Type} (i : nat) (xs : list A) : list (nat * A) :=
  match xs with
  | [] => []
  | x :: rest => (i, x) :: enumerate_from (S i) rest
  end.

(** ** Numbers in forms *)

(** The white space that [int] accepts around a number. *)
Definition int_space (c : ascii) : bool :=
  Char.between 9 13 c || (Char.code c =? 32)%nat
  || (Char.code c =? 133)%nat || (Char.code c =? 160)%nat.

Fixpoint lstrip_by (p : ascii -> bool) (s : string) : string :=
  match s with
  | "" => ""
  | String c s' => if p c then lstrip_by p s' else s
  end.

Fixpoint rstrip_by (p : ascii -> bool) (s : string) : string :=
  match s with
  | "" => ""
  | String c s' =>
      let r := rstrip_by p s' in
      if Str.is_empty r && p c then "" else String c r
  end.

(** The digits of a number in which single underscores may separate
    digits; [after_digit] tells whether the previous character was a
    digit. *)
Fixpoint int_digits (after_digit : bool) (s : string) : option string :=
  match s with
  | "" => if after_digit then Some "" else None
  | String c s' =>
      if Char.isdecimal c then option_map (String c) (int_digits true s')
      else if Ascii.eqb c "_" && after_digit then int_digits false s'
      else None
  end.

(** [int(s)] for a [str]: white space, a sign, digits. *)
Definition int_of_str (env : Platform) (s : string) : result Z :=
  let t := rstrip_by int_space (lstrip_by int_space s) in
  let signed :=
    match t with
    | String "-" r => (true, r)
    | String "+" r => (false, r)
    | _ => (false, t)
    end in
  match int_digits false (snd signed) with
  | Some ds =>
      if (Py.int_max_str_digits <? String.length ds)%nat then
        Raise (Exception ValueError
                 ("Exceeds the limit (4300 digits) for integer string conversion: value has "
                  ++ Str.of_Z (Z.of_nat (String.length ds))
                  ++ " digits; use sys.set_int_max_str_digits() to increase the limit"))
      else Ok (if fst signed then (- Str.value_from 0 ds)%Z
               else Str.value_from 0 ds)
  | None =>
      Raise (Exception ValueError
               ("invalid literal for int() with base 10: " ++ repr env s))
  end.

(** [int(request.form.get(name))]: a field that is missing is [None]. *)
Definition int_of_field (env : Platform) (field : option string) : result Z :=
  match field with
  | Some s => int_of_str env s
  | None =>
      Raise (Exception TypeError
               "int() argument must be a string, a bytes-like object or a real number, not 'NoneType'")
  end.

(** [int(request.form.get(name, default))] for an [int] default. *)
Definition int_of_field_or (env : Platform) (field : option string)
    (default : Z) : result Z :=
  match field with
  | Some s => int_of_str env s
  | None => Ok default
  end.

(** [xs[i]] *)
Definition list_index {A : Type} (xs : list A) (i : nat) : result A :=
  match nth_error xs i with
  | Some x => Ok x
  | None => Raise (Exception IndexError "list index out of range")
  end.

(** A platform for the examples: file names are kept as they are, and
    paths are joined with a slash. *)
Definition example_platform : Platform :=
  {| instance_path := "/srv/instance";
     secure_filename := fun name => name;
     path_join := fun a b => a ++ "/" ++ b;
     repr := fun s => "'" ++ s ++ "'" |}.

Definition empty_world : World := {| disk := Dict.empty; flashes := [] |}.

(** The named files of a request, with their positions. *)
Definition named_files (i : nat) (files : list Upload) : list (nat * Upload) :=
  filter (fun p => is_named (snd p)) (enumerate_from i files).

(** The world after the files of a list, given with their positions,
    have been saved. *)
Definition saved_all (env : Platform) (file_type : string)
    (kept : list (nat * Upload)) (w : World) : World :=
  fold_left (fun w p => write (saved_path env file_type (fst p) (snd p))
                              (payload (snd p)) w)
            kept w.

(** ** Editing a stored paper *)

(** The loop of [edit_paper] over the edits. The stored content and the
    edits are JSON values of the shapes the route works on: the sections
    of a paper are an object from section names to lists of questions, a
    question is an object, and so are the edits; [V] is the type of the
    values of the fields. *)
Section Edits.

Context {V : Type}.

(** [d.update(other)] *)
Definition dict_update (d other : Dict.t V) : Dict.t V :=
  fold_left (fun acc kv => Dict.set acc (fst kv) (snd kv)) other d.

(** The inner loop: the question at position [i] of the edit updates
    the stored question at position [i], when there is one. *)
Fixpoint edit_questions (stored questions : list (Dict.t V))
    : list (Dict.t V) :=
  match stored, questions with
  | q :: stored', question :: questions' =>
      dict_update q question :: edit_questions stored' questions'
  | _, _ => stored
  end.

(** The outer loop: the edits of the sections that the paper has. *)
Definition apply_edits (sections edits : Dict.t (list (Dict.t V)))
    : Dict.t (list (Dict.t V)) :=
  fold_left
    (fun secs e =>
       match Dict.get secs (fst e) with
       | Some stored => Dict.set secs (fst e) (edit_questions stored (snd e))
       | None => secs
       end)
    edits sections.

End Edits.

(** ** Creating a template *)

(** The fields of the form of the step [create_template]: a scalar field
    that the request does not hold is [None], and the fields of the
    sections come as four lists. *)
Record TemplateForm : Type := {
  form_template_name : option string;
  form_institution : option string;
  form_course : option string;
  form_subject : option string;
  form_total_marks : option string;
  form_duration_minutes : option string;
  form_section_names : list string;
  form_section_types : list string;
  form_section_questions : list string;
  form_section_marks : list string
}.

(** The template that the step puts into the session. *)
Record CustomTemplate : Type := {
  custom_name : option string;
  custom_institution : option string;
  custom_course : option string;
  custom_subject : option string;
  custom_total_marks : Z;
  custom_duration_minutes : Z;
  custom_sections : list SectionDef
}.

(** The loop over [range(len(section_names))], from position [i] on;
    [names] are the names from this position on. The other lists are
    indexed at [i], each one only when the fields before it in the
    condition are not empty. *)
Fixpoint collect_sections (env : Platform)
    (section_types section_questions section_marks : list string)
    (i : nat) (names : list string) (acc : list SectionDef)
    : result (list SectionDef) :=
  match names with
  | [] => Ok acc
  | name :: rest =>
      complete <-
        (if Str.truthy name then
           ty <- list_index section_types i ;;
           if Str.truthy ty then
             q <- list_index section_questions i ;;
             if Str.truthy q then
               m <- list_index section_marks i ;;
               Ok (Str.truthy m)
             else Ok false
           else Ok false
         else Ok false) ;;
      if complete : bool then
        ty <- list_index section_types i ;;
        q <- list_index section_questions i ;;
        questions <- int_of_str env q ;;
        m <- list_index section_marks i ;;
        marks <- int_of_str env m ;;
        collect_sections env section_types section_questions section_marks
          (S i) rest
          (acc ++ [{| sec_name := name; sec_type := ty;
                      sec_questions := questions;
                      sec_marks_per_question := marks |}])%list
      else
        collect_sections env section_types section_questions section_marks
          (S i) rest acc
  end.

(** The step [create_template] of the route [index]: the template put
    into the session, or [None] after a redirection to the start; an
    exception that the step does not catch is raised. *)
Definition create_template (env : Platform) (form : TemplateForm) (w : World)
    : result (option CustomTemplate) * World :=
  let body :=
    total_marks <- int_of_field env (form_total_marks form) ;;
    duration_minutes <- int_of_field env (form_duration_minutes form) ;;
    secs <- collect_sections env (form_section_types form)
              (form_section_questions form) (form_section_marks form)
              0 (form_section_names form) [] ;;
    Ok {| custom_name := form_template_name form;
          custom_institution := form_institution form;
          custom_course := form_course form;
          custom_subject := form_subject form;
          custom_total_marks := total_marks;
          custom_duration_minutes := duration_minutes;
          custom_sections := secs |} in
  match body with
  | Ok template =>
      match custom_sections template with
      | [] => (Ok None, flash "Please define at least one section" "error" w)
      | _ :: _ => (Ok (Some template), w)
      end
  | Raise e =>
      match kind e with
      | ValueError | KeyError =>
          (Ok None,
           flash ("Error creating template: " ++ message e) "error" w)
      | _ => (Raise e, w)
      end
  end.

(** One row of the form of the sections. *)
Record FormRow : Type := {
  row_name : string;
  row_type : string;
  row_questions : string;
  row_marks : string
}.

(** A row of which no field is empty. *)
Definition row_complete (row : FormRow) : bool :=
  Str.truthy (row_name row) && Str.truthy (row_type row)
  && Str.truthy (row_questions row) && Str.truthy (row_marks row).

(** The form whose section lists are the columns of [rows]. *)
Definition form_of_rows (name institution course subject : option string)
    (total_marks duration_minutes : option string) (rows : list FormRow)
    : TemplateForm :=
  {| form_template_name := name;
     form_institution := institution;
     form_course := course;
     form_subject := subject;
     form_total_marks := total_marks;
     form_duration_minutes := duration_minutes;
     form_section_names := map row_name rows;
     form_section_types := map row_type rows;
     form_section_questions := map row_questions rows;
     form_section_marks := map row_marks rows |}.

(** The section of a complete row whose numbers can be read. *)
Definition row_section (env : Platform) (row : FormRow) : list SectionDef :=
  if row_complete row then
    match int_of_str env (row_questions row),
          int_of_str env (row_marks row) with
    | Ok questions, Ok marks =>
        [{| sec_name := row_name row; sec_type := row_type row;
            sec_questions := questions; sec_marks_per_question := marks |}]
    | _, _ => []
    end
  else [].

(** A complete row with a number that [int] rejects. *)
Definition row_malformed (env : Platform) (row : FormRow) : bool :=
  row_complete row
  && match int_of_str env (row_questions row),
           int_of_str env (row_marks row) with
     | Ok _, Ok _ => false
     | _, _ => true
     end.

(** ** Generating a paper *)

(** The entry ['custom_template'] of the session: absent, a value that
    is falsy or has no ['sections'], or a template. *)
Inductive SessionTemplate : Type :=
| NotInSession
| Malformed
| WellFormed (template : Template).

(** What the step [generate] reads from the request and the session. *)
Record GenerateRequest : Type := {
  session_template : SessionTemplate;
  request_pdfs : list Upload;
  request_past_papers : list Upload;
  easy_percentage : option string;
  medium_percentage : option string;
  hard_percentage : option string
}.

(** How the step ends before anything is stored: with a redirection, or
    with the generated paper, which the rest of the step stores. *)
Inductive GenerateReply : Type :=
| RedirectToIndex
| RedirectBack
| Proceed (template : Template) (result : GeneratedDocument)
          (difficulty_distribution : DifficultyQuota)
          (study_materials : list string)
          (past_papers : option (list string)).

(** The past papers of the request: at most five named files, saved
    when there is one; a failed upload leaves no past papers. *)
Definition save_past_papers (env : Platform) (past_paper_files : list Upload)
    (w : World) : option (list string) * World :=
  if negb (Nat.eqb (List.length past_paper_files) 0) && existsb is_named past_paper_files
  then
    match firstn 5 (filter is_named past_paper_files) with
    | [] => (None, w)
    | valid_past_papers =>
        let (saved, w') :=
          save_uploaded_files env valid_past_papers "past_papers" w in
        (match saved with
         | Some (p :: ps) => Some (p :: ps)
         | _ => None
         end, w')
    end
  else (None, w).

(** The step [generate] of the route [index], up to the generated
    paper. *)
Definition generate_step (env : Platform) (chat : ChatService)
    (req : GenerateRequest) (w : World) : result GenerateReply * World :=
  match session_template req with
  | NotInSession =>
      (Ok RedirectToIndex,
       flash "Please create or select a template first" "error" w)
  | Malformed =>
      (Ok RedirectToIndex, flash "Invalid template configuration" "error" w)
  | WellFormed template =>
      match request_pdfs req with
      | [] =>
          (Ok RedirectBack,
           flash "Please upload at least one study material" "error" w)
      | files =>
          let (saved, w1) :=
            save_uploaded_files env files "study_materials" w in
          match saved with
          | None | Some [] => (Ok RedirectBack, w1)
          | Some study_materials =>
              let (past_papers, w2) :=
                save_past_papers env (request_past_papers req) w1 in
              match
                (e <- int_of_field_or env (easy_percentage req) 30 ;;
                 m <- int_of_field_or env (medium_percentage req) 40 ;;
                 h <- int_of_field_or env (hard_percentage req) 30 ;;
                 Ok {| easy := e; medium := m; hard := h |})
              with
              | Raise e => (Raise e, w2)
              | Ok difficulty_distribution =>
                  let combined_text :=
                    filter Str.truthy
                      (map (fun path => extract_text_from_pdf (read w2 path))
                           study_materials) in
                  match combined_text with
                  | [] =>
                      (Ok RedirectBack,
                       flash "No extractable text found in PDFs" "error" w2)
                  | _ :: _ =>
                      let past_questions :=
                        match past_papers with
                        | Some (p :: ps) =>
                            Some (extract_questions_from_past_papers
                                    (map (read w2) (p :: ps)))
                        | _ => None
                        end in
                      match generate_questions chat
                              (Str.join (Str.nl ++ Str.nl) combined_text)
                              template difficulty_distribution past_questions
                      with
                      | Raise e => (Raise e, w2)
                      | Ok (Failure error) =>
                          (Ok RedirectBack, flash error "error" w2)
                      | Ok (Paper doc) =>
                          (Ok (Proceed template doc difficulty_distribution
                                       study_materials past_papers), w2)
                      end
                  end
              end
          end
      end
  end.

(** The request with other past papers. *)
Definition with_past_papers (req : GenerateRequest) (past : list Upload)
    : GenerateRequest :=
  {| session_template := session_template req;
     request_pdfs := request_pdfs req;
     request_past_papers := past;
     easy_percentage := easy_percentage req;
     medium_percentage := medium_percentage req;
     hard_percentage := hard_percentage req |}.

(** Every field of the question [q] is a field of [q']. *)
Definition keeps_fields {V : Type} (q q' : Dict.t V) : Prop :=
  forall k, In k (map fst q) -> In k (map fst q').

(** Two papers with the same sections in the same order, in which the
    questions correspond one to one and no question has lost a field. *)
Definition keeps_questions {V : Type}
    (sections sections' : Dict.t (list (Dict.t V))) : Prop :=
  Forall2 (fun p p' => fst p = fst p' /\ Forall2 keeps_fields (snd p) (snd p'))
          sections sections'.

(** A number with more digits than [str] writes. *)
Definition too_long (n : Z) : bool :=
  (Py.int_max_str_digits <? String.length (Str.of_Z (Z.abs n)))%nat.

(** The numbers that the composer writes, in the order in which it
    writes them: the percentages of the quota, then for each section
    its number of questions, its marks per question and their product. *)
Definition written_numbers (template : Template) (quota : DifficultyQuota)
    : list Z :=
  ([easy quota; medium quota; hard quota]
   ++ flat_map (fun section =>
                  [ sec_questions section;
                    sec_marks_per_question section;
                    sec_questions section * sec_marks_per_question section ]%Z)
               (tpl_sections template))%list.

(** The exception of [str] at a number that is too long. *)
Definition str_limit_error : exn :=
  Exception ValueError
    "Exceeds the limit (4300 digits) for integer string conversion; use sys.set_int_max_str_digits() to increase the limit".

(** A template with one section whose numbers can each be written and
    read, while their product cannot be written. *)
Definition long_total_template : Template :=
  {| tpl_name := "Midterm"; tpl_institution := "KTU"; tpl_course := "B.Tech";
     tpl_subject := "Mathematics"; tpl_total_marks := 30;
     tpl_duration_minutes := 90;
     tpl_sections :=
       [ {| sec_name := "Section A"; sec_type := "short_answer";
            sec_questions := 10 ^ 2200;
            sec_marks_per_question := 10 ^ 2200 |} ] |}.

(** ** Vocabulary of the further properties *)

(** Every question of every section satisfies [P], which may depend on
    the name of the section. *)
Definition sections_satisfy (P : string -> Question -> Prop)
    (d : Dict.t (list Question)) : Prop :=
  forall nm qs, In (nm, qs) d -> Forall (P nm) qs.

(** The declared type of a section name, as the parser looks it up. *)
Definition declared_type (template : Template) (nm : string) : string :=
  Dict.get_default (section_types template) nm "".

(** A character that is not white space, or the ordinary space. *)
Definition plain (c : ascii) : bool :=
  negb (Char.isspace c) || Ascii.eqb c " ".

(** The letters a heading marker of the harvester can start with. *)
Definition heading_letter (c : ascii) : bool :=
  Char.eqb_nocase c "q" || Char.eqb_nocase c "p".

(** * Properties *)

(** ** Strings *)

Section StringFacts.

Lemma append_empty_r (s : string) : s ++ "" = s.
Proof. induction s as [|c s IH]; simpl; [reflexivity | now rewrite IH]. Qed.

Lemma append_assoc (a b c : string) : (a ++ b) ++ c = a ++ (b ++ c).
Proof. induction a as [|x a IH]; simpl; [reflexivity | now rewrite IH]. Qed.

Lemma length_append (a b : string) :
  String.length (a ++ b) = String.length a + String.length b.
Proof. induction a as [|x a IH]; simpl; [reflexivity | now rewrite IH]. Qed.

Lemma take_length (n : nat) (s : string) : String.length (Str.take n s) <= n.
Proof.
  revert s; induction n as [|n IH]; intros [|c s]; simpl; try lia.
  specialize (IH s); lia.
Qed.

Lemma take_drop (n : nat) (s : string) : Str.take n s ++ Str.drop n s = s.
Proof.
  revert s; induction n as [|n IH]; intros [|c s]; simpl; try reflexivity.
  now rewrite IH.
Qed.

Lemma take_idem (n : nat) (s : string) : Str.take n (Str.take n s) = Str.take n s.
Proof.
  revert s; induction n as [|n IH]; intros [|c s]; simpl; try reflexivity.
  now rewrite IH.
Qed.

Lemma drop_length (n : nat) (s : string) :
  String.length (Str.drop n s) = String.length s - n.
Proof.
  revert s; induction n as [|n IH]; intros [|c s]; simpl; try lia.
  apply IH.
Qed.

Lemma span_append (p : ascii -> bool) (s : string) :
  fst (Str.span p s) ++ snd (Str.span p s) = s.
Proof.
  induction s as [|c s IH]; simpl; [reflexivity|].
  destruct (p c); simpl; [|reflexivity].
  destruct (Str.span p s) as [a b]; simpl in *; now rewrite IH.
Qed.

Lemma span_space_lstrip (s : string) :
  snd (Str.span Char.isspace s) = Str.lstrip s.
Proof.
  induction s as [|c s IH]; simpl; [reflexivity|].
  destruct (Char.isspace c); simpl; [|reflexivity].
  destruct (Str.span Char.isspace s) as [a b]; simpl in *; exact IH.
Qed.

Lemma span_drop (p : ascii -> bool) (s : string) :
  Str.drop (String.length (fst (Str.span p s))) s = snd (Str.span p s).
Proof.
  induction s as [|c s IH]; simpl; [reflexivity|].
  destruct (p c); simpl; [|reflexivity].
  destruct (Str.span p s) as [a b]; simpl in *; exact IH.
Qed.

Lemma is_empty_true (s : string) : Str.is_empty s = true <-> s = "".
Proof. destruct s; simpl; split; intro H; try discriminate; reflexivity. Qed.

Lemma truthy_true (s : string) : Str.truthy s = true <-> s <> "".
Proof.
  destruct s; unfold Str.truthy; simpl; split; intro H;
    try discriminate; try reflexivity; now elim H.
Qed.

End StringFacts.

(** ** The parser never raises *)

Section Totality.

Variable template : Template.

Lemma int_raises_value_error (s : string) :
  (exists z, Py.int s = Ok z)
  \/ (exists m, Py.int s = Raise (Exception ValueError m)).
Proof.
  unfold Py.int.
  destruct (Str.is_empty s || negb (Str.all Char.isdecimal s)).
  - right; eexists; reflexivity.
  - destruct (Py.int_max_str_digits <? String.length s)%nat.
    + right; eexists; reflexivity.
    + left; eexists; reflexivity.
Qed.

Lemma extract_marks_ok (line : string) :
  exists r, extract_marks line = Ok r.
Proof.
  unfold extract_marks.
  destruct (Re.search Re.marks_tag line) as [digits|]; [|eexists; reflexivity].
  destruct (int_raises_value_error digits) as [[z Hz]|[m Hm]].
  - rewrite Hz; simpl; eexists; reflexivity.
  - rewrite Hm; simpl; eexists; reflexivity.
Qed.

Lemma split_before_a_cons (s : string) :
  exists main_q opts, Re.split_before_a s = main_q :: opts.
Proof.
  unfold Re.split_before_a.
  destruct (Re.lazy_dot true (prefix "a)") s); do 2 eexists; reflexivity.
Qed.

Lemma parse_item_ok (cs line : string) :
  exists q, parse_item template cs line = Ok q.
Proof.
  unfold parse_item.
  destruct (extract_difficulty line) as [difficulty line1].
  destruct (extract_marks_ok line1) as [[marks0 line2] Hm]; rewrite Hm; simpl.
  destruct (String.eqb _ "multiple_choice"); [|eexists; reflexivity].
  destruct (split_before_a_cons
              (Re.sub_at_start Re.leading_tag ""
                 (Re.sub_at_start Re.leading_number "" line2)))
    as (main_q & opts & Hs).
  rewrite Hs; simpl; eexists; reflexivity.
Qed.

Lemma starts_item_ok (line : string) :
  line <> "" -> exists b, starts_item line = Ok b.
Proof.
  intro Hne; unfold starts_item.
  destruct (Str.startswith line "- "); [eexists; reflexivity|].
  destruct (Str.startswith line "a)"); [eexists; reflexivity|].
  destruct (Str.startswith line "b)"); [eexists; reflexivity|].
  destruct line as [|c line]; [now elim Hne|].
  simpl; eexists; reflexivity.
Qed.

Lemma update_last_ok {A : Type} (f : A -> A) (x : A) (xs : list A) :
  exists ys, Py.update_last f (x :: xs) = Ok ys.
Proof.
  revert x; induction xs as [|y xs IH]; intro x.
  - eexists; reflexivity.
  - destruct (IH y) as [ys Hys].
    exists (x :: ys).
    change (Py.update_last f (x :: y :: xs))
      with (rest' <- Py.update_last f (y :: xs) ;; Ok (x :: rest')).
    rewrite Hys; reflexivity.
Qed.

Lemma process_line_ok (cs : option string) (qs : list Question)
    (line : string) :
  exists qs', process_line template cs qs line = Ok qs'.
Proof.
  unfold process_line.
  destruct (Str.truthy line) eqn:Hline; simpl; [|eexists; reflexivity].
  destruct (section_open cs); [|eexists; reflexivity].
  apply truthy_true in Hline.
  destruct (starts_item_ok _ Hline) as [b Hb]; rewrite Hb; simpl.
  destruct b.
  - destruct (parse_item_ok (section_name cs) line) as [q Hq]; rewrite Hq; simpl.
    eexists; reflexivity.
  - destruct qs as [|q qs]; [eexists; reflexivity|].
    apply update_last_ok.
Qed.

Lemma step_header (st : ParserState) (raw nm : string) :
  header_of raw = Some nm ->
  step template st raw
  = Ok {| sections := commit st;
          current_section := Some nm;
          current_questions := [] |}.
Proof. unfold header_of, step; intros ->; reflexivity. Qed.

Lemma step_body (st : ParserState) (raw : string) :
  header_of raw = None ->
  exists qs,
    process_line template (current_section st) (current_questions st)
                 (Str.strip raw) = Ok qs
    /\ step template st raw
       = Ok {| sections := sections st;
               current_section := current_section st;
               current_questions := qs |}.
Proof.
  unfold header_of, step; intros ->.
  destruct (process_line_ok (current_section st) (current_questions st)
                            (Str.strip raw)) as [qs Hqs].
  exists qs; split; [exact Hqs|]; rewrite Hqs; reflexivity.
Qed.

Lemma step_ok (st : ParserState) (raw : string) :
  exists st', step template st raw = Ok st'.
Proof.
  destruct (header_of raw) as [nm|] eqn:Hh.
  - eexists; apply step_header; exact Hh.
  - destruct (step_body st raw Hh) as (qs & _ & Hs); eexists; exact Hs.
Qed.

Lemma run_lines_ok (lines : list string) (st : ParserState) :
  exists st', run_lines template st lines = Ok st'.
Proof.
  revert st; induction lines as [|l lines IH]; intro st; simpl.
  - eexists; reflexivity.
  - destruct (step_ok st l) as [st1 H1]; rewrite H1; simpl; apply IH.
Qed.

Lemma run_lines_app (l1 l2 : list string) (st : ParserState) :
  run_lines template st (l1 ++ l2)
  = (st' <- run_lines template st l1 ;; run_lines template st' l2).
Proof.
  revert st; induction l1 as [|l l1 IH]; intro st; simpl; [reflexivity|].
  destruct (step template st l); simpl; [apply IH | reflexivity].
Qed.

Lemma format_response_total (text : string) :
  exists st,
    run_lines template initial_state (Str.split_lines text) = Ok st
    /\ _format_response text template = Ok {| doc_sections := commit st |}.
Proof.
  destruct (run_lines_ok (Str.split_lines text) initial_state) as [st Hst].
  exists st; split; [exact Hst|].
  unfold _format_response; rewrite Hst; reflexivity.
Qed.

End Totality.

(** ** Lines that are not headers *)

Section Bodies.

Variable template : Template.

Lemma run_lines_body (lines : list string) (st : ParserState) :
  existsb is_section_header lines = false ->
  exists qs,
    run_lines template st lines
    = Ok {| sections := sections st;
            current_section := current_section st;
            current_questions := qs |}
    /\ forall st2,
        current_section st2 = current_section st ->
        current_questions st2 = current_questions st ->
        run_lines template st2 lines
        = Ok {| sections := sections st2;
                current_section := current_section st2;
                current_questions := qs |}.
Proof.
  revert st; induction lines as [|l lines IH]; intros st Hno.
  - exists (current_questions st); split.
    + destruct st; reflexivity.
    + intros st2 _ <-; destruct st2; reflexivity.
  - simpl in Hno; apply orb_false_iff in Hno as [Hl Hrest].
    assert (Hh : header_of l = None).
    { unfold is_section_header in Hl; destruct (header_of l); [discriminate | reflexivity]. }
    destruct (step_body template st l Hh) as (qs1 & Hp & Hs).
    destruct (IH {| sections := sections st;
                    current_section := current_section st;
                    current_questions := qs1 |} Hrest) as (qs & Hrun & Hother).
    exists qs; split.
    + simpl; rewrite Hs; simpl; exact Hrun.
    + intros st2 Hcs Hcq.
      destruct (step_body template st2 l Hh) as (qs2 & Hp2 & Hs2).
      rewrite Hcs, Hcq, Hp in Hp2; injection Hp2 as <-.
      simpl; rewrite Hs2; simpl.
      rewrite (Hother {| sections := sections st2;
                         current_section := current_section st2;
                         current_questions := qs1 |}); simpl; auto.
Qed.

End Bodies.

(** C3. For every template and every text the parser returns a document
    and raises nothing; a text in which no line is a header gives the
    document with zero sections. *)
Theorem parser_never_raises (template : Template) (text : string) :
  exists doc,
    _format_response text template = Ok doc
    /\ (existsb is_section_header (Str.split_lines text) = false ->
        doc_sections doc = Dict.empty).
Proof.
  destruct (format_response_total template text) as (st & Hrun & Hdoc).
  eexists; split; [exact Hdoc|].
  intro Hno; simpl.
  destruct (run_lines_body template _ initial_state Hno) as (qs & Hq & _).
  rewrite Hrun in Hq; injection Hq as ->; reflexivity.
Qed.

Lemma parser_never_raises_witness :
  exists doc,
    _format_response ("lorem ipsum" ++ Str.nl ++ "- [Easy] dolor") example_template
    = Ok doc
    /\ doc_sections doc = Dict.empty.
Proof.
  destruct (parser_never_raises example_template
              ("lorem ipsum" ++ Str.nl ++ "- [Easy] dolor")) as (doc & Hdoc & Hzero).
  exists doc; split; [exact Hdoc | apply Hzero; reflexivity].
Defined.

(** ** The lazy quantifier *)

Section LazyDot.

Variable dotall : bool.
Variable k : string -> bool.

Lemma lazy_dot_sound (s : string) (n : nat) :
  Re.lazy_dot dotall k s = Some n ->
  k (Str.drop n s) = true
  /\ n <= String.length s
  /\ (forall i, i < n -> k (Str.drop i s) = false)
  /\ (dotall = false -> Str.all not_newline (Str.take n s) = true).
Proof.
  revert n; induction s as [|c s IH]; intros n; simpl.
  - destruct (k "") eqn:Hk; [|discriminate].
    intros [= <-]; simpl; repeat split; auto; intros; lia.
  - destruct (k (String c s)) eqn:Hk.
    + intros [= <-]; simpl; repeat split; auto; intros; lia.
    + destruct (negb dotall && Ascii.eqb c Char.newline) eqn:Hnl; [discriminate|].
      destruct (Re.lazy_dot dotall k s) as [m|]; [|discriminate].
      intros [= <-].
      destruct (IH m eq_refl) as (H1 & H2 & H3 & H4).
      simpl; repeat split; auto; try lia.
      * intros [|i] Hi; simpl; [exact Hk | apply H3; lia].
      * intros ->; simpl in Hnl.
        unfold not_newline at 1; rewrite Hnl; simpl; auto.
Qed.

Lemma lazy_dot_complete (n : nat) (s : string) :
  k (Str.drop n s) = true ->
  n <= String.length s ->
  (forall i, i < n -> k (Str.drop i s) = false) ->
  (dotall = false -> Str.all not_newline (Str.take n s) = true) ->
  Re.lazy_dot dotall k s = Some n.
Proof.
  revert s; induction n as [|n IH]; intros s Hk Hlen Hmin Hnl.
  - destruct s; simpl in *; rewrite Hk; reflexivity.
  - destruct s as [|c s]; simpl in Hlen; [lia|].
    simpl.
    assert (H0 : k (String c s) = false) by (apply (Hmin 0); lia).
    rewrite H0.
    assert (Hc : negb dotall && Ascii.eqb c Char.newline = false).
    { destruct dotall; simpl; [reflexivity|].
      specialize (Hnl eq_refl); simpl in Hnl.
      apply andb_true_iff in Hnl as [Hc _].
      unfold not_newline in Hc; now apply negb_true_iff in Hc. }
    rewrite Hc, (IH s); simpl; auto; try lia.
    + intros i Hi; apply (Hmin (S i)); lia.
    + intros Hd; specialize (Hnl Hd); simpl in Hnl.
      now apply andb_true_iff in Hnl as [_ Hrest].
Qed.

End LazyDot.

Lemma prefix_append (p s : string) :
  prefix p s = true <-> exists r, s = p ++ r.
Proof.
  revert s; induction p as [|a p IH]; intros s; simpl.
  - destruct s; split; eauto.
  - destruct s as [|b s]; simpl.
    + split; [discriminate | intros [r Hr]; discriminate].
    + destruct (ascii_dec a b) as [->|Hab].
      * rewrite IH; split; intros [r Hr]; exists r; congruence.
      * split; [discriminate | intros [r [= Hb _]]; congruence].
Qed.

Lemma drop_append (a b : string) : Str.drop (String.length a) (a ++ b) = b.
Proof. induction a as [|c a IH]; simpl; [now destruct b | exact IH]. Qed.

Lemma take_append (a b : string) : Str.take (String.length a) (a ++ b) = a.
Proof. induction a as [|c a IH]; simpl; [now destruct b | now rewrite IH]. Qed.

Lemma drop_drop (n m : nat) (s : string) :
  Str.drop n (Str.drop m s) = Str.drop (m + n) s.
Proof.
  revert s; induction m as [|m IH]; intros s; simpl.
  - reflexivity.
  - destruct s as [|c s]; [now destruct n | apply IH].
Qed.

(** The header test, spelled out: the trimmed line starts with two
    asterisks, the name, and two asterisks; no pair of asterisks starts
    inside the name; the name holds no line break. *)
Lemma header_of_iff (raw nm : string) :
  header_of raw = Some nm
  <-> prefix ("**" ++ nm ++ "**") (Str.strip raw) = true
      /\ (forall i, i < String.length nm ->
                    prefix "**" (Str.drop (2 + i) (Str.strip raw)) = false)
      /\ Str.all not_newline nm = true.
Proof.
  unfold header_of, Re.match_start, Re.bold_header.
  set (line := Str.strip raw); clearbody line.
  split.
  - destruct (prefix "**" line) eqn:Hp; [|discriminate].
    apply prefix_append in Hp as [body Hline].
    assert (Hbody : Str.drop 2 line = body) by (rewrite Hline; reflexivity).
    rewrite Hbody.
    destruct (Re.lazy_dot false (prefix "**") body) as [n|] eqn:Hl;
      [|discriminate].
    cbn [option_map fst]; intros [= <-].
    apply lazy_dot_sound in Hl as (H1 & H2 & H3 & H4).
    assert (Hlen : String.length (Str.take n body) = n).
    { pose proof (take_drop n body) as E.
      apply (f_equal String.length) in E.
      rewrite length_append, drop_length in E; lia. }
    repeat split.
    + apply prefix_append in H1 as [rest Hrest].
      apply prefix_append; exists rest.
      rewrite Hline.
      rewrite <- (take_drop n body) at 1.
      rewrite Hrest; simpl; now rewrite append_assoc.
    + intros i Hi; rewrite Hlen in Hi.
      rewrite <- drop_drop, Hbody.
      now apply H3.
    + now apply H4.
  - intros (Hp & Hmin & Hnl).
    apply prefix_append in Hp as [rest Hline].
    assert (Hp2 : prefix "**" line = true).
    { apply prefix_append; exists (nm ++ "**" ++ rest).
      rewrite Hline; simpl; now rewrite append_assoc. }
    rewrite Hp2.
    assert (Hbody : Str.drop 2 line = nm ++ "**" ++ rest).
    { rewrite Hline; simpl; now rewrite append_assoc. }
    rewrite Hbody.
    rewrite (lazy_dot_complete false (prefix "**") (String.length nm)).
    + simpl; now rewrite take_append.
    + rewrite drop_append; now destruct rest.
    + rewrite length_append; lia.
    + intros i Hi; specialize (Hmin i Hi).
      rewrite <- Hbody, drop_drop; exact Hmin.
    + intros _; now rewrite take_append.
Qed.

(** C4 (as the code has it). A line is a section header exactly when,
    once trimmed, it begins with two asterisks, a name and two asterisks,
    the closing pair being the first one after the opening pair; what
    follows on the line is ignored. On such a line the open section, if
    its name is not empty, is committed under its name, and the parser
    restarts under the new name with no questions; any other line leaves
    the mapping and the open section as they are. *)
Theorem section_header_detection (template : Template) (st : ParserState)
    (raw : string) :
  (forall nm,
      header_of raw = Some nm
      <-> prefix ("**" ++ nm ++ "**") (Str.strip raw) = true
          /\ (forall i, i < String.length nm ->
                        prefix "**" (Str.drop (2 + i) (Str.strip raw)) = false)
          /\ Str.all not_newline nm = true)
  /\ (forall nm,
         header_of raw = Some nm ->
         step template st raw
         = Ok {| sections :=
                   if section_open (current_section st)
                   then Dict.set (sections st)
                                 (section_name (current_section st))
                                 (current_questions st)
                   else sections st;
                 current_section := Some nm;
                 current_questions := [] |})
  /\ (header_of raw = None ->
      exists qs,
        step template st raw
        = Ok {| sections := sections st;
                current_section := current_section st;
                current_questions := qs |}).
Proof.
  split; [|split].
  - intro nm; apply header_of_iff.
  - intros nm Hh; apply (step_header template st raw nm Hh).
  - intro Hh; destruct (step_body template st raw Hh) as (qs & _ & Hs).
    exists qs; exact Hs.
Qed.

Lemma section_header_detection_witness :
  step example_template (opened "Intro") "  **Section A** and the rest"
  = Ok {| sections := [("Intro", [])];
          current_section := Some "Section A";
          current_questions := [] |}.
Proof.
  apply (proj1 (proj2 (section_header_detection example_template
                         (opened "Intro") "  **Section A** and the rest"))
               "Section A").
  reflexivity.
Defined.

(** C4, as stated, fails: a line that only begins with a bold name is
    taken for a header, and the rest of the line is dropped. *)
Lemma header_with_trailing_text :
  whole_line_bold "**Section A** - [Easy] What is 2+2?" = false
  /\ is_section_header "**Section A** - [Easy] What is 2+2?" = true
  /\ step example_template (opened "Intro") "**Section A** - [Easy] What is 2+2?"
     = Ok {| sections := [("Intro", [])];
             current_section := Some "Section A";
             current_questions := [] |}.
Proof. repeat split. Qed.

(** ** Dictionaries *)

Lemma dict_get_set_same {V : Type} (d : Dict.t V) (k : string) (v : V) :
  Dict.get (Dict.set d k v) k = Some v.
Proof.
  induction d as [|[k' v'] d IH]; simpl.
  - now rewrite String.eqb_refl.
  - destruct (String.eqb k' k) eqn:E; simpl; rewrite E; [reflexivity | exact IH].
Qed.

Lemma dict_get_set_other {V : Type} (d : Dict.t V) (k k' : string) (v : V) :
  k <> k' -> Dict.get (Dict.set d k' v) k = Dict.get d k.
Proof.
  intro Hne; induction d as [|[k0 v0] d IH]; simpl.
  - destruct (String.eqb k' k) eqn:E; [|reflexivity].
    apply String.eqb_eq in E; congruence.
  - destruct (String.eqb k0 k') eqn:E; simpl.
    + apply String.eqb_eq in E; subst k0.
      destruct (String.eqb k' k) eqn:E'; [|reflexivity].
      apply String.eqb_eq in E'; congruence.
    + now rewrite IH.
Qed.

(** ** Sections that are opened more than once *)

Section Reopened.

Variable template : Template.
Variable nm : string.

Lemma commit_other (st : ParserState) :
  current_section st <> Some nm ->
  Dict.get (commit st) nm = Dict.get (sections st) nm.
Proof.
  intro Hcs; unfold commit.
  destruct (section_open (current_section st)) eqn:Hopen; [|reflexivity].
  apply dict_get_set_other.
  destruct (current_section st); simpl in *; [congruence | discriminate].
Qed.

Lemma commit_same (st : ParserState) :
  current_section st = Some nm -> nm <> "" ->
  Dict.get (commit st) nm = Some (current_questions st).
Proof.
  intros Hcs Hne; unfold commit; rewrite Hcs; simpl.
  apply truthy_true in Hne; rewrite Hne.
  apply dict_get_set_same.
Qed.

Lemma later_sections_keep (lines : list string) (st : ParserState) :
  (forall l, In l lines -> header_of l <> Some nm) ->
  current_section st <> Some nm ->
  exists st',
    run_lines template st lines = Ok st'
    /\ current_section st' <> Some nm
    /\ Dict.get (sections st') nm = Dict.get (sections st) nm.
Proof.
  revert st; induction lines as [|l lines IH]; intros st Hno Hcs.
  - exists st; repeat split; auto.
  - assert (Hl : header_of l <> Some nm) by (apply Hno; now left).
    assert (Hrest : forall l', In l' lines -> header_of l' <> Some nm)
      by (intros l' Hin; apply Hno; now right).
    destruct (header_of l) as [n2|] eqn:Hh.
    + destruct (IH {| sections := commit st;
                      current_section := Some n2;
                      current_questions := [] |} Hrest Hl)
        as (st' & Hrun & Hcs' & Hget).
      exists st'; repeat split; auto.
      * simpl; rewrite (step_header template st l n2 Hh); exact Hrun.
      * rewrite Hget; simpl; now apply commit_other.
    + destruct (step_body template st l Hh) as (qs & _ & Hs).
      destruct (IH {| sections := sections st;
                      current_section := current_section st;
                      current_questions := qs |} Hrest Hcs)
        as (st' & Hrun & Hcs' & Hget).
      exists st'; repeat split; auto.
      simpl; rewrite Hs; exact Hrun.
Qed.

Lemma body_lines_split (lines : list string) :
  exists tail,
    lines = (body_lines lines ++ tail)%list
    /\ existsb is_section_header (body_lines lines) = false
    /\ (tail = []
        \/ exists h t, tail = h :: t /\ is_section_header h = true).
Proof.
  induction lines as [|l lines (tail & Heq & Hno & Htail)]; simpl.
  - exists []; repeat split; auto.
  - destruct (is_section_header l) eqn:Hl.
    + exists (l :: lines); repeat split; auto.
      right; exists l, lines; auto.
    + exists tail; simpl; rewrite Hl, Hno; repeat split; auto.
      now rewrite <- Heq.
Qed.

Lemma last_header_wins (pre post : list string) (h : string) :
  header_of h = Some nm ->
  nm <> "" ->
  (forall l, In l post -> header_of l <> Some nm) ->
  exists st qs,
    run_lines template initial_state (pre ++ h :: post) = Ok st
    /\ run_lines template (opened nm) (body_lines post)
       = Ok {| sections := Dict.empty;
               current_section := Some nm;
               current_questions := qs |}
    /\ Dict.get (commit st) nm = Some qs.
Proof.
  intros Hh Hne Hpost.
  destruct (run_lines_ok template pre initial_state) as [st1 H1].
  set (st2 := {| sections := commit st1;
                 current_section := Some nm;
                 current_questions := [] |}).
  destruct (body_lines_split post) as (tail & Hsplit & Hno & Htail).
  destruct (run_lines_body template _ st2 Hno) as (qs & Hrun2 & Hother).
  specialize (Hother (opened nm) eq_refl eq_refl); simpl in Hother.
  set (st3 := {| sections := sections st2;
                 current_section := current_section st2;
                 current_questions := qs |}) in *.
  assert (Hget3 : Dict.get (commit st3) nm = Some qs)
    by (apply commit_same; auto).
  assert (Hprefix : forall st,
             run_lines template st3 tail = Ok st ->
             run_lines template initial_state (pre ++ h :: post) = Ok st).
  { intros st Hst.
    rewrite run_lines_app, H1; simpl.
    rewrite (step_header template st1 h nm Hh); simpl.
    fold st2; rewrite Hsplit, run_lines_app, Hrun2; simpl; exact Hst. }
  destruct Htail as [-> | (h2 & t & -> & Hh2)].
  - exists st3, qs; repeat split; auto.
  - assert (Hin : In h2 post).
    { rewrite Hsplit; apply in_or_app; right; now left. }
    assert (Ht : forall l, In l t -> header_of l <> Some nm).
    { intros l Hl; apply Hpost; rewrite Hsplit.
      apply in_or_app; right; now right. }
    unfold is_section_header in Hh2.
    destruct (header_of h2) as [n2|] eqn:E2; [|discriminate].
    assert (Hn2 : Some n2 <> Some nm).
    { intro E; specialize (Hpost h2 Hin); rewrite E2 in Hpost; contradiction. }
    destruct (later_sections_keep t
                {| sections := commit st3;
                   current_section := Some n2;
                   current_questions := [] |} Ht Hn2)
      as (st & Hrun & Hcs & Hget).
    exists st, qs; repeat split; auto.
    + apply Hprefix; simpl.
      rewrite (step_header template st3 h2 n2 E2); exact Hrun.
    + rewrite commit_other by exact Hcs.
      rewrite Hget; exact Hget3.
Qed.

End Reopened.

(** C10 (as the code has it). When the text holds header lines with the
    same name, and the name is not empty, the document maps the name to
    the questions gathered after the last of them, up to the next header
    or the end of the text; what earlier occurrences had committed under
    the name is replaced. *)
Theorem last_occurrence_wins (template : Template) (text : string)
    (pre post : list string) (h nm : string) :
  Str.split_lines text = (pre ++ h :: post)%list ->
  header_of h = Some nm ->
  nm <> "" ->
  (forall l, In l post -> header_of l <> Some nm) ->
  exists doc qs,
    _format_response text template = Ok doc
    /\ run_lines template (opened nm) (body_lines post)
       = Ok {| sections := Dict.empty;
               current_section := Some nm;
               current_questions := qs |}
    /\ Dict.get (doc_sections doc) nm = Some qs.
Proof.
  intros Hlines Hh Hne Hpost.
  destruct (last_header_wins template nm pre post h Hh Hne Hpost)
    as (st & qs & Hrun & Hbody & Hget).
  exists {| doc_sections := commit st |}, qs; repeat split; auto.
  unfold _format_response; rewrite Hlines, Hrun; reflexivity.
Qed.

Lemma last_occurrence_wins_witness :
  exists doc qs,
    _format_response
      ("**A**" ++ Str.nl ++ "- one" ++ Str.nl ++ "**B**" ++ Str.nl ++ "- two"
       ++ Str.nl ++ "**A**" ++ Str.nl ++ "- three")
      example_template = Ok doc
    /\ run_lines example_template (opened "A") (body_lines ["- three"])
       = Ok {| sections := Dict.empty;
               current_section := Some "A";
               current_questions := qs |}
    /\ Dict.get (doc_sections doc) "A" = Some qs.
Proof.
  apply (last_occurrence_wins example_template _
           ["**A**"; "- one"; "**B**"; "- two"] ["- three"] "**A**" "A").
  - reflexivity.
  - reflexivity.
  - discriminate.
  - intros l [<-|[]]; discriminate.
Defined.

(** C10, as stated, fails for the empty name: the header of four
    asterisks opens no section, and the document has no entry for it. *)
Lemma empty_name_is_not_committed :
  header_of "****" = Some ""
  /\ _format_response
       ("****" ++ Str.nl ++ "- first" ++ Str.nl ++ "****" ++ Str.nl ++ "- second")
       example_template
     = Ok {| doc_sections := [] |}
  /\ Dict.get (@Dict.empty (list Question)) "" = None.
Proof. repeat split. Qed.

(** ** Question items *)

Section Items.

Variable template : Template.

Lemma name_not_in_section_dicts (cs : string) (secs : list SectionDef) :
  py_in (PyStr cs) (map PySection secs) = false.
Proof. induction secs as [|sec secs IH]; simpl; auto. Qed.

(** The fall-back to the template's marks does nothing. *)
Lemma default_marks_never_fires (cs : string) (marks : option Z) :
  default_marks template cs marks = marks.
Proof.
  destruct marks; simpl; [reflexivity|].
  now rewrite name_not_in_section_dicts.
Qed.

Lemma section_types_keep (secs : list SectionDef) (d : Dict.t string)
    (k : string) :
  ~ In k (map sec_name secs) ->
  Dict.get (fold_left (fun d sec => Dict.set d (sec_name sec) (sec_type sec))
                      secs d) k
  = Dict.get d k.
Proof.
  revert d; induction secs as [|s secs IH]; intros d Hk; simpl; [reflexivity|].
  rewrite IH by (intro H; apply Hk; now right).
  apply dict_get_set_other.
  intro E; apply Hk; left; now symmetry.
Qed.

Lemma section_types_lookup (sec : SectionDef) :
  NoDup (map sec_name (tpl_sections template)) ->
  In sec (tpl_sections template) ->
  Dict.get (section_types template) (sec_name sec) = Some (sec_type sec).
Proof.
  unfold section_types; generalize (@Dict.empty string).
  induction (tpl_sections template) as [|s secs IH]; intros d Hnd Hin;
    [contradiction|].
  simpl in *; inversion Hnd as [|? ? Hnotin Hnd']; subst.
  destruct Hin as [->|Hin].
  - rewrite section_types_keep by exact Hnotin.
    apply dict_get_set_same.
  - now apply IH.
Qed.

Lemma parse_item_eq (cs line : string) (d : option string) (l1 : string)
    (m : option Z) (l2 : string) :
  extract_difficulty line = (d, l1) ->
  extract_marks l1 = Ok (m, l2) ->
  parse_item template cs line
  = let clean_line :=
      Re.sub_at_start Re.leading_tag ""
        (Re.sub_at_start Re.leading_number "" l2) in
    if String.eqb (Dict.get_default (section_types template) cs "")
                  "multiple_choice"
    then
      p <- Py.unpack_first (Re.split_before_a clean_line) ;;
      Ok {| q_text := Str.strip (fst p);
            q_difficulty := Py.or_str d "medium";
            q_marks := Py.or_Z m 0;
            q_options := Some match snd p with
                              | blob :: _ => extract_options blob
                              | [] => []
                              end |}
    else
      Ok {| q_text := Str.strip clean_line;
            q_difficulty := Py.or_str d "medium";
            q_marks := Py.or_Z m 0;
            q_options := None |}.
Proof.
  intros Hd Hm; unfold parse_item; rewrite Hd, Hm; simpl.
  rewrite default_marks_never_fires.
  destruct (String.eqb _ "multiple_choice"); [|reflexivity].
  destruct (Py.unpack_first _) as [[main_q opts]|e]; reflexivity.
Qed.

Lemma starts_item_not_empty (line : string) (b : bool) :
  starts_item line = Ok b -> Str.truthy line = true.
Proof. destruct line; [discriminate | reflexivity]. Qed.

Lemma step_item (st : ParserState) (raw : string) (q : Question) :
  header_of raw = None ->
  section_open (current_section st) = true ->
  starts_item (Str.strip raw) = Ok true ->
  parse_item template (section_name (current_section st)) (Str.strip raw)
  = Ok q ->
  step template st raw = Ok (appended st q).
Proof.
  intros Hh Hopen Hitem Hq.
  unfold header_of in Hh; unfold step, process_line; rewrite Hh.
  rewrite (starts_item_not_empty _ _ Hitem), Hopen, Hitem; simpl.
  rewrite Hq; reflexivity.
Qed.

Lemma mcq_item_has_options (cs line : string) :
  Dict.get_default (section_types template) cs "" = "multiple_choice" ->
  exists q opts,
    parse_item template cs line = Ok q /\ q_options q = Some opts.
Proof.
  intro Ht.
  destruct (extract_difficulty line) as [d l1] eqn:Hd.
  destruct (extract_marks_ok l1) as [[m l2] Hm].
  rewrite (parse_item_eq cs line d l1 m l2 Hd Hm); simpl.
  rewrite Ht; simpl.
  destruct (split_before_a_cons
              (Re.sub_at_start Re.leading_tag ""
                 (Re.sub_at_start Re.leading_number "" l2)))
    as (main_q & opts & Hs).
  rewrite Hs; simpl; do 2 eexists; split; reflexivity.
Qed.

End Items.

(** C1 (as the code has it). For every template with a short-answer
    section named Section A, the text of the specification's example is
    parsed into exactly one section, Section A, with exactly one
    question, of difficulty easy and 2 marks; its text keeps the bullet
    and the blanks that the removed tags leave behind. *)
Theorem tagged_item_is_parsed (template : Template) :
  (exists sec,
      In sec (tpl_sections template)
      /\ sec_name sec = "Section A" /\ sec_type sec = "short_answer") ->
  exists q,
    _format_response
      ("**Section A**" ++ Str.nl ++ "- [Easy][2 Marks] What is 2+2?") template
    = Ok {| doc_sections := [("Section A", [q])] |}
    /\ q_text q = "-  What is 2+2?"
    /\ q_difficulty q = "easy"
    /\ q_marks q = 2%Z.
Proof.
  intros _.
  assert (Hq : exists q,
             parse_item template "Section A" "- [Easy][2 Marks] What is 2+2?"
             = Ok q
             /\ q_text q = "-  What is 2+2?"
             /\ q_difficulty q = "easy"
             /\ q_marks q = 2%Z).
  { rewrite (parse_item_eq template "Section A"
               "- [Easy][2 Marks] What is 2+2?"
               (Some "easy") "- [2 Marks] What is 2+2?"
               (Some 2%Z) "-  What is 2+2?" eq_refl eq_refl).
    cbv zeta.
    destruct (String.eqb _ "multiple_choice"); eexists; repeat split. }
  destruct Hq as (q & Hq & Htext & Hdiff & Hmarks).
  exists q; repeat split; auto.
  unfold _format_response.
  change (Str.split_lines
            ("**Section A**" ++ Str.nl ++ "- [Easy][2 Marks] What is 2+2?"))
    with ["**Section A**"; "- [Easy][2 Marks] What is 2+2?"].
  cbn [run_lines].
  rewrite (step_header template initial_state "**Section A**" "Section A" eq_refl).
  cbn [bind].
  rewrite (step_item template
             {| sections := commit initial_state;
                current_section := Some "Section A";
                current_questions := [] |}
             "- [Easy][2 Marks] What is 2+2?" q
             eq_refl eq_refl eq_refl Hq).
  reflexivity.
Qed.

Lemma tagged_item_is_parsed_witness :
  exists q,
    _format_response
      ("**Section A**" ++ Str.nl ++ "- [Easy][2 Marks] What is 2+2?")
      example_template
    = Ok {| doc_sections := [("Section A", [q])] |}
    /\ q_text q = "-  What is 2+2?"
    /\ q_difficulty q = "easy"
    /\ q_marks q = 2%Z.
Proof.
  apply (tagged_item_is_parsed example_template).
  exists section_a; repeat split; simpl; auto.
Defined.

(** C1, as stated, fails: the text of the question is not the bare
    question. *)
Lemma bullet_is_kept :
  _format_response
    ("**Section A**" ++ Str.nl ++ "- [Easy][2 Marks] What is 2+2?")
    example_template
  = Ok {| doc_sections :=
            [("Section A",
              [{| q_text := "-  What is 2+2?";
                  q_difficulty := "easy";
                  q_marks := 2;
                  q_options := None |}])] |}
  /\ "-  What is 2+2?" <> "What is 2+2?".
Proof. split; [reflexivity | discriminate]. Qed.

(** C2, evaluated where it fails. Section A of the template gives 5
    marks per question; the item without a marks tag gets 0 marks, as
    the fall-back to the template compares the section name with the
    section records and so never applies. *)
Theorem missing_marks_tag_gives_zero :
  sec_marks_per_question section_a = 5%Z
  /\ _format_response
       ("**Section A**" ++ Str.nl ++ "- [Easy] What is 2+2?") example_template
     = Ok {| doc_sections :=
               [("Section A",
                 [{| q_text := "-  What is 2+2?";
                     q_difficulty := "easy";
                     q_marks := 0;
                     q_options := None |}])] |}
  /\ _format_response
       ("**Section A**" ++ Str.nl ++ "- [Easy][two Marks] What is 2+2?")
       example_template
     = Ok {| doc_sections :=
               [("Section A",
                 [{| q_text := "- [two Marks] What is 2+2?";
                     q_difficulty := "easy";
                     q_marks := 0;
                     q_options := None |}])] |}
  /\ forall template cs, default_marks template cs None = None.
Proof.
  repeat split.
  intros template cs; apply default_marks_never_fires.
Qed.

(** C5. In a multiple-choice section the example line gives a question
    with the four options Paris, Lyon, Nice, Cannes, in this order; every
    question item of such a section is appended with an options list,
    which is empty when nothing is extracted. *)
Theorem multiple_choice_options (template : Template) (sec : SectionDef)
    (st : ParserState) :
  NoDup (map sec_name (tpl_sections template)) ->
  In sec (tpl_sections template) ->
  sec_type sec = "multiple_choice" ->
  sec_name sec <> "" ->
  current_section st = Some (sec_name sec) ->
  (exists q,
      step template st
           "- What is the capital of France? a) Paris b) Lyon c) Nice d) Cannes"
      = Ok (appended st q)
      /\ q_options q = Some ["Paris"; "Lyon"; "Nice"; "Cannes"])
  /\ (exists q,
         step template st "- Is zero an even number?" = Ok (appended st q)
         /\ q_options q = Some [])
  /\ (forall raw,
         header_of raw = None ->
         starts_item (Str.strip raw) = Ok true ->
         exists q opts,
           step template st raw = Ok (appended st q)
           /\ q_options q = Some opts).
Proof.
  intros Hnd Hin Hty Hne Hcs.
  assert (Hopen : section_open (current_section st) = true).
  { rewrite Hcs; simpl; now apply truthy_true. }
  assert (Hname : section_name (current_section st) = sec_name sec)
    by (rewrite Hcs; reflexivity).
  assert (Hq_type : Dict.get_default (section_types template) (sec_name sec) ""
                    = "multiple_choice").
  { unfold Dict.get_default.
    rewrite (section_types_lookup template sec Hnd Hin); exact Hty. }
  split; [|split].
  - eexists; split.
    + apply step_item; auto; try reflexivity.
      rewrite Hname.
      change (Str.strip
                "- What is the capital of France? a) Paris b) Lyon c) Nice d) Cannes")
        with "- What is the capital of France? a) Paris b) Lyon c) Nice d) Cannes".
      rewrite (parse_item_eq template (sec_name sec)
                 "- What is the capital of France? a) Paris b) Lyon c) Nice d) Cannes"
                 None
                 "- What is the capital of France? a) Paris b) Lyon c) Nice d) Cannes"
                 None
                 "- What is the capital of France? a) Paris b) Lyon c) Nice d) Cannes"
                 eq_refl eq_refl).
      cbv zeta; rewrite Hq_type; reflexivity.
    + reflexivity.
  - eexists; split.
    + apply step_item; auto; try reflexivity.
      rewrite Hname.
      change (Str.strip "- Is zero an even number?")
        with "- Is zero an even number?".
      rewrite (parse_item_eq template (sec_name sec) "- Is zero an even number?"
                 None "- Is zero an even number?"
                 None "- Is zero an even number?" eq_refl eq_refl).
      cbv zeta; rewrite Hq_type; reflexivity.
    + reflexivity.
  - intros raw Hh Hitem.
    destruct (mcq_item_has_options template (sec_name sec) (Str.strip raw) Hq_type)
      as (q & opts & Hq & Hopts).
    exists q, opts; split; [|exact Hopts].
    apply step_item; auto.
    now rewrite Hname.
Qed.

Lemma multiple_choice_options_witness :
  (exists q,
      step example_template (opened "Section B")
           "- What is the capital of France? a) Paris b) Lyon c) Nice d) Cannes"
      = Ok (appended (opened "Section B") q)
      /\ q_options q = Some ["Paris"; "Lyon"; "Nice"; "Cannes"])
  /\ (exists q,
         step example_template (opened "Section B") "- Is zero an even number?"
         = Ok (appended (opened "Section B") q)
         /\ q_options q = Some [])
  /\ (exists q opts,
         step example_template (opened "Section B") "1. [Hard] Pick one: a) x b) y"
         = Ok (appended (opened "Section B") q)
         /\ q_options q = Some opts).
Proof.
  assert (Hnd : NoDup (map sec_name (tpl_sections example_template))).
  { simpl; repeat constructor; simpl; intuition discriminate. }
  destruct (multiple_choice_options example_template section_b
              (opened "Section B") Hnd)
    as (H1 & H2 & H3);
    [simpl; auto | reflexivity | discriminate | reflexivity |].
  split; [exact H1 | split; [exact H2|]].
  apply H3; reflexivity.
Defined.

(** ** The prompt composer *)

Lemma past_questions_section_bounded (past : option (list string)) :
  past_questions_section (option_map (firstn 15) past)
  = past_questions_section past.
Proof.
  destruct past as [[|q qs]|]; try reflexivity.
  change (option_map (firstn 15) (Some (q :: qs)))
    with (Some (q :: firstn 14 qs)).
  unfold past_questions_section, sample_questions.
  change (q :: firstn 14 qs) with (firstn 15 (q :: qs)).
  now rewrite firstn_firstn.
Qed.

Lemma user_prompt_bounded (text : string) :
  user_prompt (Str.take 4000 text) = user_prompt text.
Proof. unfold user_prompt; now rewrite take_idem. Qed.

(** C9. The two instructions are functions of the template, the quota,
    the first 4000 characters of the source text and the first 15 past
    questions: two runs that agree on these give the same instructions,
    character for character, or raise the same exception when a number
    is too long to be written. The user instruction is a fixed directive
    followed by at most 4000 characters of the text. *)
Theorem composer_is_deterministic (template : Template)
    (quota : DifficultyQuota) (text1 text2 : string)
    (past1 past2 : option (list string)) :
  Str.take 4000 text1 = Str.take 4000 text2 ->
  option_map (firstn 15) past1 = option_map (firstn 15) past2 ->
  system_prompt template quota past1 = system_prompt template quota past2
  /\ user_prompt text1 = user_prompt text2
  /\ user_prompt text1
     = "Generate a comprehensive question paper from: " ++ Str.take 4000 text1
  /\ String.length (user_prompt text1) <= 46 + 4000.
Proof.
  intros Htext Hpast; repeat split.
  - unfold system_prompt.
    rewrite <- (past_questions_section_bounded past1), Hpast.
    now rewrite past_questions_section_bounded.
  - rewrite <- (user_prompt_bounded text1), Htext.
    apply user_prompt_bounded.
  - unfold user_prompt; rewrite length_append.
    pose proof (take_length 4000 text1).
    change (String.length "Generate a comprehensive question paper from: ")
      with 46.
    lia.
Qed.

Lemma composer_is_deterministic_witness :
  system_prompt example_template example_quota
    (Some (repeat "seen before" 15 ++ ["What is a group?"])%list)
  = system_prompt example_template example_quota
      (Some (repeat "seen before" 15 ++ ["What is a ring?"; "What is a field?"])%list)
  /\ user_prompt (repeat_char "x" 4000 ++ "the first ending")
     = user_prompt (repeat_char "x" 4000 ++ "another ending")
  /\ user_prompt (repeat_char "x" 4000 ++ "the first ending")
     = "Generate a comprehensive question paper from: "
       ++ Str.take 4000 (repeat_char "x" 4000 ++ "the first ending")
  /\ String.length (user_prompt (repeat_char "x" 4000 ++ "the first ending"))
     <= 46 + 4000.
Proof.
  apply (composer_is_deterministic example_template example_quota).
  - vm_compute; reflexivity.
  - vm_compute; reflexivity.
Defined.

(** ** The generation step *)

Lemma str_ok (n : Z) : too_long n = false -> Py.str n = Ok (Str.of_Z n).
Proof. unfold too_long, Py.str; now intros ->. Qed.

Lemma str_raises (n : Z) : too_long n = true -> Py.str n = Raise str_limit_error.
Proof. unfold too_long, Py.str; now intros ->. Qed.

Lemma str_cases (n : Z) :
  (too_long n = false /\ Py.str n = Ok (Str.of_Z n))
  \/ (too_long n = true /\ Py.str n = Raise str_limit_error).
Proof.
  destruct (too_long n) eqn:E; [right | left]; split; trivial;
    [now apply str_raises | now apply str_ok].
Qed.

Ltac str_case n :=
  let E := fresh "E" in
  let H := fresh "H" in
  destruct (str_cases n) as [[E H]|[E H]]; rewrite H, ?E; cbn [bind orb].

Lemma difficulty_prompt_cases (quota : DifficultyQuota) :
  (existsb too_long [easy quota; medium quota; hard quota] = false
   /\ exists dp, difficulty_prompt quota = Ok dp)
  \/ (existsb too_long [easy quota; medium quota; hard quota] = true
      /\ difficulty_prompt quota = Raise str_limit_error).
Proof.
  unfold difficulty_prompt; cbn [existsb].
  str_case (easy quota); [|now right].
  str_case (medium quota); [|now right].
  str_case (hard quota); [|now right].
  left; split; [reflexivity | eexists; reflexivity].
Qed.

Lemma section_prompts_cases (sections : list SectionDef) :
  let numbers :=
    flat_map (fun section =>
                [ sec_questions section;
                  sec_marks_per_question section;
                  sec_questions section * sec_marks_per_question section ]%Z)
             sections in
  (existsb too_long numbers = false
   /\ exists sps, section_prompts sections = Ok sps)
  \/ (existsb too_long numbers = true
      /\ section_prompts sections = Raise str_limit_error).
Proof.
  induction sections as [|section rest IH]; cbn [flat_map section_prompts].
  - left; split; [reflexivity | eexists; reflexivity].
  - cbn [app existsb]; unfold section_prompt.
    str_case (sec_questions section); [|now right].
    str_case (sec_marks_per_question section); [|now right].
    str_case (sec_questions section * sec_marks_per_question section)%Z;
      [|now right].
    cbn zeta in IH.
    destruct IH as [[E2 [sps Hs]]|[E2 Hs]]; rewrite Hs, E2; cbn [bind].
    + left; split; [reflexivity | eexists; reflexivity].
    + now right.
Qed.

Lemma system_prompt_cases (template : Template) (quota : DifficultyQuota)
    (past : option (list string)) :
  (existsb too_long (written_numbers template quota) = false
   /\ exists system, system_prompt template quota past = Ok system)
  \/ (existsb too_long (written_numbers template quota) = true
      /\ system_prompt template quota past = Raise str_limit_error).
Proof.
  unfold system_prompt, written_numbers.
  rewrite existsb_app.
  destruct (difficulty_prompt_cases quota) as [[E [dp H]]|[E H]];
    rewrite H, E; cbn [bind orb]; [|now right].
  pose proof (section_prompts_cases (tpl_sections template)) as Hs.
  cbn zeta in Hs.
  destruct Hs as [[E2 [sps Hs]]|[E2 Hs]]; rewrite Hs, E2; cbn [bind].
  - left; split; [reflexivity | eexists; reflexivity].
  - now right.
Qed.

(** C8 (as the code has it). The generation step returns a failure,
    with a message that is not empty, exactly when the combined source
    text is empty, or the instructions are composed and the generation
    service raises. When the text is not empty and the instructions are
    composed, every answer of the service, also the empty text, is
    parsed and a document is returned. The function raises, and returns
    neither, exactly when the text is not empty and one of the numbers
    that the composer writes has more than 4300 digits; the exception is
    then the [ValueError] of [str]. *)
Theorem generation_failures (chat : ChatService) (text : string)
    (template : Template) (quota : DifficultyQuota)
    (past : option (list string)) :
  ((exists msg,
       generate_questions chat text template quota past = Ok (Failure msg))
   <-> text = ""
       \/ exists system e,
           system_prompt template quota past = Ok system
           /\ chat system (user_prompt text) = Raise e)
  /\ (forall msg,
         generate_questions chat text template quota past = Ok (Failure msg) ->
         msg <> "")
  /\ (forall system content,
         text <> "" ->
         system_prompt template quota past = Ok system ->
         chat system (user_prompt text) = Ok content ->
         exists doc,
           _format_response content template = Ok doc
           /\ generate_questions chat text template quota past = Ok (Paper doc))
  /\ ((exists e, generate_questions chat text template quota past = Raise e)
      <-> text <> ""
          /\ existsb too_long (written_numbers template quota) = true)
  /\ (forall e,
         generate_questions chat text template quota past = Raise e ->
         e = str_limit_error).
Proof.
  unfold generate_questions.
  destruct text as [|c text]; cbn [Str.is_empty].
  - split; [|split; [|split; [|split]]].
    + split; [intros _; now left | intros _; eexists; reflexivity].
    + intros msg [= <-]; discriminate.
    + intros system content H; now elim H.
    + split; [intros [e H]; discriminate | intros [H _]; now elim H].
    + intros e H; discriminate.
  - destruct (system_prompt_cases template quota past) as [[E [system Hs]]|[E Hs]];
      rewrite Hs, E; cbn [bind].
    + destruct (chat system (user_prompt (String c text))) as [content|e] eqn:Ha;
        cbn [bind].
      * destruct (format_response_total template content) as (st & _ & Hdoc).
        rewrite Hdoc.
        split; [|split; [|split; [|split]]].
        -- split; [intros [msg H]; discriminate|].
           intros [H|(system' & e & [= <-] & H)]; [discriminate | congruence].
        -- intros msg H; discriminate.
        -- intros system' content' _ [= <-] H.
           rewrite Ha in H; injection H as <-.
           eexists; split; [exact Hdoc | reflexivity].
        -- split; [intros [e H]; discriminate | intros [_ H]; discriminate].
        -- intros e H; discriminate.
      * split; [|split; [|split; [|split]]].
        -- split; [|intros _; eexists; reflexivity].
           intros _; right; exists system, e; split; [reflexivity | exact Ha].
        -- intros msg [= <-]; discriminate.
        -- intros system' content _ [= <-] H; congruence.
        -- split; [intros [e' H]; discriminate | intros [_ H]; discriminate].
        -- intros e' H; discriminate.
    + split; [|split; [|split; [|split]]].
      * split; [intros [msg H]; discriminate|].
        intros [H|(system & e & H & _)]; discriminate.
      * intros msg H; discriminate.
      * intros system content _ H; discriminate.
      * split; [intros _; split; [discriminate | reflexivity]|].
        intros _; eexists; reflexivity.
      * now intros e [= <-].
Qed.

Lemma generation_failures_witness :
  (exists msg,
      generate_questions (unreachable "connection refused") "Groups and rings."
                         example_template example_quota None
      = Ok (Failure msg))
  /\ "Error generating questions: connection refused" <> ""
  /\ (exists doc,
         _format_response ("**Section A**" ++ Str.nl ++ "- [Hard] Define a ring.")
                          example_template = Ok doc
         /\ generate_questions
              (answering ("**Section A**" ++ Str.nl ++ "- [Hard] Define a ring."))
              "Groups and rings." example_template example_quota None
            = Ok (Paper doc))
  /\ exists e,
      generate_questions (answering "") "Groups and rings."
                         long_total_template example_quota None
      = Raise e.
Proof.
  split; [|split; [|split]].
  - apply (proj1 (generation_failures (unreachable "connection refused")
                    "Groups and rings." example_template example_quota None)).
    right; eexists; eexists; split; reflexivity.
  - apply (proj1 (proj2 (generation_failures (unreachable "connection refused")
                           "Groups and rings." example_template example_quota None))).
    reflexivity.
  - destruct (system_prompt_cases example_template example_quota None)
      as [[_ [system Hs]]|[E _]]; [|vm_compute in E; discriminate].
    apply (proj1 (proj2 (proj2 (generation_failures
                           (answering ("**Section A**" ++ Str.nl
                                       ++ "- [Hard] Define a ring."))
                           "Groups and rings." example_template example_quota None)))
             system).
    + discriminate.
    + exact Hs.
    + reflexivity.
  - apply (proj1 (proj2 (proj2 (proj2 (generation_failures
                           (answering "") "Groups and rings."
                           long_total_template example_quota None))))).
    split; [discriminate | vm_compute; reflexivity].
Defined.

(** C8, as stated, fails: an empty answer of the service is no failure;
    it is parsed into a document with zero sections. *)
Lemma empty_answer_gives_a_document :
  generate_questions (answering "") "Groups and rings."
                     example_template example_quota None
  = Ok (Paper {| doc_sections := [] |}).
Proof. reflexivity. Qed.

(** ** Prefixes and suffixes *)

Lemma lstrip_suffix (s : string) : exists a, s = a ++ Str.lstrip s.
Proof.
  induction s as [|c s [a IH]]; simpl.
  - now exists "".
  - destruct (Char.isspace c).
    + exists (String c a); simpl; now rewrite <- IH.
    + now exists "".
Qed.

Lemma rstrip_prefix (s : string) : exists b, s = Str.rstrip s ++ b.
Proof.
  induction s as [|c s [b IH]]; simpl.
  - now exists "".
  - destruct (Str.is_empty (Str.rstrip s) && Char.isspace c).
    + now exists (String c s).
    + exists b; simpl; now rewrite <- IH.
Qed.

Lemma all_append (p : ascii -> bool) (a b : string) :
  Str.all p (a ++ b) = Str.all p a && Str.all p b.
Proof.
  induction a as [|c a IH]; simpl; [reflexivity|].
  now rewrite IH, andb_assoc.
Qed.

Lemma all_lstrip (p : ascii -> bool) (s : string) :
  Str.all p s = true -> Str.all p (Str.lstrip s) = true.
Proof.
  destruct (lstrip_suffix s) as [a E]; rewrite E at 1.
  rewrite all_append; intro H; now apply andb_true_iff in H.
Qed.

Lemma all_rstrip (p : ascii -> bool) (s : string) :
  Str.all p s = true -> Str.all p (Str.rstrip s) = true.
Proof.
  destruct (rstrip_prefix s) as [b E]; rewrite E at 1.
  rewrite all_append; intro H; now apply andb_true_iff in H.
Qed.

Lemma all_take (p : ascii -> bool) (n : nat) (s : string) :
  Str.all p s = true -> Str.all p (Str.take n s) = true.
Proof.
  rewrite <- (take_drop n s) at 1.
  rewrite all_append; intro H; now apply andb_true_iff in H.
Qed.

Lemma all_drop (p : ascii -> bool) (n : nat) (s : string) :
  Str.all p s = true -> Str.all p (Str.drop n s) = true.
Proof.
  rewrite <- (take_drop n s) at 1.
  rewrite all_append; intro H; now apply andb_true_iff in H.
Qed.

Lemma no_double_space_prefix (a b : string) :
  Spacing.no_double_space (a ++ b) = true -> Spacing.no_double_space a = true.
Proof.
  induction a as [|c a IH]; simpl; [reflexivity|].
  intro H; apply andb_true_iff in H as [H1 H2].
  rewrite (IH H2), andb_true_r.
  destruct a; [reflexivity | exact H1].
Qed.

Lemma no_double_space_suffix (a b : string) :
  Spacing.no_double_space (a ++ b) = true -> Spacing.no_double_space b = true.
Proof.
  induction a as [|c a IH]; simpl; [auto|].
  intro H; apply andb_true_iff in H as [_ H2]; auto.
Qed.

Lemma starts_with_space_prefix (a b : string) :
  a <> "" ->
  Spacing.starts_with_space (a ++ b) = Spacing.starts_with_space a.
Proof. destruct a; [intro H; now elim H | reflexivity]. Qed.

(** ** Trimming *)

Lemma lstrip_no_leading_space (s : string) :
  Spacing.starts_with_space (Str.lstrip s) = false.
Proof.
  induction s as [|c s IH]; simpl; [reflexivity|].
  destruct (Char.isspace c) eqn:E; [exact IH | simpl; exact E].
Qed.

Lemma rstrip_no_trailing_space (s : string) :
  Spacing.ends_with_space (Str.rstrip s) = false.
Proof.
  induction s as [|c s IH]; simpl; [reflexivity|].
  destruct (Str.rstrip s) as [|d r] eqn:E; simpl.
  - destruct (Char.isspace c) eqn:Ec; simpl; [reflexivity | exact Ec].
  - exact IH.
Qed.

Lemma rstrip_empty (s : string) :
  Str.rstrip s = "" <-> Spacing.blank s = true.
Proof.
  unfold Spacing.blank; induction s as [|c s IH]; simpl; [tauto|].
  destruct (Str.rstrip s) as [|d r] eqn:E; simpl.
  - destruct (Char.isspace c); simpl; split; intro H;
      try discriminate; try reflexivity; now apply IH.
  - split; [discriminate|].
    intro H; apply andb_true_iff in H as [_ H]; apply IH in H; discriminate.
Qed.

Lemma lstrip_blank (s : string) :
  Spacing.blank (Str.lstrip s) = Spacing.blank s.
Proof.
  unfold Spacing.blank; induction s as [|c s IH]; simpl; [reflexivity|].
  destruct (Char.isspace c) eqn:E; simpl; [exact IH | now rewrite E].
Qed.

Lemma strip_empty (s : string) :
  Str.strip s = "" <-> Spacing.blank s = true.
Proof. unfold Str.strip; now rewrite rstrip_empty, lstrip_blank. Qed.

Lemma strip_well_spaced (s : string) :
  Spacing.no_double_space s = true ->
  Spacing.well_spaced (Str.strip s) = true.
Proof.
  intro Hnd; unfold Spacing.well_spaced, Str.strip.
  rewrite rstrip_no_trailing_space.
  destruct (lstrip_suffix s) as [a Ea].
  destruct (rstrip_prefix (Str.lstrip s)) as [b Eb].
  assert (H1 : Spacing.no_double_space (Str.rstrip (Str.lstrip s)) = true).
  { apply (no_double_space_prefix _ b); rewrite <- Eb.
    apply (no_double_space_suffix a); now rewrite <- Ea. }
  rewrite H1; simpl; rewrite andb_true_r.
  apply negb_true_iff.
  destruct (Str.rstrip (Str.lstrip s)) as [|d r] eqn:E; [reflexivity|].
  pose proof (lstrip_no_leading_space s) as Hl.
  rewrite Eb in Hl; simpl in Hl; exact Hl.
Qed.

(** ** The scanning loop *)

Section Scanning.

Context {A : Type}.
Variable pat : Re.pattern A.

Lemma scan_from_drop (n : nat) (s : string) :
  Re.scan_from pat n s = Re.scan_from pat 0 (Str.drop n s).
Proof.
  revert s; induction n as [|n IH]; intros [|c s]; simpl; auto.
Qed.

Lemma sub_cons (repl : string) (c : ascii) (s : string) :
  Re.sub pat repl (String c s)
  = match pat (String c s) with
    | Some (_, S k) => repl ++ Re.sub pat repl (Str.drop k s)
    | _ => String c (Re.sub pat repl s)
    end.
Proof.
  unfold Re.sub, Re.scan; simpl.
  destruct (pat (String c s)) as [[a [|k]]|]; simpl; try reflexivity.
  now rewrite scan_from_drop.
Qed.

Lemma sub_ind (repl : string) (P : string -> string -> Prop) :
  P "" "" ->
  (forall c s a k,
      pat (String c s) = Some (a, S k) ->
      P (Str.drop k s) (Re.sub pat repl (Str.drop k s)) ->
      P (String c s) (repl ++ Re.sub pat repl (Str.drop k s))) ->
  (forall c s,
      (forall a k, pat (String c s) <> Some (a, S k)) ->
      P s (Re.sub pat repl s) ->
      P (String c s) (String c (Re.sub pat repl s))) ->
  forall s, P s (Re.sub pat repl s).
Proof.
  intros Hnil Hmatch Hchar s.
  assert (H : forall n s, String.length s <= n -> P s (Re.sub pat repl s)).
  { clear s; induction n as [|n IH]; intros [|c s] Hlen; simpl in Hlen;
      try exact Hnil; try lia.
    rewrite sub_cons.
    destruct (pat (String c s)) as [[a [|k]]|] eqn:E.
    - apply Hchar; [intros a' k' H'; rewrite E in H'; discriminate | apply IH; lia].
    - apply (Hmatch c s a k E), IH.
      rewrite drop_length; lia.
    - apply Hchar; [intros a' k' H'; rewrite E in H'; discriminate | apply IH; lia]. }
  apply (H (String.length s)); lia.
Qed.

Lemma findall_from_in (a : A) (s : string) (n : nat) :
  In a (flat_map (fun t => match t with inl _ => [] | inr x => [x] end)
                 (Re.scan_from pat n s)) ->
  exists pre t k, s = pre ++ t /\ pat t = Some (a, k).
Proof.
  revert n; induction s as [|c s IH]; intros n; simpl; [contradiction|].
  destruct n as [|n].
  - destruct (pat (String c s)) as [[a' [|k]]|] eqn:E; simpl.
    + intro H; destruct (IH _ H) as (pre & t & k' & -> & Hk).
      now exists (String c pre), t, k'.
    + intros [->|H].
      * now exists "", (String c s), (S k).
      * destruct (IH _ H) as (pre & t & k' & -> & Hk).
        now exists (String c pre), t, k'.
    + intro H; destruct (IH _ H) as (pre & t & k' & -> & Hk).
      now exists (String c pre), t, k'.
  - intro H; destruct (IH _ H) as (pre & t & k' & -> & Hk).
    now exists (String c pre), t, k'.
Qed.

Lemma findall_in (a : A) (s : string) :
  In a (Re.findall pat s) ->
  exists pre t k, s = pre ++ t /\ pat t = Some (a, k).
Proof. apply findall_from_in. Qed.

End Scanning.

(** ** Collapsing white space *)

Lemma isspace_newline (c : ascii) :
  Char.isspace c = false -> not_newline c = true.
Proof.
  intro H; unfold not_newline; apply negb_true_iff.
  destruct (Ascii.eqb c Char.newline) eqn:E; [|reflexivity].
  apply Ascii.eqb_eq in E; subst c; discriminate.
Qed.

Lemma whitespace_run_cons (c : ascii) (s : string) :
  Re.whitespace_run (String c s)
  = if Char.isspace c
    then Some (tt, S (String.length (fst (Str.span Char.isspace s))))
    else None.
Proof.
  unfold Re.whitespace_run; simpl.
  destruct (Char.isspace c); [|reflexivity].
  now destruct (Str.span Char.isspace s).
Qed.

Lemma collapse_cons (c : ascii) (s : string) :
  Re.sub Re.whitespace_run " " (String c s)
  = if Char.isspace c
    then String " " (Re.sub Re.whitespace_run " " (Str.lstrip s))
    else String c (Re.sub Re.whitespace_run " " s).
Proof.
  rewrite sub_cons, whitespace_run_cons.
  destruct (Char.isspace c); [|reflexivity].
  now rewrite span_drop, span_space_lstrip.
Qed.

Lemma lstrip_length (s : string) :
  String.length (Str.lstrip s) <= String.length s.
Proof.
  induction s as [|c s IH]; simpl; [lia|].
  destruct (Char.isspace c); simpl; lia.
Qed.

Lemma collapse_ind (P : string -> string -> Prop) :
  P "" "" ->
  (forall c s,
      Char.isspace c = true ->
      P (Str.lstrip s) (Re.sub Re.whitespace_run " " (Str.lstrip s)) ->
      P (String c s) (String " " (Re.sub Re.whitespace_run " " (Str.lstrip s)))) ->
  (forall c s,
      Char.isspace c = false ->
      P s (Re.sub Re.whitespace_run " " s) ->
      P (String c s) (String c (Re.sub Re.whitespace_run " " s))) ->
  forall s, P s (Re.sub Re.whitespace_run " " s).
Proof.
  intros Hnil Hspace Hchar s.
  assert (H : forall n s, String.length s <= n ->
                          P s (Re.sub Re.whitespace_run " " s)).
  { clear s; induction n as [|n IH]; intros [|c s] Hlen; simpl in Hlen;
      try exact Hnil; try lia.
    rewrite collapse_cons.
    destruct (Char.isspace c) eqn:E.
    - apply Hspace; [exact E|].
      apply IH; pose proof (lstrip_length s); lia.
    - apply Hchar; [exact E|].
      apply IH; lia. }
  apply (H (String.length s)); lia.
Qed.

Lemma collapse_starts (s : string) :
  Spacing.starts_with_space (Re.sub Re.whitespace_run " " s)
  = Spacing.starts_with_space s.
Proof.
  destruct s as [|c s]; [reflexivity|].
  rewrite collapse_cons; simpl.
  destruct (Char.isspace c) eqn:E; simpl; [reflexivity | exact E].
Qed.

Lemma collapse_no_double_space (s : string) :
  Spacing.no_double_space (Re.sub Re.whitespace_run " " s) = true.
Proof.
  apply (collapse_ind (fun _ out => Spacing.no_double_space out = true)).
  - reflexivity.
  - intros c t _ IH.
    pose proof (collapse_starts (Str.lstrip t)) as Hs.
    rewrite lstrip_no_leading_space in Hs.
    cbn [Spacing.no_double_space]; rewrite IH, andb_true_r.
    destruct (Re.sub Re.whitespace_run " " (Str.lstrip t)); [reflexivity|].
    simpl in Hs; rewrite Hs; now rewrite andb_false_r.
  - intros c t Hc IH.
    cbn [Spacing.no_double_space]; rewrite IH, andb_true_r, Hc.
    now destruct (Re.sub Re.whitespace_run " " t).
Qed.

Lemma collapse_blank (s : string) :
  Spacing.blank (Re.sub Re.whitespace_run " " s) = Spacing.blank s.
Proof.
  apply (collapse_ind (fun s out => Spacing.blank out = Spacing.blank s)).
  - reflexivity.
  - intros c t Hc IH; unfold Spacing.blank in *; simpl.
    rewrite Hc; simpl; rewrite IH.
    apply lstrip_blank.
  - intros c t Hc IH; unfold Spacing.blank; simpl; now rewrite Hc.
Qed.

Lemma collapse_no_newline (s : string) :
  Str.all not_newline (Re.sub Re.whitespace_run " " s) = true.
Proof.
  apply (collapse_ind (fun _ out => Str.all not_newline out = true)).
  - reflexivity.
  - intros c t _ IH; simpl; now rewrite IH.
  - intros c t Hc IH; simpl; now rewrite IH, (isspace_newline c Hc).
Qed.

Lemma normalize_page_well_spaced (text : string) :
  Spacing.well_spaced (normalize_page text) = true.
Proof. apply strip_well_spaced, collapse_no_double_space. Qed.

Lemma normalize_page_empty (text : string) :
  normalize_page text = "" <-> Spacing.blank text = true.
Proof. unfold normalize_page; now rewrite strip_empty, collapse_blank. Qed.

Lemma normalize_page_no_newline (text : string) :
  Str.all not_newline (normalize_page text) = true.
Proof. apply all_rstrip, all_lstrip, collapse_no_newline. Qed.

(** ** Joining pages *)

Lemma no_double_space_join (a b : string) :
  Spacing.no_double_space (a ++ String " " b)
  = Spacing.no_double_space a && Spacing.no_double_space b
    && negb (Spacing.ends_with_space a) && negb (Spacing.starts_with_space b).
Proof.
  induction a as [|c a IH].
  - destruct b as [|d b]; simpl; [reflexivity|].
    change (Char.isspace " ") with true; simpl.
    destruct (Char.isspace d), b; simpl;
      try reflexivity; now rewrite ?andb_true_r, ?andb_false_r.
  - change (String c a ++ String " " b) with (String c (a ++ String " " b)).
    cbn [Spacing.no_double_space]; rewrite IH.
    destruct a as [|d a]; simpl.
    + change (Char.isspace " ") with true.
      destruct (Char.isspace c), (Spacing.no_double_space b),
        (Spacing.starts_with_space b); reflexivity.
    + destruct (Char.isspace c), (Char.isspace d), a; simpl;
        try reflexivity;
        destruct (Spacing.no_double_space b), (Spacing.starts_with_space b);
        simpl; rewrite ?andb_true_r, ?andb_false_r; reflexivity.
Qed.

Lemma starts_with_space_join (a b : string) :
  Spacing.starts_with_space (a ++ String " " b)
  = if Str.is_empty a then true else Spacing.starts_with_space a.
Proof. destruct a; reflexivity. Qed.

Lemma ends_with_space_join (a b : string) :
  Spacing.ends_with_space (a ++ String " " b)
  = if Str.is_empty b then true else Spacing.ends_with_space b.
Proof.
  induction a as [|c a IH].
  - destruct b; reflexivity.
  - change (String c a ++ String " " b) with (String c (a ++ String " " b)).
    cbn [Spacing.ends_with_space]; rewrite IH.
    now destruct a.
Qed.

Lemma well_spaced_join (a b : string) :
  Spacing.well_spaced a = true ->
  Spacing.well_spaced (a ++ String " " b)
  = Str.truthy a && Str.truthy b && Spacing.well_spaced b.
Proof.
  unfold Spacing.well_spaced at 1; intro Ha.
  apply andb_true_iff in Ha as [Ha Hends].
  apply andb_true_iff in Ha as [Hnd Hstarts].
  apply negb_true_iff in Hends, Hstarts.
  unfold Spacing.well_spaced.
  rewrite no_double_space_join, starts_with_space_join, ends_with_space_join.
  rewrite Hnd, Hends, Hstarts; unfold Str.truthy.
  destruct (Str.is_empty a), (Str.is_empty b), (Spacing.no_double_space b),
    (Spacing.starts_with_space b), (Spacing.ends_with_space b); reflexivity.
Qed.

Lemma join_cons2 (x y : string) (rest : list string) :
  Str.join " " (x :: y :: rest) = x ++ String " " (Str.join " " (y :: rest)).
Proof. reflexivity. Qed.

Lemma join_not_empty (x : string) (rest : list string) :
  x <> "" -> Str.join " " (x :: rest) <> "".
Proof.
  intro Hx; destruct rest as [|y rest].
  - exact Hx.
  - rewrite join_cons2; destruct x; [now elim Hx | discriminate].
Qed.

Lemma join_well_spaced (parts : list string) :
  Forall (fun x => Spacing.well_spaced x = true) parts ->
  (Spacing.well_spaced (Str.join " " parts) = true
   <-> List.length parts <= 1 \/ Forall (fun x => x <> "") parts).
Proof.
  induction parts as [|x [|y rest] IH]; intro Hall.
  - split; [intros _; left; simpl; lia | reflexivity].
  - split; [intros _; left; simpl; lia|].
    intros _; now inversion Hall.
  - inversion Hall as [|? ? Hx Hrest]; subst.
    specialize (IH Hrest).
    rewrite join_cons2, (well_spaced_join _ _ Hx).
    rewrite !andb_true_iff, !truthy_true, IH.
    split.
    + intros [[Hxne HJ] [Hlen|Hne]]; right.
      * destruct rest; [|simpl in Hlen; lia].
        repeat constructor; auto.
      * now constructor.
    + intros [Hlen|Hne]; [simpl in Hlen; lia|].
      inversion Hne as [|? ? Hxne Hne']; subst.
      repeat split; auto.
      inversion Hne'; subst; now apply join_not_empty.
Qed.

(** C6 (as the code has it). Every page is normalised on its own: white
    space runs collapsed to one space and the ends trimmed; the pages
    are then joined by single spaces. The text of the whole document is
    free of consecutive, leading and trailing white space exactly when
    the document has at most one page or no page is blank; a document
    that cannot be read gives the empty text. *)
Theorem extractor_spacing (pages : list string) :
  extract_text_from_pdf (Ok pages) = Str.join " " (map normalize_page pages)
  /\ (forall page, Spacing.well_spaced (normalize_page page) = true)
  /\ (Spacing.well_spaced (extract_text_from_pdf (Ok pages)) = true
      <-> List.length pages <= 1
          \/ Forall (fun page => Spacing.blank page = false) pages)
  /\ (forall e, extract_text_from_pdf (Raise e) = "").
Proof.
  split; [reflexivity | split; [apply normalize_page_well_spaced | split]];
    [|reflexivity].
  unfold extract_text_from_pdf.
  rewrite join_well_spaced.
  - rewrite length_map.
    assert (H : Forall (fun x => x <> "") (map normalize_page pages)
                <-> Forall (fun page => Spacing.blank page = false) pages).
    { rewrite Forall_map, !Forall_forall.
      split; intros H page Hin; specialize (H page Hin);
        rewrite normalize_page_empty in *;
        destruct (Spacing.blank page); congruence. }
    now rewrite H.
  - apply Forall_map, Forall_forall; intros page _.
    apply normalize_page_well_spaced.
Qed.

Lemma extractor_spacing_witness :
  Spacing.well_spaced
    (extract_text_from_pdf
       (Ok ["  Groups " ++ Str.nl ++ " and   rings "; "Fields"])) = true.
Proof.
  apply (proj2 (proj1 (proj2 (proj2 (extractor_spacing
           ["  Groups " ++ Str.nl ++ " and   rings "; "Fields"]))))).
  right; repeat constructor.
Defined.

(** C6, as stated, fails: a blank page between two pages leaves two
    consecutive spaces, and a blank first page a leading one. *)
Lemma blank_page_breaks_spacing :
  extract_text_from_pdf (Ok ["Groups"; ""; "Rings"]) = "Groups  Rings"
  /\ Spacing.no_double_space "Groups  Rings" = false
  /\ extract_text_from_pdf (Ok ["   "; "Rings"]) = " Rings"
  /\ Spacing.starts_with_space " Rings" = true.
Proof. repeat split. Qed.

(** ** Bracketed fragments *)

Lemma has_char_append (x : ascii) (a b : string) :
  has_char x (a ++ b) = has_char x a || has_char x b.
Proof.
  induction a as [|c a IH]; simpl; [reflexivity|].
  now rewrite IH, orb_assoc.
Qed.

Lemma has_char_suffix (x : ascii) (a b : string) :
  has_char x b = true -> has_char x (a ++ b) = true.
Proof. intro H; rewrite has_char_append, H; apply orb_true_r. Qed.

Lemma has_char_drop (x : ascii) (n : nat) (s : string) :
  has_char x (Str.drop n s) = true -> has_char x s = true.
Proof. intro H; rewrite <- (take_drop n s); now apply has_char_suffix. Qed.

Lemma has_char_sub {A : Type} (pat : Re.pattern A) (x : ascii) (s : string) :
  has_char x (Re.sub pat "" s) = true -> has_char x s = true.
Proof.
  apply (sub_ind pat "" (fun s out => has_char x out = true -> has_char x s = true)).
  - auto.
  - intros c t a k _ IH H; simpl in *.
    apply IH, (has_char_drop x k) in H; rewrite H; apply orb_true_r.
  - intros c t _ IH H; simpl in *.
    apply orb_true_iff in H as [H|H]; [now rewrite H|].
    rewrite (IH H); apply orb_true_r.
Qed.

Lemma prefix_has_char (x : ascii) (n : nat) (s : string) :
  prefix (String x "") (Str.drop n s) = true -> has_char x s = true.
Proof.
  intro H; apply prefix_append in H as [r Hr].
  apply (has_char_drop x n); rewrite Hr; simpl.
  now rewrite Ascii.eqb_refl.
Qed.

Lemma lazy_dot_none_no_char (x : ascii) (s : string) :
  Str.all not_newline s = true ->
  Re.lazy_dot false (prefix (String x "")) s = None ->
  has_char x s = false.
Proof.
  induction s as [|c s IH]; intros Hall Hlazy; [reflexivity|].
  simpl in Hall; apply andb_true_iff in Hall as [Hc Hall].
  cbn [Re.lazy_dot] in Hlazy.
  destruct (prefix (String x "") (String c s)) eqn:Hp; [discriminate|].
  unfold not_newline in Hc; apply negb_true_iff in Hc.
  rewrite Hc in Hlazy; simpl in Hlazy.
  destruct (Re.lazy_dot false (prefix (String x "")) s) eqn:Hl; [discriminate|].
  simpl; rewrite (IH Hall eq_refl), orb_false_r.
  destruct (Ascii.eqb x c) eqn:E; [|reflexivity].
  apply Ascii.eqb_eq in E; subst c.
  assert (Ht : prefix (String x "") (String x s) = true)
    by (apply prefix_append; now exists s).
  congruence.
Qed.

Lemma bracketed_cons (c : ascii) (s : string) :
  Re.bracketed (String c s)
  = if Ascii.eqb c "["
    then match Re.lazy_dot false (prefix "]") s with
         | Some n => Some (tt, n + 2)
         | None => None
         end
    else None.
Proof. destruct c as [[] [] [] [] [] [] [] []]; reflexivity. Qed.

Lemma brackets_unclosed_append (a b : string) :
  brackets_unclosed (a ++ b) = true ->
  brackets_unclosed a = true /\ brackets_unclosed b = true.
Proof.
  induction a as [|c a IH]; simpl; [auto|].
  intro H; apply andb_true_iff in H as [H1 H2].
  destruct (IH H2) as [Ha Hb]; rewrite Ha; split; [|exact Hb].
  rewrite andb_true_r.
  destruct (Ascii.eqb c "["); [|reflexivity].
  rewrite has_char_append in H1.
  now destruct (has_char "]" a).
Qed.

Lemma sub_bracketed_unclosed (s : string) :
  Str.all not_newline s = true ->
  brackets_unclosed (Re.sub Re.bracketed "" s) = true.
Proof.
  apply (sub_ind Re.bracketed ""
           (fun s out => Str.all not_newline s = true ->
                         brackets_unclosed out = true)).
  - auto.
  - intros c t a k _ IH Hall; simpl in *.
    apply andb_true_iff in Hall as [_ Hall].
    now apply IH, all_drop.
  - intros c t Hno IH Hall.
    cbn [Str.all brackets_unclosed] in Hall |- *.
    apply andb_true_iff in Hall as [_ Hall].
    rewrite (IH Hall), andb_true_r.
    destruct (Ascii.eqb c "[") eqn:E; [|reflexivity].
    apply negb_true_iff.
    destruct (has_char "]" (Re.sub Re.bracketed "" t)) eqn:Hc; [|reflexivity].
    apply has_char_sub in Hc.
    destruct (Re.lazy_dot false (prefix "]") t) as [n|] eqn:Hl.
    + exfalso; apply (Hno tt (n + 1)).
      rewrite bracketed_cons, E, Hl; f_equal; f_equal; lia.
    + now rewrite (lazy_dot_none_no_char "]" t Hall Hl) in Hc.
Qed.

Lemma collapse_brackets (s : string) :
  (has_char "]" (Re.sub Re.whitespace_run " " s) = true -> has_char "]" s = true)
  /\ (brackets_unclosed s = true ->
      brackets_unclosed (Re.sub Re.whitespace_run " " s) = true).
Proof.
  apply (collapse_ind
           (fun s out =>
              (has_char "]" out = true -> has_char "]" s = true)
              /\ (brackets_unclosed s = true -> brackets_unclosed out = true))).
  - auto.
  - intros c t Hc [IH1 IH2].
    destruct (lstrip_suffix t) as [a Ea].
    split.
    + intro H; simpl in H; apply IH1 in H.
      simpl; rewrite Ea, (has_char_suffix _ a _ H); apply orb_true_r.
    + intro H; simpl in H; apply andb_true_iff in H as [_ H].
      rewrite Ea in H; apply brackets_unclosed_append in H as [_ H].
      simpl; now apply IH2.
  - intros c t Hc [IH1 IH2].
    split.
    + intro H; simpl in *.
      apply orb_true_iff in H as [H|H]; [now rewrite H|].
      rewrite (IH1 H); apply orb_true_r.
    + intro H; simpl in *; apply andb_true_iff in H as [H1 H2].
      rewrite (IH2 H2), andb_true_r.
      destruct (Ascii.eqb c "["); [|reflexivity].
      destruct (has_char "]" (Re.sub Re.whitespace_run " " t)) eqn:E;
        [|reflexivity].
      now rewrite (IH1 eq_refl) in H1.
Qed.

Lemma brackets_unclosed_free (s : string) :
  brackets_unclosed s = true -> bracket_free s.
Proof.
  unfold bracket_free; induction s as [|c s IH]; [reflexivity|].
  intro H; simpl in H; apply andb_true_iff in H as [H1 H2].
  cbn [Re.search]; rewrite bracketed_cons.
  destruct (Ascii.eqb c "[").
  - destruct (Re.lazy_dot false (prefix "]") s) as [n|] eqn:Hl; [|now apply IH].
    apply lazy_dot_sound in Hl as (Hp & _).
    apply prefix_has_char in Hp; rewrite Hp in H1; discriminate.
  - destruct s; now apply IH.
Qed.

(** ** The harvester's entries *)

Lemma all_join (p : ascii -> bool) (parts : list string) :
  p " "%char = true ->
  Forall (fun x => Str.all p x = true) parts ->
  Str.all p (Str.join " " parts) = true.
Proof.
  intros Hsp; induction parts as [|x [|y rest] IH]; intro Hall.
  - reflexivity.
  - now inversion Hall.
  - inversion Hall as [|? ? Hx Hrest]; subst.
    rewrite join_cons2, all_append; cbn [Str.all].
    now rewrite Hx, Hsp, (IH Hrest).
Qed.

Lemma extract_text_no_newline (pdf : Pdf) :
  Str.all not_newline (extract_text_from_pdf pdf) = true.
Proof.
  destruct pdf as [pages|e]; [|reflexivity].
  apply all_join; [reflexivity|].
  apply Forall_map, Forall_forall; intros page _.
  apply normalize_page_no_newline.
Qed.

Lemma past_question_capture (t q : string) (k : nat) :
  Re.past_question t = Some (q, k) ->
  exists n m, q = Str.take n (Str.drop m t).
Proof.
  unfold Re.past_question.
  destruct (Re.heading_marker t) as [m|]; [|discriminate].
  destruct (Re.lazy_dot true Re.next_heading (Str.drop m t)) as [n|];
    [|discriminate].
  intros [= <- _]; now exists n, m.
Qed.

Lemma clean_question_props (q : string) :
  Str.all not_newline q = true ->
  String.length (_clean_question q) <= 500
  /\ bracket_free (_clean_question q)
  /\ exists full,
      Spacing.well_spaced full = true
      /\ _clean_question q = Str.take 500 full.
Proof.
  intro Hq; unfold _clean_question; repeat split.
  - apply take_length.
  - apply brackets_unclosed_free.
    set (r := Re.sub Re.bracketed "" q).
    assert (Hr : brackets_unclosed (Re.sub Re.whitespace_run " " r) = true)
      by (apply collapse_brackets, sub_bracketed_unclosed, Hq).
    destruct (lstrip_suffix (Re.sub Re.whitespace_run " " r)) as [a Ea].
    rewrite Ea in Hr; apply brackets_unclosed_append in Hr as [_ Hr].
    destruct (rstrip_prefix (Str.lstrip (Re.sub Re.whitespace_run " " r)))
      as [b Eb].
    rewrite Eb in Hr; apply brackets_unclosed_append in Hr as [Hr _].
    fold (Str.strip (Re.sub Re.whitespace_run " " r)) in Hr.
    rewrite <- (take_drop 500 (Str.strip _)) in Hr.
    now apply brackets_unclosed_append in Hr as [Hr _].
  - eexists; split; [|reflexivity].
    apply strip_well_spaced, collapse_no_double_space.
Qed.

(** C7 (as the code has it). Every entry of the harvester's list is the
    cleaned form of a captured span that is not blank: it holds no
    bracketed fragment, it is the first 500 characters of a text whose
    white space is collapsed and whose ends are trimmed, so that it has
    no consecutive and no leading white space and at most 500
    characters. Blank spans are dropped before the cleaning. *)
Theorem harvested_entries (pdf_paths : list Pdf) (entry : string) :
  In entry (extract_questions_from_past_papers pdf_paths) ->
  String.length entry <= 500
  /\ bracket_free entry
  /\ Spacing.no_double_space entry = true
  /\ Spacing.starts_with_space entry = false
  /\ (exists full,
         Spacing.well_spaced full = true /\ entry = Str.take 500 full)
  /\ (exists path q,
         In path pdf_paths
         /\ In q (Re.findall Re.past_question (extract_text_from_pdf path))
         /\ Spacing.blank q = false
         /\ entry = _clean_question q).
Proof.
  unfold extract_questions_from_past_papers; intro Hin.
  apply in_flat_map in Hin as (path & Hpath & Hin).
  apply in_map_iff in Hin as (q & <- & Hq).
  apply filter_In in Hq as [Hq Hblank].
  assert (Hnl : Str.all not_newline q = true).
  { destruct (findall_in _ _ _ Hq) as (pre & t & k & Htext & Hpat).
    destruct (past_question_capture t q k Hpat) as (n & m & ->).
    apply all_take, all_drop.
    pose proof (extract_text_no_newline path) as Hall.
    rewrite Htext, all_append in Hall.
    now apply andb_true_iff in Hall. }
  destruct (clean_question_props q Hnl) as (Hlen & Hfree & full & Hfull & Hclean).
  assert (Hparts : Spacing.no_double_space full = true
                   /\ Spacing.starts_with_space full = false).
  { unfold Spacing.well_spaced in Hfull.
    apply andb_true_iff in Hfull as [Hfull _].
    apply andb_true_iff in Hfull as [Hnd Hst].
    now apply negb_true_iff in Hst. }
  destruct Hparts as [Hnd Hst].
  repeat split; auto.
  - rewrite Hclean; apply (no_double_space_prefix _ (Str.drop 500 full)).
    now rewrite take_drop.
  - rewrite Hclean.
    destruct (Str.take 500 full) as [|c r] eqn:E; [reflexivity|].
    rewrite <- (take_drop 500 full), E in Hst; exact Hst.
  - now exists full.
  - exists path, q; repeat split; auto.
    destruct (Spacing.blank q) eqn:Eb; [|reflexivity].
    apply strip_empty in Eb; rewrite Eb in Hblank; discriminate.
Qed.

Lemma harvested_entries_witness :
  String.length "What is a group?" <= 500
  /\ bracket_free "What is a group?"
  /\ Spacing.no_double_space "What is a group?" = true
  /\ Spacing.starts_with_space "What is a group?" = false
  /\ (exists full,
         Spacing.well_spaced full = true
         /\ "What is a group?" = Str.take 500 full)
  /\ (exists path q,
         In path [(Ok ["Q1. [3 Marks]  What is" ++ Str.nl ++ "a group?"]) : Pdf]
         /\ In q (Re.findall Re.past_question (extract_text_from_pdf path))
         /\ Spacing.blank q = false
         /\ "What is a group?" = _clean_question q).
Proof.
  apply (harvested_entries
           [Ok ["Q1. [3 Marks]  What is" ++ Str.nl ++ "a group?"]]).
  vm_compute; now left.
Defined.

(** C7, as stated, fails: a span that holds only a bracketed fragment is
    not blank before the cleaning and is kept as the empty entry; and an
    entry cut at 500 characters can end with a space. *)
Lemma bracket_only_span_is_kept :
  extract_questions_from_past_papers
    [Ok ["Q1. [5 marks] Q2. Define a ring."]]
  = [""; "Define a ring."]
  /\ extract_questions_from_past_papers
       [Ok ["Q1. " ++ repeat_char "x" 499 ++ " and more"]]
     = [repeat_char "x" 499 ++ " "].
Proof. split; vm_compute; reflexivity. Qed.

(** The example of the specification for multiple-choice sections, parsed
    as a whole text. *)
Example multiple_choice_example :
  _format_response
    ("**Section B**" ++ Str.nl
     ++ "- What is the capital of France? a) Paris b) Lyon c) Nice d) Cannes")
    example_template
  = Ok {| doc_sections :=
            [("Section B",
              [{| q_text := "- What is the capital of France?";
                  q_difficulty := "medium";
                  q_marks := 0;
                  q_options := Some ["Paris"; "Lyon"; "Nice"; "Cannes"] |}])] |}.
Proof. reflexivity. Qed.

(** * Further properties of the parser *)

Lemma update_last_snoc {A : Type} (f : A -> A) (xs : list A) (x : A) :
  Py.update_last f (xs ++ [x])%list = Ok (xs ++ [f x])%list.
Proof.
  induction xs as [|y xs IH]; [reflexivity|].
  change ((y :: xs) ++ [x])%list with (y :: (xs ++ [x]))%list.
  destruct (xs ++ [x])%list as [|z zs] eqn:E.
  - now destruct xs.
  - change (Py.update_last f (y :: z :: zs))
      with (rest' <- Py.update_last f (z :: zs) ;; Ok (y :: rest')).
    now rewrite IH.
Qed.

(** X1. In an open section a line that is blank once it is trimmed
    changes nothing. A line that is not blank, and is neither a header
    nor the start of an item, is appended, after one space, to the text
    of the last question, which is otherwise unchanged, as are the
    questions before it; when the section has no question yet the line
    is dropped. Every line that is not blank either starts an item or
    does not. *)
Theorem continuation_is_merged (template : Template) (st : ParserState)
    (raw : string) :
  header_of raw = None ->
  section_open (current_section st) = true ->
  (Str.strip raw = "" -> step template st raw = Ok st)
  /\ (Str.strip raw <> "" -> exists item, starts_item (Str.strip raw) = Ok item)
  /\ (starts_item (Str.strip raw) = Ok false ->
      (forall qs q,
          current_questions st = (qs ++ [q])%list ->
          step template st raw
          = Ok {| sections := sections st;
                  current_section := current_section st;
                  current_questions :=
                    (qs ++ [{| q_text := q_text q ++ " " ++ Str.strip raw;
                               q_difficulty := q_difficulty q;
                               q_marks := q_marks q;
                               q_options := q_options q |}])%list |})
      /\ (current_questions st = [] ->
          step template st raw
          = Ok {| sections := sections st;
                  current_section := current_section st;
                  current_questions := [] |})).
Proof.
  intros Hh Hopen.
  unfold header_of in Hh; unfold step, process_line; rewrite Hh.
  split; [|split].
  - intros ->; destruct st; reflexivity.
  - intro Hne; unfold starts_item.
    destruct (Str.strip raw) as [|c line]; [now elim Hne|].
    repeat match goal with
           | |- context [if ?b then _ else _] => destruct b
           end; eexists; reflexivity.
  - intro Hitem.
    rewrite (starts_item_not_empty _ _ Hitem), Hopen, Hitem; simpl.
    split.
    + intros qs q ->.
      destruct (qs ++ [q])%list as [|z zs] eqn:E; [now destruct qs|].
      rewrite <- E, update_last_snoc; reflexivity.
    + intros ->; reflexivity.
Qed.

Lemma continuation_is_merged_witness :
  step example_template
       {| sections := Dict.empty;
          current_section := Some "Section A";
          current_questions :=
            [{| q_text := "- State the theorem"; q_difficulty := "hard";
                q_marks := 5; q_options := None |}] |}
       "  of Lagrange and prove it. "
  = Ok {| sections := Dict.empty;
          current_section := Some "Section A";
          current_questions :=
            [{| q_text := "- State the theorem of Lagrange and prove it.";
                q_difficulty := "hard";
                q_marks := 5; q_options := None |}] |}.
Proof.
  exact (proj1 (proj2 (proj2 (continuation_is_merged example_template
                  {| sections := Dict.empty;
                     current_section := Some "Section A";
                     current_questions :=
                       [{| q_text := "- State the theorem"; q_difficulty := "hard";
                           q_marks := 5; q_options := None |}] |}
                  "  of Lagrange and prove it. " eq_refl eq_refl)) eq_refl)
               []
               {| q_text := "- State the theorem"; q_difficulty := "hard";
                  q_marks := 5; q_options := None |}
               eq_refl).
Defined.

Lemma split_lines_not_nil (s : string) : Str.split_lines s <> [].
Proof.
  induction s as [|c s IH]; simpl; [discriminate|].
  destruct (Ascii.eqb c Char.newline); [discriminate|].
  destruct (Str.split_lines s); [now elim IH | discriminate].
Qed.

Lemma split_lines_append (a b : string) :
  Str.split_lines (a ++ Str.nl ++ b)
  = (Str.split_lines a ++ Str.split_lines b)%list.
Proof.
  induction a as [|c a IH].
  - reflexivity.
  - change (String c a ++ Str.nl ++ b) with (String c (a ++ Str.nl ++ b)).
    cbn [Str.split_lines]; rewrite IH.
    destruct (Ascii.eqb c Char.newline); [reflexivity|].
    pose proof (split_lines_not_nil a) as Hne.
    destruct (Str.split_lines a); [now elim Hne | reflexivity].
Qed.

Lemma run_lines_closed (template : Template) (lines : list string)
    (st : ParserState) :
  section_open (current_section st) = false ->
  existsb is_section_header lines = false ->
  run_lines template st lines
  = Ok {| sections := sections st;
          current_section := current_section st;
          current_questions := current_questions st |}.
Proof.
  intro Hclosed; revert st Hclosed.
  induction lines as [|l lines IH]; intros st Hclosed Hno.
  - now destruct st.
  - simpl in Hno; apply orb_false_iff in Hno as [Hl Hrest].
    unfold is_section_header, header_of in Hl.
    cbn [run_lines]; unfold step, process_line.
    destruct (Re.match_start Re.bold_header (Str.strip l)); [discriminate|].
    rewrite Hclosed, andb_false_r; cbn [bind].
    rewrite IH; auto.
Qed.

(** X2. What precedes the first section header is discarded: a text
    with lines in front, none of which is a header, gives the same
    document as the text without them. *)
Theorem preamble_is_discarded (template : Template) (preamble text : string) :
  existsb is_section_header (Str.split_lines preamble) = false ->
  _format_response (preamble ++ Str.nl ++ text) template
  = _format_response text template.
Proof.
  intro Hno; unfold _format_response.
  rewrite split_lines_append, run_lines_app.
  rewrite (run_lines_closed template _ initial_state eq_refl Hno).
  reflexivity.
Qed.

Lemma preamble_is_discarded_witness :
  _format_response
    (("Here is your paper:" ++ Str.nl ++ "- [Hard] a stray item") ++ Str.nl
     ++ ("**Section A**" ++ Str.nl ++ "- [Easy] Define a group."))
    example_template
  = _format_response ("**Section A**" ++ Str.nl ++ "- [Easy] Define a group.")
                     example_template.
Proof.
  apply (preamble_is_discarded example_template
           ("Here is your paper:" ++ Str.nl ++ "- [Hard] a stray item")).
  reflexivity.
Defined.

Lemma parse_item_shape (template : Template) (cs line : string) (q : Question) :
  parse_item template cs line = Ok q ->
  exists m l2,
    extract_marks (snd (extract_difficulty line)) = Ok (m, l2)
    /\ q_difficulty q = Py.or_str (fst (extract_difficulty line)) "medium"
    /\ q_marks q = Py.or_Z m 0
    /\ (q_options q <> None
        <-> declared_type template cs = "multiple_choice").
Proof.
  intro Hq.
  destruct (extract_difficulty line) as [d l1] eqn:Hd.
  destruct (extract_marks_ok l1) as [[m l2] Hm].
  rewrite (parse_item_eq template cs line d l1 m l2 Hd Hm) in Hq.
  cbv zeta in Hq; unfold declared_type.
  exists m, l2; split; [exact Hm|].
  destruct (String.eqb _ "multiple_choice") eqn:Et.
  - apply String.eqb_eq in Et.
    destruct (Py.unpack_first _) as [p|e]; [|discriminate].
    injection Hq as <-; simpl; repeat split; auto; discriminate.
  - injection Hq as <-; simpl; repeat split; auto.
    + intro H; now elim H.
    + intro H; rewrite H in Et; discriminate.
Qed.

(** X3. The difficulty of a question follows a fixed order of the tags,
    not their position in the line: easy when the line holds [Easy],
    else medium when it holds [Medium], else hard when it holds [Hard],
    and medium when it holds none of them. *)
Theorem difficulty_tag_priority (template : Template) (cs line : string)
    (q : Question) :
  parse_item template cs line = Ok q ->
  q_difficulty q
  = if Str.contains "[Easy]" line then "easy"
    else if Str.contains "[Medium]" line then "medium"
    else if Str.contains "[Hard]" line then "hard"
    else "medium".
Proof.
  intro Hq.
  destruct (parse_item_shape template cs line q Hq) as (m & l2 & _ & -> & _).
  unfold extract_difficulty.
  destruct (Str.contains "[Easy]" line); [reflexivity|].
  destruct (Str.contains "[Medium]" line); [reflexivity|].
  destruct (Str.contains "[Hard]" line); reflexivity.
Qed.

Lemma difficulty_tag_priority_witness :
  q_difficulty
    {| q_text := "- [Hard] Prove it.  [Medium]"; q_difficulty := "easy";
       q_marks := 0; q_options := None |}
  = if Str.contains "[Easy]" "- [Hard] Prove it. [Easy] [Medium]" then "easy"
    else if Str.contains "[Medium]" "- [Hard] Prove it. [Easy] [Medium]"
         then "medium"
    else if Str.contains "[Hard]" "- [Hard] Prove it. [Easy] [Medium]"
         then "hard"
    else "medium".
Proof.
  apply (difficulty_tag_priority example_template "Section A"
           "- [Hard] Prove it. [Easy] [Medium]").
  reflexivity.
Defined.

(** ** Invariants of the parser's loop *)

Lemma dict_set_in {V : Type} (d : Dict.t V) (k0 : string) (v0 : V)
    (k : string) (v : V) :
  In (k, v) (Dict.set d k0 v0) -> (k = k0 /\ v = v0) \/ In (k, v) d.
Proof.
  induction d as [|[k' v'] d IH]; simpl.
  - intros [[= <- <-]|[]]; now left.
  - destruct (String.eqb k' k0) eqn:E; simpl.
    + apply String.eqb_eq in E; subst k'.
      intros [[= <- <-]|H]; [now left | right; now right].
    + intros [H|H]; [right; now left|].
      destruct (IH H) as [H'|H']; [now left | right; now right].
Qed.

Section LoopInvariant.

Variable template : Template.
Variable P : string -> Question -> Prop.

Hypothesis P_item :
  forall cs line q, parse_item template cs line = Ok q -> P cs q.
Hypothesis P_continue :
  forall cs line q, P cs q -> P cs (continue_question line q).

Lemma update_last_forall (Q : Question -> Prop) (f : Question -> Question)
    (qs qs' : list Question) :
  (forall q, Q q -> Q (f q)) ->
  Forall Q qs -> Py.update_last f qs = Ok qs' -> Forall Q qs'.
Proof.
  intros Hf; revert qs'; induction qs as [|q qs IH]; intros qs' Hall Hu;
    [discriminate|].
  inversion Hall as [|? ? Hq Hqs]; subst.
  destruct qs as [|q2 qs].
  - injection Hu as <-; auto.
  - change (Py.update_last f (q :: q2 :: qs))
      with (rest' <- Py.update_last f (q2 :: qs) ;; Ok (q :: rest')) in Hu.
    destruct (Py.update_last f (q2 :: qs)) as [rest|e]; [|discriminate].
    injection Hu as <-; constructor; auto.
Qed.

Lemma process_line_keeps (cs : option string) (qs qs' : list Question)
    (line : string) :
  Forall (P (section_name cs)) qs ->
  process_line template cs qs line = Ok qs' ->
  Forall (P (section_name cs)) qs'.
Proof.
  intros Hall; unfold process_line.
  destruct (Str.truthy line && section_open cs); [|now intros [= <-]].
  destruct (starts_item line) as [[|]|e]; simpl; try discriminate.
  - destruct (parse_item template (section_name cs) line) as [q|e] eqn:Hq;
      simpl; [|discriminate].
    intros [= <-]; apply Forall_app; split; [exact Hall|].
    constructor; [now apply (P_item _ line) | constructor].
  - destruct qs as [|q0 qs0]; [now intros [= <-]|].
    apply update_last_forall; auto.
Qed.

Lemma commit_keeps (st : ParserState) :
  Forall (P (section_name (current_section st))) (current_questions st) ->
  sections_satisfy P (sections st) ->
  sections_satisfy P (commit st).
Proof.
  intros Hcur Hsec; unfold commit.
  destruct (section_open (current_section st)); [|exact Hsec].
  intros nm qs Hin.
  apply dict_set_in in Hin as [[-> ->]|Hin]; [exact Hcur | now apply (Hsec nm)].
Qed.

Lemma run_lines_keeps (lines : list string) (st st' : ParserState) :
  Forall (P (section_name (current_section st))) (current_questions st) ->
  sections_satisfy P (sections st) ->
  run_lines template st lines = Ok st' ->
  Forall (P (section_name (current_section st'))) (current_questions st')
  /\ sections_satisfy P (sections st').
Proof.
  revert st; induction lines as [|l lines IH]; intros st Hcur Hsec Hrun.
  - injection Hrun as <-; auto.
  - cbn [run_lines] in Hrun.
    destruct (header_of l) as [nm|] eqn:Hh.
    + rewrite (step_header template st l nm Hh) in Hrun; cbn [bind] in Hrun.
      apply (IH _) in Hrun; auto.
      now apply commit_keeps.
    + destruct (step_body template st l Hh) as (qs & Hp & Hs).
      rewrite Hs in Hrun; cbn [bind] in Hrun.
      apply (IH _) in Hrun; auto.
      simpl; now apply (process_line_keeps _ _ _ _ Hcur Hp).
Qed.

Lemma format_response_keeps (text : string) (doc : GeneratedDocument) :
  _format_response text template = Ok doc ->
  sections_satisfy P (doc_sections doc).
Proof.
  unfold _format_response; intro H.
  destruct (run_lines template initial_state (Str.split_lines text))
    as [st|e] eqn:Hrun; [|discriminate].
  injection H as <-; simpl.
  apply (run_lines_keeps _ initial_state st) in Hrun as [Hcur Hsec].
  - now apply commit_keeps.
  - constructor.
  - intros nm qs [].
Qed.

End LoopInvariant.

Lemma value_from_nonneg (s : string) (acc : Z) :
  (0 <= acc)%Z -> (0 <= Str.value_from acc s)%Z.
Proof.
  revert acc; induction s as [|c s IH]; intros acc Hacc;
    cbn [Str.value_from]; [exact Hacc|].
  apply IH; lia.
Qed.

Lemma extract_marks_nonneg (line l2 : string) (m : option Z) :
  extract_marks line = Ok (m, l2) -> (0 <= Py.or_Z m 0)%Z.
Proof.
  unfold extract_marks.
  destruct (Re.search Re.marks_tag line) as [digits|];
    [|intros [= <- _]; simpl; lia].
  unfold Py.int.
  destruct (Str.is_empty digits || negb (Str.all Char.isdecimal digits));
    [simpl; intros [= <- _]; simpl; lia|].
  destruct (Py.int_max_str_digits <? String.length digits)%nat;
    simpl; intros [= <- _]; simpl; [lia|].
  pose proof (value_from_nonneg digits 0 ltac:(lia)).
  destruct (Z.eqb (Str.value_from 0 digits) 0); lia.
Qed.

(** X4. Whatever the text, every question of the returned document has
    one of the three difficulties easy, medium, hard, and marks that are
    not negative. *)
Theorem questions_are_well_formed (template : Template) (text : string)
    (doc : GeneratedDocument) :
  _format_response text template = Ok doc ->
  sections_satisfy
    (fun _ q =>
       (q_difficulty q = "easy" \/ q_difficulty q = "medium"
        \/ q_difficulty q = "hard")
       /\ (0 <= q_marks q)%Z)
    (doc_sections doc).
Proof.
  apply format_response_keeps.
  - intros cs line q Hq.
    destruct (parse_item_shape template cs line q Hq) as (m & l2 & Hm & -> & -> & _).
    split; [|exact (extract_marks_nonneg _ _ _ Hm)].
    unfold extract_difficulty.
    destruct (Str.contains "[Easy]" line); [now left|].
    destruct (Str.contains "[Medium]" line); [right; now left|].
    destruct (Str.contains "[Hard]" line); [right; now right | right; now left].
  - intros cs line q H; exact H.
Qed.

Lemma questions_are_well_formed_witness :
  sections_satisfy
    (fun _ q =>
       (q_difficulty q = "easy" \/ q_difficulty q = "medium"
        \/ q_difficulty q = "hard")
       /\ (0 <= q_marks q)%Z)
    [("Section A",
      [{| q_text := "- [Tricky]  Define a group.";
          q_difficulty := "medium"; q_marks := 7; q_options := None |}])].
Proof.
  apply (questions_are_well_formed example_template
           ("**Section A**" ++ Str.nl ++ "- [Tricky] [7 Marks] Define a group.")
           {| doc_sections :=
                [("Section A",
                  [{| q_text := "- [Tricky]  Define a group.";
                      q_difficulty := "medium"; q_marks := 7;
                      q_options := None |}])] |}).
  reflexivity.
Defined.

(** X5. Whatever the text, a question of the returned document carries
    an options list exactly when the template declares the section it is
    filed under as multiple choice; in particular the questions of a
    section that the template does not know carry none. *)
Theorem options_follow_declared_type (template : Template) (text : string)
    (doc : GeneratedDocument) :
  _format_response text template = Ok doc ->
  sections_satisfy
    (fun nm q =>
       q_options q <> None <-> declared_type template nm = "multiple_choice")
    (doc_sections doc).
Proof.
  apply format_response_keeps.
  - intros cs line q Hq.
    now destruct (parse_item_shape template cs line q Hq) as (m & l2 & _ & _ & _ & H).
  - intros cs line q H; exact H.
Qed.

Lemma options_follow_declared_type_witness :
  sections_satisfy
    (fun nm q =>
       q_options q <> None
       <-> declared_type example_template nm = "multiple_choice")
    [("Section B",
      [{| q_text := "- Pick one:"; q_difficulty := "medium"; q_marks := 0;
          q_options := Some ["x"; "y"] |}]);
     ("Appendix",
      [{| q_text := "- Pick another: a) u b) v"; q_difficulty := "medium";
          q_marks := 0; q_options := None |}])].
Proof.
  apply (options_follow_declared_type example_template
           ("**Section B**" ++ Str.nl ++ "- Pick one: a) x b) y" ++ Str.nl
            ++ "**Appendix**" ++ Str.nl ++ "- Pick another: a) u b) v")
           {| doc_sections :=
                [("Section B",
                  [{| q_text := "- Pick one:"; q_difficulty := "medium";
                      q_marks := 0; q_options := Some ["x"; "y"] |}]);
                 ("Appendix",
                  [{| q_text := "- Pick another: a) u b) v";
                      q_difficulty := "medium";
                      q_marks := 0; q_options := None |}])] |}).
  reflexivity.
Defined.

(** ** The sections of the document *)

Lemma dict_set_keys_in {V : Type} (d : Dict.t V) (k0 : string) (v : V)
    (k : string) :
  In k (map fst (Dict.set d k0 v)) <-> k = k0 \/ In k (map fst d).
Proof.
  induction d as [|[k' v'] d IH]; simpl.
  - intuition.
  - destruct (String.eqb k' k0) eqn:E; simpl.
    + apply String.eqb_eq in E; subst k'; intuition.
    + rewrite IH; intuition.
Qed.

Lemma dict_set_nodup {V : Type} (d : Dict.t V) (k0 : string) (v : V) :
  NoDup (map fst d) -> NoDup (map fst (Dict.set d k0 v)).
Proof.
  induction d as [|[k' v'] d IH]; simpl; intro Hnd.
  - repeat constructor; intros [].
  - inversion Hnd as [|? ? Hnotin Hnd']; subst.
    destruct (String.eqb k' k0) eqn:E; simpl; [now constructor|].
    constructor; [|now apply IH].
    rewrite dict_set_keys_in; intros [->|H]; [|contradiction].
    now rewrite String.eqb_refl in E.
Qed.

Lemma dict_get_in_keys {V : Type} (d : Dict.t V) (k : string) :
  Dict.get d k <> None <-> In k (map fst d).
Proof.
  induction d as [|[k' v'] d IH]; simpl.
  - split; [intro H; now elim H | intros []].
  - destruct (String.eqb k' k) eqn:E.
    + apply String.eqb_eq in E; subst k'; split; [now left | discriminate].
    + rewrite IH; split; [now right|].
      intros [->|H]; [|exact H].
      now rewrite String.eqb_refl in E.
Qed.

Lemma last_occurrence {A : Type} (f : A -> bool) (l : list A) :
  existsb f l = true ->
  exists pre x post,
    l = (pre ++ x :: post)%list /\ f x = true /\ existsb f post = false.
Proof.
  induction l as [|a l IH]; simpl; [discriminate|].
  destruct (existsb f l) eqn:E.
  - intros _; destruct (IH eq_refl) as (pre & x & post & -> & Hx & Hpost).
    now exists (a :: pre), x, post.
  - rewrite orb_false_r; intro Ha.
    now exists [], a, l.
Qed.

Section DocumentKeys.

Variable template : Template.

Lemma commit_nodup (st : ParserState) :
  NoDup (map fst (sections st)) -> NoDup (map fst (commit st)).
Proof.
  unfold commit; destruct (section_open (current_section st)); [|auto].
  apply dict_set_nodup.
Qed.

Lemma commit_keys (st : ParserState) (k : string) :
  In k (map fst (commit st)) ->
  In k (map fst (sections st)) \/ (k <> "" /\ current_section st = Some k).
Proof.
  unfold commit.
  destruct (current_section st) as [nm|]; simpl; [|now left].
  destruct (Str.truthy nm) eqn:E; [|now left].
  rewrite dict_set_keys_in; intros [->|H]; [right | now left].
  split; [now apply truthy_true | reflexivity].
Qed.

Lemma run_lines_nodup (lines : list string) (st st' : ParserState) :
  NoDup (map fst (sections st)) ->
  run_lines template st lines = Ok st' ->
  NoDup (map fst (sections st')).
Proof.
  revert st; induction lines as [|l lines IH]; intros st Hnd Hrun.
  - now injection Hrun as <-.
  - cbn [run_lines] in Hrun.
    destruct (header_of l) as [nm|] eqn:Hh.
    + rewrite (step_header template st l nm Hh) in Hrun; cbn [bind] in Hrun.
      apply (IH _) in Hrun; auto.
      now apply commit_nodup.
    + destruct (step_body template st l Hh) as (qs & _ & Hs).
      rewrite Hs in Hrun; cbn [bind] in Hrun.
      apply (IH _) in Hrun; auto.
Qed.

Lemma run_lines_keys (lines : list string) (st st' : ParserState) (k : string) :
  run_lines template st lines = Ok st' ->
  In k (map fst (commit st')) ->
  In k (map fst (sections st))
  \/ (k <> ""
      /\ (current_section st = Some k
          \/ exists l, In l lines /\ header_of l = Some k)).
Proof.
  revert st; induction lines as [|l lines IH]; intros st Hrun Hin.
  - injection Hrun as <-.
    apply commit_keys in Hin as [H|[H1 H2]]; [now left | right; auto].
  - cbn [run_lines] in Hrun.
    destruct (header_of l) as [nm|] eqn:Hh.
    + rewrite (step_header template st l nm Hh) in Hrun; cbn [bind] in Hrun.
      destruct (IH _ Hrun Hin) as [H|[Hne [H|(l' & Hl' & Hk)]]]; try (simpl in H).
      * apply commit_keys in H as [H|[H1 H2]]; [now left | right; auto].
      * injection H as ->; right; split; [exact Hne|].
        right; exists l; split; [now left | exact Hh].
      * right; split; [exact Hne|].
        right; exists l'; split; [now right | exact Hk].
    + destruct (step_body template st l Hh) as (qs & _ & Hs).
      rewrite Hs in Hrun; cbn [bind] in Hrun.
      destruct (IH _ Hrun Hin) as [H|[Hne [H|(l' & Hl' & Hk)]]]; try (simpl in H).
      * now left.
      * right; auto.
      * right; split; [exact Hne|].
        right; exists l'; split; [now right | exact Hk].
Qed.

Lemma header_is_committed (lines : list string) (nm : string) :
  nm <> "" ->
  (exists l, In l lines /\ header_of l = Some nm) ->
  exists st,
    run_lines template initial_state lines = Ok st
    /\ Dict.get (commit st) nm <> None.
Proof.
  intros Hne (l & Hl & Hh).
  set (f := fun l => match header_of l with
                     | Some n => String.eqb n nm
                     | None => false
                     end).
  assert (Hex : existsb f lines = true).
  { apply existsb_exists; exists l; split; [exact Hl|].
    unfold f; rewrite Hh; apply String.eqb_refl. }
  apply last_occurrence in Hex as (pre & h & post & -> & Hfh & Hpost).
  assert (Hh' : header_of h = Some nm).
  { unfold f in Hfh; destruct (header_of h) as [n|]; [|discriminate].
    apply String.eqb_eq in Hfh; now subst n. }
  assert (Hnone : forall l', In l' post -> header_of l' <> Some nm).
  { intros l' Hin E.
    assert (Hf : f l' = true) by (unfold f; rewrite E; apply String.eqb_refl).
    assert (Hc : existsb f post = true)
      by (apply existsb_exists; now exists l').
    congruence. }
  destruct (last_header_wins template nm pre post h Hh' Hne Hnone)
    as (st & qs & Hrun & _ & Hget).
  exists st; split; [exact Hrun|].
  rewrite Hget; discriminate.
Qed.

End DocumentKeys.

(** X6. The sections of the returned document are exactly the names,
    other than the empty one, that some header line of the text opens,
    each of them once: also a section without questions is listed, and a
    section that the text does not open is absent, whatever the template
    declares. *)
Theorem document_sections_are_the_headers (template : Template)
    (text : string) (doc : GeneratedDocument) :
  _format_response text template = Ok doc ->
  NoDup (map fst (doc_sections doc))
  /\ forall nm,
      In nm (map fst (doc_sections doc))
      <-> nm <> ""
          /\ exists l, In l (Str.split_lines text) /\ header_of l = Some nm.
Proof.
  unfold _format_response; intro H.
  destruct (run_lines template initial_state (Str.split_lines text))
    as [st|e] eqn:Hrun; [|discriminate].
  injection H as <-; simpl.
  split.
  - apply commit_nodup.
    apply (run_lines_nodup template (Str.split_lines text) initial_state st);
      [constructor | exact Hrun].
  - intro nm; split.
    + intro Hin.
      destruct (run_lines_keys template _ _ _ nm Hrun Hin)
        as [[]|[Hne [H|H]]]; [discriminate | auto].
    + intros [Hne Hex].
      destruct (header_is_committed template _ nm Hne Hex) as (st' & Hrun' & Hget).
      rewrite Hrun in Hrun'; injection Hrun' as <-.
      now apply dict_get_in_keys.
Qed.

Lemma document_sections_are_the_headers_witness :
  NoDup (map fst [("B", @nil Question); ("A", [])])
  /\ forall nm,
      In nm (map fst [("B", @nil Question); ("A", [])])
      <-> nm <> ""
          /\ exists l,
              In l (Str.split_lines
                      ("**B**" ++ Str.nl ++ "**A**" ++ Str.nl ++ "****"
                       ++ Str.nl ++ "**B**"))
              /\ header_of l = Some nm.
Proof.
  apply (document_sections_are_the_headers example_template
           ("**B**" ++ Str.nl ++ "**A**" ++ Str.nl ++ "****" ++ Str.nl ++ "**B**")
           {| doc_sections := [("B", []); ("A", [])] |}).
  reflexivity.
Defined.

(** * Further properties of the extractor and the harvester *)

Lemma collapse_all (p : ascii -> bool) (s : string) :
  p " "%char = true ->
  (forall c, Char.isspace c = false -> p c = true) ->
  Str.all p (Re.sub Re.whitespace_run " " s) = true.
Proof.
  intros Hsp Hc.
  apply (collapse_ind (fun _ out => Str.all p out = true)).
  - reflexivity.
  - intros c t _ IH; cbn [Str.all]; now rewrite Hsp, IH.
  - intros c t Hsc IH; cbn [Str.all]; now rewrite (Hc c Hsc), IH.
Qed.

Lemma normalize_page_plain (text : string) :
  Str.all plain (normalize_page text) = true.
Proof.
  apply all_rstrip, all_lstrip, collapse_all; [reflexivity|].
  intros c Hc; unfold plain; now rewrite Hc.
Qed.

(** X7. In the text extracted from a document every white space
    character is an ordinary space: line breaks, tabs and the other
    separators of the pages never reach the output. *)
Theorem extractor_only_plain_spaces (pdf : Pdf) :
  Str.all plain (extract_text_from_pdf pdf) = true.
Proof.
  destruct pdf as [pages|e]; [|reflexivity].
  apply all_join; [reflexivity|].
  apply Forall_map, Forall_forall; intros page _.
  apply normalize_page_plain.
Qed.

Lemma lstrip_fixed (s : string) :
  Spacing.starts_with_space s = false -> Str.lstrip s = s.
Proof. destruct s as [|c s]; simpl; [auto | now intros ->]. Qed.

Lemma rstrip_fixed (s : string) :
  Spacing.ends_with_space s = false -> Str.rstrip s = s.
Proof.
  induction s as [|c s IH]; [reflexivity|].
  cbn [Spacing.ends_with_space Str.rstrip].
  destruct s as [|d s].
  - intros ->; reflexivity.
  - intro H; rewrite (IH H); reflexivity.
Qed.

Lemma collapse_fixed (s : string) :
  Str.all plain s = true ->
  Spacing.no_double_space s = true ->
  Re.sub Re.whitespace_run " " s = s.
Proof.
  induction s as [|c s IH]; [reflexivity|].
  cbn [Str.all Spacing.no_double_space]; intros Hp Hnd.
  apply andb_true_iff in Hp as [Hc Hp], Hnd as [Hcd Hnd].
  rewrite collapse_cons.
  destruct (Char.isspace c) eqn:Esp.
  - unfold plain in Hc; rewrite Esp in Hc; simpl in Hc.
    apply Ascii.eqb_eq in Hc; subst c.
    rewrite lstrip_fixed, (IH Hp Hnd); [reflexivity|].
    destruct s as [|d s]; [reflexivity|].
    simpl in *; now destruct (Char.isspace d).
  - now rewrite (IH Hp Hnd).
Qed.

(** X8. Normalising a page is idempotent: the normalised text of a page
    is left as it is when it is normalised again. *)
Theorem normalize_page_idempotent (text : string) :
  normalize_page (normalize_page text) = normalize_page text.
Proof.
  pose proof (normalize_page_well_spaced text) as Hws.
  pose proof (normalize_page_plain text) as Hp.
  unfold Spacing.well_spaced in Hws.
  apply andb_true_iff in Hws as [Hws Hends].
  apply andb_true_iff in Hws as [Hnd Hstarts].
  apply negb_true_iff in Hends, Hstarts.
  unfold normalize_page at 1.
  rewrite (collapse_fixed _ Hp Hnd).
  unfold Str.strip; now rewrite (lstrip_fixed _ Hstarts), (rstrip_fixed _ Hends).
Qed.

Lemma marker_needs_letter (c : ascii) (s : string) :
  heading_letter c = false -> Re.heading_marker (String c s) = None.
Proof.
  destruct c as [[] [] [] [] [] [] [] []]; intro H;
    try discriminate H; reflexivity.
Qed.

Lemma scan_without_letters (s : string) (n : nat) :
  Str.all (fun c => negb (heading_letter c)) s = true ->
  flat_map (fun t : ascii + string =>
              match t with inl _ => [] | inr x => [x] end)
           (Re.scan_from Re.past_question n s) = [].
Proof.
  revert n; induction s as [|c s IH]; intros n Hall; [reflexivity|].
  cbn [Str.all] in Hall; apply andb_true_iff in Hall as [Hc Hall].
  apply negb_true_iff in Hc.
  destruct n as [|n]; cbn [Re.scan_from]; [|now apply IH].
  unfold Re.past_question at 1.
  rewrite (marker_needs_letter c s Hc); simpl; now apply IH.
Qed.

(** X9. A past paper yields questions only where a heading marker
    starts, and a marker starts with one of the letters Q and P in
    either case: papers whose text holds none of these letters, and
    papers that cannot be read, yield the empty list. *)
Theorem no_heading_letter_no_question (pdf_paths : list Pdf) :
  Forall (fun path =>
            Str.all (fun c => negb (heading_letter c))
                    (extract_text_from_pdf path) = true) pdf_paths ->
  extract_questions_from_past_papers pdf_paths = [].
Proof.
  unfold extract_questions_from_past_papers.
  induction 1 as [|path paths Hpath _ IH]; [reflexivity|].
  cbn [flat_map]; rewrite IH, app_nil_r.
  unfold Re.findall, Re.scan.
  now rewrite (scan_without_letters _ 0 Hpath).
Qed.

Lemma no_heading_letter_no_question_witness :
  extract_questions_from_past_papers
    [Ok ["1. What is a ring?"; "2) Name three fields."];
     Raise (Exception OtherError "cannot open broken document")]
  = [].
Proof.
  apply no_heading_letter_no_question.
  constructor; [vm_compute; reflexivity|].
  constructor; [vm_compute; reflexivity|].
  constructor.
Defined.

(** * Further properties of the prompt composer *)

Lemma split_lines_one (s : string) :
  Str.all not_newline s = true -> Str.split_lines s = [s].
Proof.
  induction s as [|c s IH]; [reflexivity|].
  cbn [Str.all Str.split_lines]; intro H.
  apply andb_true_iff in H as [Hc Hs].
  unfold not_newline in Hc; apply negb_true_iff in Hc.
  now rewrite Hc, (IH Hs).
Qed.

Lemma split_lines_join (parts : list string) :
  parts <> [] ->
  Str.split_lines (Str.join Str.nl parts) = flat_map Str.split_lines parts.
Proof.
  induction parts as [|a [|b rest] IH]; intro Hne.
  - now elim Hne.
  - cbn [flat_map]; now rewrite app_nil_r.
  - change (Str.join Str.nl (a :: b :: rest))
      with (a ++ Str.nl ++ Str.join Str.nl (b :: rest)).
    rewrite split_lines_append, IH by discriminate.
    reflexivity.
Qed.

Lemma text_split_lines_append (a b : Text.t) :
  Text.split_lines (a ++ Text.nl ++ b)%list
  = (Text.split_lines a ++ Text.split_lines b)%list.
Proof.
  induction a as [|c a IH]; [reflexivity|].
  change ((c :: a) ++ Text.nl ++ b)%list with (c :: (a ++ Text.nl ++ b))%list.
  cbn [Text.split_lines]; rewrite IH.
  destruct (N.eqb c 10); [reflexivity|].
  destruct (Text.split_lines a) as [|h rest] eqn:E; [|reflexivity].
  destruct a as [|d a]; [discriminate|].
  cbn [Text.split_lines] in E.
  destruct (N.eqb d 10); [discriminate|].
  destruct (Text.split_lines a); discriminate.
Qed.

Lemma text_split_lines_join (parts : list Text.t) :
  parts <> [] ->
  Text.split_lines (Text.join Text.nl parts) = flat_map Text.split_lines parts.
Proof.
  induction parts as [|a [|b rest] IH]; intro Hne.
  - now elim Hne.
  - cbn [flat_map Text.join]; now rewrite app_nil_r.
  - change (Text.join Text.nl (a :: b :: rest))
      with (a ++ Text.nl ++ Text.join Text.nl (b :: rest))%list.
    rewrite text_split_lines_append, IH by discriminate.
    reflexivity.
Qed.

Lemma text_split_lines_of_str (s : string) :
  Text.split_lines (Text.of_str s) = map Text.of_str (Str.split_lines s).
Proof.
  induction s as [|c s IH]; [reflexivity|].
  cbn [Text.of_str Text.split_lines Str.split_lines]; rewrite IH.
  assert (Hc : N.eqb (Text.of_char c) 10 = Ascii.eqb c Char.newline).
  { destruct c as [[] [] [] [] [] [] [] []]; reflexivity. }
  rewrite Hc.
  destruct (Ascii.eqb c Char.newline); [reflexivity|].
  now destruct (Str.split_lines s).
Qed.

Lemma lines_block (parts_before parts_after : list Text.t) (s : string)
    (lines_before block lines_after : list string) :
  Str.split_lines s = (lines_before ++ block ++ lines_after)%list ->
  exists before after,
    Text.split_lines
      (Text.join Text.nl (parts_before ++ [Text.of_str s] ++ parts_after))
    = (before ++ map Text.of_str block ++ after)%list.
Proof.
  intro H.
  rewrite text_split_lines_join by (now destruct parts_before).
  rewrite !flat_map_app; cbn [flat_map].
  rewrite text_split_lines_of_str, H, !map_app, app_nil_r.
  exists (flat_map Text.split_lines parts_before
          ++ map Text.of_str lines_before)%list,
         (map Text.of_str lines_after
          ++ flat_map Text.split_lines parts_after)%list.
  now rewrite <- !app_assoc.
Qed.

Lemma sample_questions_lines (past : list string) :
  past <> [] ->
  Forall (fun q => Str.all not_newline q = true) (firstn 15 past) ->
  Str.split_lines (sample_questions past)
  = map (fun q => "- " ++ q) (firstn 15 past).
Proof.
  intros Hne Hall; unfold sample_questions.
  rewrite split_lines_join by (destruct past; [now elim Hne | discriminate]).
  induction Hall as [|q qs Hq _ IH]; [reflexivity|].
  cbn [map flat_map]; rewrite IH.
  now rewrite (split_lines_one ("- " ++ q)) by exact Hq.
Qed.

(** X11. When past questions are given, none of the first fifteen holds
    a line break, and the instruction is composed, the lines of the
    system instruction hold one block in which the heading of the
    avoidance requirements and its directive are followed by the first
    fifteen past questions, each as a bullet line of its own and in
    their order, and then by an empty line and the next heading: no
    further past question is listed. *)
Theorem system_prompt_lists_past_questions (template : Template)
    (quota : DifficultyQuota) (past : list string) :
  past <> [] ->
  Forall (fun q => Str.all not_newline q = true) (firstn 15 past) ->
  existsb too_long (written_numbers template quota) = false ->
  exists system before after,
    system_prompt template quota (Some past) = Ok system
    /\ Text.split_lines system
       = (before
          ++ map Text.of_str
               ("**Avoidance Requirements:**"
                :: "Do not create questions similar to these past questions:"
                :: map (fun q => ("- " ++ q)%string) (firstn 15 past))
          ++ map Text.of_str [""; "**Additional Guidelines:**"]
          ++ after)%list.
Proof.
  intros Hne Hall Hshort.
  destruct past as [|q0 qs]; [now elim Hne|].
  assert (Hpast : Str.split_lines (past_questions_section (Some (q0 :: qs)))
                  = ([""]
                     ++ ("**Avoidance Requirements:**"
                         :: "Do not create questions similar to these past questions:"
                         :: map (fun q => ("- " ++ q)%string) (firstn 15 (q0 :: qs))
                         ++ [""; "**Additional Guidelines:**"])
                     ++ ["1. Ensure new questions are distinct in both content and phrasing";
                         "2. Cover similar concepts but with different approaches";
                         "3. Vary question types and formats";
                         ""])%list).
  { unfold past_questions_section, text_of_lines.
    rewrite split_lines_join by discriminate.
    cbn [flat_map].
    rewrite (sample_questions_lines (q0 :: qs)) by (trivial; discriminate).
    cbn [app]; now rewrite <- !app_assoc. }
  destruct (system_prompt_cases template quota (Some (q0 :: qs)))
    as [[_ [system Hs]]|[E _]]; [|congruence].
  exists system.
  pose proof Hs as Hsys.
  unfold system_prompt in Hsys.
  set (pqs := past_questions_section (Some (q0 :: qs))) in *.
  clearbody pqs.
  destruct (difficulty_prompt quota) as [dp|]; [|discriminate].
  destruct (section_prompts (tpl_sections template)) as [sps|]; [|discriminate].
  cbn [bind] in Hsys; injection Hsys as <-.
  destruct (lines_block
              (map Text.of_str system_prompt_head
               ++ [Text.join Text.nl sps]
               ++ map Text.of_str system_prompt_rules
               ++ [Text.of_str dp])%list
              [Text.of_str ""] pqs _ _ _ Hpast) as (before & after & Hlines).
  exists before, after; split; [exact Hs|].
  unfold system_prompt_of.
  rewrite <- !app_assoc in Hlines.
  cbn [map app]; cbn [map app] in Hlines.
  rewrite Hlines, map_app.
  cbn [map]; now rewrite <- !app_assoc.
Qed.

Lemma system_prompt_lists_past_questions_witness :
  exists system before after,
    system_prompt example_template example_quota
      (Some (repeat "seen before" 15 ++ ["What is a ring?"])%list)
    = Ok system
    /\ Text.split_lines system
       = (before
          ++ map Text.of_str
               ("**Avoidance Requirements:**"
                :: "Do not create questions similar to these past questions:"
                :: map (fun q => ("- " ++ q)%string)
                       (firstn 15 (repeat "seen before" 15 ++ ["What is a ring?"])))
          ++ map Text.of_str [""; "**Additional Guidelines:**"]
          ++ after)%list.
Proof.
  apply system_prompt_lists_past_questions.
  - discriminate.
  - repeat (constructor; [reflexivity|]); constructor.
  - vm_compute; reflexivity.
Defined.

(** * The upload of files *)

Section Saving.

Variable env : Platform.
Variable file_type : string.

Lemma save_from_accepts (files : list Upload) (i : nat)
    (saved_paths : list string) (w : World) :
  Forall (fun file => is_named file = true -> is_pdf file = true) files ->
  save_from env file_type i files saved_paths w
  = (match (saved_paths
            ++ map (fun p => saved_path env file_type (fst p) (snd p))
                   (named_files i files))%list with
     | [] => None
     | path :: paths => Some (path :: paths)
     end,
     saved_all env file_type (named_files i files) w).
Proof.
  intro Hall; revert i saved_paths w.
  induction Hall as [|file files Hfile _ IH]; intros i saved_paths w.
  - unfold named_files, saved_all; simpl; rewrite app_nil_r.
    now destruct saved_paths.
  - cbn [save_from]; unfold named_files; cbn [enumerate_from filter snd].
    destruct (is_named file) eqn:En.
    + rewrite (Hfile eq_refl), IH.
      unfold named_files, saved_all; cbn [map fold_left fst snd].
      now rewrite <- app_assoc.
    + apply IH.
Qed.

Lemma save_from_rejects (pre post : list Upload) (bad : Upload) (i : nat)
    (saved_paths : list string) (w : World) :
  Forall (fun file => is_named file = true -> is_pdf file = true) pre ->
  is_named bad = true ->
  is_pdf bad = false ->
  save_from env file_type i (pre ++ bad :: post) saved_paths w
  = (None,
     flash "Only PDF files are allowed" "error"
           (saved_all env file_type (named_files i pre) w)).
Proof.
  intros Hall Hn Hp; revert i saved_paths w.
  induction Hall as [|file files Hfile _ IH]; intros i saved_paths w.
  - cbn [app save_from]; now rewrite Hn, Hp.
  - cbn [app save_from]; unfold named_files; cbn [enumerate_from filter snd].
    destruct (is_named file) eqn:En.
    + rewrite (Hfile eq_refl), IH; reflexivity.
    + apply IH.
Qed.

End Saving.

(** X12. When every named file of a request is a PDF (its name ends
    with .pdf in any case), the files are saved in the order of the
    request, each under a name made of the file type, its position in
    the request, counting the unnamed files too, and its own name; the
    paths are returned, nothing is flashed, and a request without a
    named file returns None. *)
Theorem uploads_are_saved (env : Platform) (files : list Upload)
    (file_type : string) (w : World) :
  Forall (fun file => is_named file = true -> is_pdf file = true) files ->
  save_uploaded_files env files file_type w
  = (match map (fun p => saved_path env file_type (fst p) (snd p))
               (named_files 0 files) with
     | [] => None
     | path :: paths => Some (path :: paths)
     end,
     saved_all env file_type (named_files 0 files) w)
  /\ flashes (snd (save_uploaded_files env files file_type w)) = flashes w.
Proof.
  intro Hall; unfold save_uploaded_files.
  rewrite (save_from_accepts env file_type files 0 [] w Hall); split;
    [reflexivity|].
  cbn [snd]; unfold saved_all.
  generalize (named_files 0 files); intro kept; revert w.
  induction kept as [|p kept IH]; intro w; [reflexivity|].
  cbn [fold_left]; now rewrite IH.
Qed.

Lemma uploads_are_saved_witness :
  save_uploaded_files example_platform
    [ {| filename := "notes.pdf"; payload := Ok ["Groups"] |};
      {| filename := ""; payload := Ok [] |};
      {| filename := "Slides.PDF"; payload := Ok ["Rings"; "Fields"] |} ]
    "study_materials" empty_world
  = (Some ["/srv/instance/uploads/study_materials/study_materials_0_notes.pdf";
           "/srv/instance/uploads/study_materials/study_materials_2_Slides.PDF"],
     {| disk :=
          [("/srv/instance/uploads/study_materials/study_materials_0_notes.pdf",
            Ok ["Groups"]);
           ("/srv/instance/uploads/study_materials/study_materials_2_Slides.PDF",
            Ok ["Rings"; "Fields"])];
        flashes := [] |})
  /\ flashes
       (snd (save_uploaded_files example_platform
               [ {| filename := "notes.pdf"; payload := Ok ["Groups"] |};
                 {| filename := ""; payload := Ok [] |};
                 {| filename := "Slides.PDF"; payload := Ok ["Rings"; "Fields"] |} ]
               "study_materials" empty_world))
     = [].
Proof.
  apply (uploads_are_saved example_platform
           [ {| filename := "notes.pdf"; payload := Ok ["Groups"] |};
             {| filename := ""; payload := Ok [] |};
             {| filename := "Slides.PDF"; payload := Ok ["Rings"; "Fields"] |} ]
           "study_materials" empty_world).
  repeat (constructor; [vm_compute; congruence|]); constructor.
Defined.

(** X13. The first named file that is not a PDF stops the upload: None
    is returned and the message that only PDF files are allowed is
    flashed; the PDFs in front of it have been saved by then and stay on
    disk, and the files behind it are not looked at. *)
Theorem upload_stops_at_other_file (env : Platform) (pre post : list Upload)
    (bad : Upload) (file_type : string) (w : World) :
  Forall (fun file => is_named file = true -> is_pdf file = true) pre ->
  is_named bad = true ->
  is_pdf bad = false ->
  save_uploaded_files env (pre ++ bad :: post) file_type w
  = (None,
     flash "Only PDF files are allowed" "error"
           (snd (save_uploaded_files env pre file_type w))).
Proof.
  intros Hall Hn Hp; unfold save_uploaded_files.
  rewrite (save_from_rejects env file_type pre post bad 0 [] w Hall Hn Hp).
  now rewrite (save_from_accepts env file_type pre 0 [] w Hall).
Qed.

Lemma upload_stops_at_other_file_witness :
  save_uploaded_files example_platform
    ([ {| filename := "notes.pdf"; payload := Ok ["Groups"] |} ]
     ++ {| filename := "cover.docx"; payload := Ok ["Cover"] |}
     :: [ {| filename := "slides.pdf"; payload := Ok ["Rings"] |} ])
    "study_materials" empty_world
  = (None,
     flash "Only PDF files are allowed" "error"
       (snd (save_uploaded_files example_platform
               [ {| filename := "notes.pdf"; payload := Ok ["Groups"] |} ]
               "study_materials" empty_world))).
Proof.
  apply upload_stops_at_other_file.
  - repeat (constructor; [vm_compute; congruence|]); constructor.
  - reflexivity.
  - reflexivity.
Defined.

(** * Numbers written and read *)

Lemma digit_char (d : N) :
  (d < 10)%N ->
  Char.isdecimal (ascii_of_N (48 + d)) = true
  /\ Z.of_nat (Char.code (ascii_of_N (48 + d)) - 48) = Z.of_N d.
Proof.
  intro H.
  assert (E : In d [0; 1; 2; 3; 4; 5; 6; 7; 8; 9]%N) by (simpl; lia).
  simpl in E.
  repeat (destruct E as [<-|E]; [split; reflexivity|]).
  contradiction.
Qed.

Lemma value_from_append (x y : string) (a : Z) :
  Str.value_from a (x ++ y) = Str.value_from (Str.value_from a x) y.
Proof.
  revert a; induction x as [|c x IH]; intro a; [reflexivity|].
  cbn [append Str.value_from]; apply IH.
Qed.

Lemma digits_of_pos_spec (fuel : nat) (n : N) (acc : string) :
  (n < 2 ^ N.of_nat (S fuel))%N ->
  exists ds,
    Str.digits_of_pos (S fuel) n acc = ds ++ acc
    /\ ds <> ""
    /\ Str.all Char.isdecimal ds = true
    /\ forall a,
        Str.value_from a ds
        = (a * 10 ^ Z.of_nat (String.length ds) + Z.of_N n)%Z.
Proof.
  revert n acc; induction fuel as [|fuel IH]; intros n acc Hn.
  - assert (Hlt : (n < 10)%N) by (change (2 ^ N.of_nat 1)%N with 2%N in Hn; lia).
    cbn [Str.digits_of_pos].
    apply N.ltb_lt in Hlt as Hb; rewrite Hb; apply N.ltb_lt in Hb.
    rewrite (N.mod_small n 10 Hlt).
    destruct (digit_char n Hlt) as [Hd Hv].
    exists (String (ascii_of_N (48 + n)) ""); repeat split.
    + discriminate.
    + cbn [Str.all]; now rewrite Hd.
    + intro a; cbn [Str.value_from String.length].
      rewrite Hv; change (10 ^ Z.of_nat 1)%Z with 10%Z; lia.
  - remember (S fuel) as k eqn:Ek.
    cbn [Str.digits_of_pos].
    assert (Hmod : (n mod 10 < 10)%N) by (apply N.mod_lt; lia).
    destruct (digit_char (n mod 10) Hmod) as [Hd Hv].
    destruct (N.ltb n 10) eqn:Hb.
    + apply N.ltb_lt in Hb.
      exists (String (ascii_of_N (48 + n mod 10)) ""); repeat split.
      * discriminate.
      * cbn [Str.all]; now rewrite Hd.
      * intro a; cbn [Str.value_from String.length].
        rewrite Hv, (N.mod_small n 10 Hb).
        change (10 ^ Z.of_nat 1)%Z with 10%Z; lia.
    + apply N.ltb_ge in Hb.
      assert (Hdiv : (n / 10 < 2 ^ N.of_nat (S fuel))%N).
      { apply N.Div0.div_lt_upper_bound.
        rewrite <- Ek in *.
        replace (N.of_nat (S k)) with (N.succ (N.of_nat k)) in Hn by lia.
        rewrite N.pow_succ_r' in Hn; lia. }
      subst k.
      destruct (IH (n / 10)%N (String (ascii_of_N (48 + n mod 10)) acc) Hdiv)
        as (ds & Heq & Hne & Hall & Hval).
      exists (ds ++ String (ascii_of_N (48 + n mod 10)) ""); repeat split.
      * rewrite Heq, append_assoc; reflexivity.
      * destruct ds; [now elim Hne | discriminate].
      * rewrite all_append, Hall; cbn [Str.all]; now rewrite Hd.
      * intro a; rewrite value_from_append, Hval.
        cbn [Str.value_from]; rewrite Hv, length_append.
        cbn [String.length].
        replace (Z.of_nat (String.length ds + 1))
          with (Z.succ (Z.of_nat (String.length ds))) by lia.
        rewrite Z.pow_succ_r by lia.
        pose proof (N.div_mod n 10 ltac:(lia)) as Hdm.
        rewrite N2Z.inj_div, N2Z.inj_mod.
        assert (Hz : (Z.of_N n
                      = 10 * (Z.of_N n / Z.of_N 10) + Z.of_N n mod Z.of_N 10)%Z).
        { change (Z.of_N 10) with 10%Z; apply Z.div_mod; lia. }
        lia.
Qed.

Lemma of_Z_digits (n : Z) :
  (0 <= n)%Z ->
  Str.of_Z n <> ""
  /\ Str.all Char.isdecimal (Str.of_Z n) = true
  /\ Str.value_from 0 (Str.of_Z n) = n.
Proof.
  intro Hn; unfold Str.of_Z.
  assert (Hneg : Z.ltb n 0 = false) by (apply Z.ltb_ge; lia).
  rewrite Hneg.
  set (m := Z.abs_N n).
  assert (Hm : (m < 2 ^ N.of_nat (S (N.to_nat (N.log2 m))))%N).
  { replace (N.of_nat (S (N.to_nat (N.log2 m)))) with (N.succ (N.log2 m)) by lia.
    destruct (N.eq_dec m 0) as [->|Hpos]; [reflexivity|].
    apply N.log2_spec; lia. }
  destruct (digits_of_pos_spec _ m "" Hm) as (ds & Heq & Hne & Hall & Hval).
  rewrite Heq, append_empty_r; repeat split; auto.
  rewrite Hval; unfold m; rewrite N2Z.inj_abs_N; lia.
Qed.

Lemma span_stop (p : ascii -> bool) (ds t : string) :
  Str.all p ds = true ->
  match t with String c _ => p c = false | "" => True end ->
  Str.span p (ds ++ t) = (ds, t).
Proof.
  intros Hall Ht; induction ds as [|c ds IH].
  - destruct t as [|c t]; [reflexivity|].
    simpl; now rewrite Ht.
  - cbn [Str.all] in Hall; apply andb_true_iff in Hall as [Hc Hall].
    cbn [append Str.span]; now rewrite Hc, (IH Hall).
Qed.

Lemma marks_tag_needs_bracket (c : ascii) (s : string) :
  Ascii.eqb "[" c = false -> Re.marks_tag (String c s) = None.
Proof.
  destruct c as [[] [] [] [] [] [] [] []]; intro H;
    try discriminate H; reflexivity.
Qed.

Lemma search_marks_skips (pre t : string) :
  has_char "[" pre = false ->
  t <> "" ->
  Re.search Re.marks_tag (pre ++ t) = Re.search Re.marks_tag t.
Proof.
  intros Hpre Ht; induction pre as [|c pre IH]; [reflexivity|].
  cbn [has_char] in Hpre; apply orb_false_iff in Hpre as [Hc Hpre].
  cbn [append Re.search].
  now rewrite (marks_tag_needs_bracket c _ Hc), (IH Hpre).
Qed.

Lemma sub_marks_skips (pre t : string) :
  has_char "[" pre = false ->
  Re.sub Re.marks_tag "" (pre ++ t) = pre ++ Re.sub Re.marks_tag "" t.
Proof.
  intro Hpre; induction pre as [|c pre IH]; [reflexivity|].
  cbn [has_char] in Hpre; apply orb_false_iff in Hpre as [Hc Hpre].
  cbn [append]; rewrite sub_cons.
  now rewrite (marks_tag_needs_bracket c _ Hc), (IH Hpre).
Qed.

Lemma sub_marks_none (s : string) :
  has_char "[" s = false -> Re.sub Re.marks_tag "" s = s.
Proof.
  intro H.
  pose proof (sub_marks_skips s "" H) as Hs.
  change (Re.sub Re.marks_tag "" "") with "" in Hs.
  now rewrite !append_empty_r in Hs.
Qed.

(** X14. A marks tag in the format that the instruction asks for is
    read back by the parser and taken out of the line. For a number
    that is not negative and that [str] can write, and a line in which
    no bracket precedes the tag made of its decimal form: the marks of
    the line are this number, and the line that remains is what stood
    before the tag followed by what stands behind it, with the further
    marks tags of that part removed as well, and trimmed. When no
    bracket follows the tag either, the line that remains is the line
    without the tag, trimmed. *)
Theorem marks_tag_round_trip (n : Z) (digits before rest : string) :
  (0 <= n)%Z ->
  Py.str n = Ok digits ->
  has_char "[" before = false ->
  extract_marks (before ++ "[" ++ digits ++ " Marks]" ++ rest)
  = Ok (Some n, Str.strip (before ++ Re.sub Re.marks_tag "" rest))
  /\ (has_char "[" rest = false ->
      extract_marks (before ++ "[" ++ digits ++ " Marks]" ++ rest)
      = Ok (Some n, Str.strip (before ++ rest))).
Proof.
  intros Hn Hstr Hbefore.
  assert (Hlen : (Py.int_max_str_digits <? String.length (Str.of_Z n))%nat = false
                 /\ digits = Str.of_Z n).
  { unfold Py.str in Hstr; rewrite Z.abs_eq in Hstr by exact Hn.
    destruct (Py.int_max_str_digits <? String.length (Str.of_Z n))%nat;
      [discriminate | now injection Hstr as <-]. }
  destruct Hlen as [Hl ->].
  destruct (of_Z_digits n Hn) as (Hne & Hall & Hval).
  assert (Htag : Re.marks_tag ("[" ++ Str.of_Z n ++ " Marks]" ++ rest)
                 = Some (Str.of_Z n,
                         1 + String.length (Str.of_Z n) + String.length " " + 6)).
  { change ("[" ++ Str.of_Z n ++ " Marks]" ++ rest)
      with (String "[" (Str.of_Z n ++ String " " ("Marks]" ++ rest))).
    cbn [Re.marks_tag].
    rewrite (span_stop Char.isdecimal (Str.of_Z n) _ Hall) by reflexivity.
    change (Str.span Char.isspace (String " " ("Marks]" ++ rest)))
      with (" ", "Marks]" ++ rest).
    apply truthy_true in Hne; rewrite Hne.
    assert (Hp : prefix "Marks]" ("Marks]" ++ rest) = true)
      by (apply prefix_append; now exists rest).
    now rewrite Hp. }
  assert (Hs : Re.search Re.marks_tag
                 (before ++ "[" ++ Str.of_Z n ++ " Marks]" ++ rest)
               = Some (Str.of_Z n)).
  { rewrite (search_marks_skips before _ Hbefore) by discriminate.
    change ("[" ++ Str.of_Z n ++ " Marks]" ++ rest)
      with (String "[" (Str.of_Z n ++ " Marks]" ++ rest)) in *.
    cbn [Re.search]; now rewrite Htag. }
  assert (Hsub : Re.sub Re.marks_tag ""
                   (before ++ "[" ++ Str.of_Z n ++ " Marks]" ++ rest)
                 = before ++ Re.sub Re.marks_tag "" rest).
  { rewrite (sub_marks_skips before _ Hbefore); f_equal.
    change ("[" ++ Str.of_Z n ++ " Marks]" ++ rest)
      with (String "[" (Str.of_Z n ++ " Marks]" ++ rest)) in *.
    rewrite sub_cons, Htag.
    change (1 + String.length (Str.of_Z n) + String.length " " + 6)
      with (S (String.length (Str.of_Z n) + 1 + 6)).
    cbn [append]; f_equal.
    replace (String.length (Str.of_Z n) + 1 + 6)
      with (String.length (Str.of_Z n ++ " Marks]"))
      by (rewrite length_append; simpl; lia).
    change (Str.of_Z n
            ++ String " "
                 (String "M"
                    (String "a"
                       (String "r" (String "k" (String "s" (String "]" rest)))))))
      with (Str.of_Z n ++ " Marks]" ++ rest).
    rewrite <- (append_assoc (Str.of_Z n) " Marks]" rest).
    apply drop_append. }
  assert (Hmain : extract_marks (before ++ "[" ++ Str.of_Z n ++ " Marks]" ++ rest)
                  = Ok (Some n, Str.strip (before ++ Re.sub Re.marks_tag "" rest))).
  { unfold extract_marks; rewrite Hs; unfold Py.int.
    assert (He : Str.is_empty (Str.of_Z n) = false)
      by (destruct (Str.of_Z n); [now elim Hne | reflexivity]).
    rewrite He, Hall; cbn [negb orb].
    rewrite Hl, Hval; cbn [bind try_except].
    now rewrite Hsub. }
  split; [exact Hmain|].
  intro Hrest; now rewrite Hmain, (sub_marks_none rest Hrest).
Qed.

Lemma marks_tag_round_trip_witness :
  extract_marks ("- " ++ "[" ++ "25" ++ " Marks]" ++ " Prove the theorem.")
  = Ok (Some 25%Z, Str.strip ("- " ++ " Prove the theorem.")).
Proof.
  apply (marks_tag_round_trip 25 "25" "- " " Prove the theorem.").
  - lia.
  - reflexivity.
  - reflexivity.
  - reflexivity.
Defined.

(** * Editing a stored paper *)

Section EditFacts.

Context {V : Type}.

Lemma dict_set_present_keys {W : Type} (d : Dict.t W) (k : string) (v w : W) :
  Dict.get d k = Some w -> map fst (Dict.set d k v) = map fst d.
Proof.
  induction d as [|[k' v'] d IH]; simpl; [discriminate|].
  destruct (String.eqb k' k); simpl; [reflexivity|].
  intro H; now rewrite IH.
Qed.

Lemma dict_set_present_sizes {A : Type} (d : Dict.t (list A)) (k : string)
    (v w : list A) :
  Dict.get d k = Some w -> List.length v = List.length w ->
  map (fun p => List.length (snd p)) (Dict.set d k v)
  = map (fun p => List.length (snd p)) d.
Proof.
  induction d as [|[k' v'] d IH]; simpl; [discriminate|].
  destruct (String.eqb k' k); simpl.
  - intros [= ->] ->; reflexivity.
  - intros H1 H2; now rewrite IH.
Qed.

Lemma edit_questions_length (stored questions : list (Dict.t V)) :
  List.length (edit_questions stored questions) = List.length stored.
Proof.
  revert questions; induction stored as [|q stored IH]; intros [|e es];
    simpl; auto.
Qed.

(** X15. Editing a paper never adds, removes or reorders anything: after
    any edits the paper has the same sections in the same order, and
    every section has as many questions as before. Edits for sections
    that the paper does not have, and for positions beyond the end of a
    section, are ignored. *)
Theorem edits_keep_the_shape (sections edits : Dict.t (list (Dict.t V))) :
  map fst (apply_edits sections edits) = map fst sections
  /\ map (fun p => List.length (snd p)) (apply_edits sections edits)
     = map (fun p => List.length (snd p)) sections.
Proof.
  unfold apply_edits; revert sections.
  induction edits as [|[nm es] edits IH]; intro sections; [now split|].
  cbn [fold_left fst snd].
  destruct (Dict.get sections nm) as [stored|] eqn:E; [|apply IH].
  destruct (IH (Dict.set sections nm (edit_questions stored es))) as [H1 H2].
  rewrite H1, H2; split.
  - apply (dict_set_present_keys _ _ _ stored E).
  - apply (dict_set_present_sizes _ _ _ stored E), edit_questions_length.
Qed.

Lemma dict_get_absent {W : Type} (d : Dict.t W) (k : string) :
  ~ In k (map fst d) -> Dict.get d k = None.
Proof.
  intro H; destruct (Dict.get d k) eqn:E; [|reflexivity].
  elim H; apply dict_get_in_keys; congruence.
Qed.

Lemma apply_edits_get (sections edits : Dict.t (list (Dict.t V)))
    (nm : string) :
  NoDup (map fst edits) ->
  Dict.get (apply_edits sections edits) nm
  = option_map
      (fun stored =>
         match Dict.get edits nm with
         | Some questions => edit_questions stored questions
         | None => stored
         end)
      (Dict.get sections nm).
Proof.
  unfold apply_edits; intro Hnd; revert sections.
  induction edits as [|[k es] edits IH]; intro sections.
  - simpl; now destruct (Dict.get sections nm).
  - inversion Hnd as [|? ? Hnotin Hnd']; subst.
    cbn [fold_left fst snd]; rewrite (IH Hnd').
    cbn [Dict.get].
    destruct (String.eqb k nm) eqn:Ek.
    + apply String.eqb_eq in Ek; subst k.
      rewrite (dict_get_absent edits nm Hnotin).
      destruct (Dict.get sections nm) as [stored|] eqn:E; [|now rewrite E].
      now rewrite dict_get_set_same.
    + assert (Hne : nm <> k)
        by (intros ->; now rewrite String.eqb_refl in Ek).
      destruct (Dict.get sections k) as [stored|]; [|reflexivity].
      now rewrite (dict_get_set_other _ _ _ _ Hne).
Qed.

Lemma edit_questions_nth (stored questions : list (Dict.t V)) (i : nat) :
  nth_error (edit_questions stored questions) i
  = option_map
      (fun q =>
         match nth_error questions i with
         | Some question => dict_update q question
         | None => q
         end)
      (nth_error stored i).
Proof.
  revert questions i; induction stored as [|q stored IH];
    intros [|e es] [|i]; simpl; auto;
    now destruct (nth_error stored i).
Qed.

Lemma dict_update_get (q question : Dict.t V) (k : string) :
  NoDup (map fst question) ->
  Dict.get (dict_update q question) k
  = match Dict.get question k with
    | Some v => Some v
    | None => Dict.get q k
    end.
Proof.
  unfold dict_update; intro Hnd; revert q.
  induction question as [|[k' v'] question IH]; intro q; [reflexivity|].
  inversion Hnd as [|? ? Hnotin Hnd']; subst.
  cbn [fold_left fst snd Dict.get]; rewrite (IH Hnd').
  destruct (String.eqb k' k) eqn:Ek.
  - apply String.eqb_eq in Ek; subst k'.
    now rewrite (dict_get_absent question k Hnotin), dict_get_set_same.
  - assert (Hne : k <> k')
      by (intros ->; now rewrite String.eqb_refl in Ek).
    destruct (Dict.get question k); [reflexivity|].
    now apply dict_get_set_other.
Qed.

(** X16. An edit changes exactly the fields it names. For edits with
    one entry per section name: a section that the edits name has its
    questions edited, position by position, and the other sections are
    as before; a question at a position that the edit reaches is
    updated by the question of the edit at this position, the questions
    behind are as before; and an updated question has, for a field that
    the edit names, the value of the edit, and for any other field the
    value it had. *)
Theorem edits_change_named_fields
    (sections edits : Dict.t (list (Dict.t V))) :
  NoDup (map fst edits) ->
  (forall nm,
      Dict.get (apply_edits sections edits) nm
      = option_map
          (fun stored =>
             match Dict.get edits nm with
             | Some questions => edit_questions stored questions
             | None => stored
             end)
          (Dict.get sections nm))
  /\ (forall stored questions i,
         nth_error (edit_questions stored questions) i
         = option_map
             (fun q : Dict.t V =>
                match nth_error questions i with
                | Some question => dict_update q question
                | None => q
                end)
             (nth_error stored i))
  /\ (forall (q question : Dict.t V) k,
         NoDup (map fst question) ->
         Dict.get (dict_update q question) k
         = match Dict.get question k with
           | Some v => Some v
           | None => Dict.get q k
           end).
Proof.
  intro Hnd; split; [|split].
  - intro nm; now apply apply_edits_get.
  - apply edit_questions_nth.
  - apply dict_update_get.
Qed.

End EditFacts.

Lemma edits_change_named_fields_witness :
  Dict.get
    (apply_edits
       [("Section A", [[("text", "Define a group."); ("marks", "5")];
                       [("text", "Define a ring."); ("marks", "5")]])]
       [("Section A", [[("marks", "3"); ("note", "checked")]]);
        ("Section Z", [[("text", "lost")]])])
    "Section A"
  = Some [[("text", "Define a group."); ("marks", "3"); ("note", "checked")];
          [("text", "Define a ring."); ("marks", "5")]].
Proof.
  rewrite (proj1 (edits_change_named_fields
                    [("Section A", [[("text", "Define a group."); ("marks", "5")];
                                    [("text", "Define a ring."); ("marks", "5")]])]
                    [("Section A", [[("marks", "3"); ("note", "checked")]]);
                     ("Section Z", [[("text", "lost")]])]
                    ltac:(repeat constructor; simpl; intuition discriminate))).
  reflexivity.
Defined.

(** * Creating a template *)

Section TemplateRows.

Variable env : Platform.

Lemma int_of_str_value_error (s : string) :
  (exists z, int_of_str env s = Ok z)
  \/ (exists m, int_of_str env s = Raise (Exception ValueError m)).
Proof.
  unfold int_of_str.
  destruct (int_digits false _) as [ds|]; [|right; eexists; reflexivity].
  destruct (Py.int_max_str_digits <? String.length ds)%nat;
    [right | left]; eexists; reflexivity.
Qed.

Lemma list_index_middle {A B : Type} (f : A -> B) (done todo : list A) (r : A) :
  list_index (map f (done ++ r :: todo)) (List.length done) = Ok (f r).
Proof.
  unfold list_index.
  rewrite map_app, nth_error_app2 by (rewrite length_map; lia).
  rewrite length_map, Nat.sub_diag; reflexivity.
Qed.

Lemma collect_row (done todo : list FormRow) (r : FormRow)
    (acc : list SectionDef) :
  collect_sections env
    (map row_type (done ++ r :: todo))
    (map row_questions (done ++ r :: todo))
    (map row_marks (done ++ r :: todo))
    (List.length done) (map row_name (r :: todo)) acc
  = if row_complete r then
      questions <- int_of_str env (row_questions r) ;;
      marks <- int_of_str env (row_marks r) ;;
      collect_sections env
        (map row_type (done ++ r :: todo))
        (map row_questions (done ++ r :: todo))
        (map row_marks (done ++ r :: todo))
        (S (List.length done)) (map row_name todo)
        (acc ++ [{| sec_name := row_name r; sec_type := row_type r;
                    sec_questions := questions;
                    sec_marks_per_question := marks |}])%list
    else
      collect_sections env
        (map row_type (done ++ r :: todo))
        (map row_questions (done ++ r :: todo))
        (map row_marks (done ++ r :: todo))
        (S (List.length done)) (map row_name todo) acc.
Proof.
  cbn [map collect_sections].
  rewrite !list_index_middle; unfold row_complete; cbn [bind].
  destruct (Str.truthy (row_name r)); cbn [andb bind]; [|reflexivity].
  destruct (Str.truthy (row_type r)); cbn [andb bind]; [|reflexivity].
  destruct (Str.truthy (row_questions r)); cbn [andb bind]; [|reflexivity].
  destruct (Str.truthy (row_marks r)); reflexivity.
Qed.

Lemma collect_rows_ok (todo done : list FormRow) (acc : list SectionDef) :
  Forall (fun r => row_malformed env r = false) todo ->
  collect_sections env
    (map row_type (done ++ todo))
    (map row_questions (done ++ todo))
    (map row_marks (done ++ todo))
    (List.length done) (map row_name todo) acc
  = Ok (acc ++ flat_map (row_section env) todo)%list.
Proof.
  revert done acc; induction todo as [|r todo IH]; intros done acc Hall.
  - simpl; now rewrite app_nil_r.
  - inversion Hall as [|? ? Hr Hrest]; subst.
    rewrite collect_row.
    assert (Hnext : forall acc',
               collect_sections env
                 (map row_type (done ++ r :: todo))
                 (map row_questions (done ++ r :: todo))
                 (map row_marks (done ++ r :: todo))
                 (S (List.length done)) (map row_name todo) acc'
               = Ok (acc' ++ flat_map (row_section env) todo)%list).
    { intro acc'.
      replace (done ++ r :: todo)%list with ((done ++ [r]) ++ todo)%list
        by (now rewrite <- app_assoc).
      replace (S (List.length done)) with (List.length (done ++ [r])%list)
        by (rewrite length_app; simpl; lia).
      now apply IH. }
    cbn [flat_map]; unfold row_section, row_malformed in *.
    destruct (row_complete r); [|now rewrite Hnext].
    cbn [andb] in Hr.
    destruct (int_of_str env (row_questions r)) as [qn|e]; [|discriminate].
    destruct (int_of_str env (row_marks r)) as [mn|e]; [|discriminate].
    cbn [bind]; rewrite Hnext, <- app_assoc; reflexivity.
Qed.

Lemma collect_rows_bad (todo done : list FormRow) (acc : list SectionDef) :
  Exists (fun r => row_malformed env r = true) todo ->
  exists m,
    collect_sections env
      (map row_type (done ++ todo))
      (map row_questions (done ++ todo))
      (map row_marks (done ++ todo))
      (List.length done) (map row_name todo) acc
    = Raise (Exception ValueError m).
Proof.
  revert done acc; induction todo as [|r todo IH]; intros done acc Hex;
    [now inversion Hex|].
  rewrite collect_row.
  assert (Hnext : Exists (fun r => row_malformed env r = true) todo ->
             forall acc',
               exists m,
                 collect_sections env
                   (map row_type (done ++ r :: todo))
                   (map row_questions (done ++ r :: todo))
                   (map row_marks (done ++ r :: todo))
                   (S (List.length done)) (map row_name todo) acc'
                 = Raise (Exception ValueError m)).
  { intros Hrest acc'.
    replace (done ++ r :: todo)%list with ((done ++ [r]) ++ todo)%list
      by (now rewrite <- app_assoc).
    replace (S (List.length done)) with (List.length (done ++ [r])%list)
      by (rewrite length_app; simpl; lia).
    now apply IH. }
  destruct (row_malformed env r) eqn:Hr.
  - unfold row_malformed in Hr.
    destruct (row_complete r); [|discriminate].
    destruct (int_of_str_value_error (row_questions r)) as [[qn Hq]|[m Hq]];
      rewrite Hq in *; cbn [bind]; [|now exists m].
    destruct (int_of_str_value_error (row_marks r)) as [[mn Hm]|[m Hm]];
      rewrite Hm in *; cbn [bind]; [discriminate | now exists m].
  - assert (Hrest : Exists (fun r => row_malformed env r = true) todo).
    { inversion Hex; subst; [congruence | assumption]. }
    unfold row_malformed in Hr.
    destruct (row_complete r); [|now apply Hnext].
    destruct (int_of_str env (row_questions r)) as [qn|e]; [|discriminate].
    destruct (int_of_str env (row_marks r)) as [mn|e]; [|discriminate].
    cbn [bind]; now apply Hnext.
Qed.

End TemplateRows.

(** X17. Of a template form whose numbers can all be read, the rows of
    which no field is empty become the sections of the template, in
    their order and with their numbers converted; the rows with an
    empty field are left out without a message. The template is put
    into the session when it has a section, and the user is asked to
    define one otherwise. *)
Theorem complete_rows_become_sections (env : Platform)
    (name institution course subject : option string)
    (total_marks duration_minutes : string) (total duration : Z)
    (rows : list FormRow) (w : World) :
  int_of_str env total_marks = Ok total ->
  int_of_str env duration_minutes = Ok duration ->
  Forall (fun r => row_malformed env r = false) rows ->
  create_template env
    (form_of_rows name institution course subject
                  (Some total_marks) (Some duration_minutes) rows) w
  = match flat_map (row_section env) rows with
    | [] => (Ok None, flash "Please define at least one section" "error" w)
    | sec :: secs =>
        (Ok (Some {| custom_name := name;
                     custom_institution := institution;
                     custom_course := course;
                     custom_subject := subject;
                     custom_total_marks := total;
                     custom_duration_minutes := duration;
                     custom_sections := sec :: secs |}), w)
    end.
Proof.
  intros Ht Hd Hrows.
  unfold create_template, form_of_rows; cbn -[collect_sections int_of_str flash].
  rewrite Ht, Hd; cbn [bind].
  pose proof (collect_rows_ok env rows [] [] Hrows) as Hc.
  cbn [app List.length] in Hc; rewrite Hc; cbn [bind app].
  cbn [custom_sections].
  now destruct (flat_map (row_section env) rows).
Qed.

Lemma complete_rows_become_sections_witness :
  create_template example_platform
    (form_of_rows (Some "Midterm") (Some "KTU") (Some "B.Tech")
       (Some "Algebra") (Some " 30") (Some "90")
       [ {| row_name := "Section A"; row_type := "short_answer";
            row_questions := "4"; row_marks := "5" |};
         {| row_name := "Section B"; row_type := "multiple_choice";
            row_questions := ""; row_marks := "ten" |};
         {| row_name := "Section C"; row_type := "long_answer";
            row_questions := "+1"; row_marks := "1_0" |} ])
    empty_world
  = match flat_map (row_section example_platform)
            [ {| row_name := "Section A"; row_type := "short_answer";
                 row_questions := "4"; row_marks := "5" |};
              {| row_name := "Section B"; row_type := "multiple_choice";
                 row_questions := ""; row_marks := "ten" |};
              {| row_name := "Section C"; row_type := "long_answer";
                 row_questions := "+1"; row_marks := "1_0" |} ] with
    | [] => (Ok None,
             flash "Please define at least one section" "error" empty_world)
    | sec :: secs =>
        (Ok (Some {| custom_name := Some "Midterm";
                     custom_institution := Some "KTU";
                     custom_course := Some "B.Tech";
                     custom_subject := Some "Algebra";
                     custom_total_marks := 30;
                     custom_duration_minutes := 90;
                     custom_sections := sec :: secs |}), empty_world)
    end.
Proof.
  apply complete_rows_become_sections.
  - reflexivity.
  - reflexivity.
  - repeat (constructor; [reflexivity|]); constructor.
Defined.

(** X18. One number that cannot be read spoils the whole template: when
    a row without an empty field has a number of questions or of marks
    that [int] rejects, no template is put into the session, whatever
    the other rows are; the user is redirected with one message, which
    starts with Error creating template. *)
Theorem malformed_number_rejects_template (env : Platform)
    (name institution course subject : option string)
    (total_marks duration_minutes : string) (total duration : Z)
    (rows : list FormRow) (w : World) :
  int_of_str env total_marks = Ok total ->
  int_of_str env duration_minutes = Ok duration ->
  Exists (fun r => row_malformed env r = true) rows ->
  exists reason,
    create_template env
      (form_of_rows name institution course subject
                    (Some total_marks) (Some duration_minutes) rows) w
    = (Ok None,
       flash ("Error creating template: " ++ reason) "error" w).
Proof.
  intros Ht Hd Hrows.
  unfold create_template, form_of_rows; cbn -[collect_sections int_of_str flash].
  rewrite Ht, Hd; cbn [bind].
  destruct (collect_rows_bad env rows [] [] Hrows) as [m Hm].
  cbn [app List.length] in Hm; rewrite Hm; cbn [bind kind message].
  now exists m.
Qed.

Lemma malformed_number_rejects_template_witness :
  exists reason,
    create_template example_platform
      (form_of_rows (Some "Midterm") (Some "KTU") (Some "B.Tech")
         (Some "Algebra") (Some "30") (Some "90")
         [ {| row_name := "Section A"; row_type := "short_answer";
              row_questions := "4"; row_marks := "5" |};
           {| row_name := "Section B"; row_type := "multiple_choice";
              row_questions := "10"; row_marks := "1.5" |} ])
      empty_world
    = (Ok None,
       flash ("Error creating template: " ++ reason) "error" empty_world).
Proof.
  apply (malformed_number_rejects_template example_platform
           (Some "Midterm") (Some "KTU") (Some "B.Tech") (Some "Algebra")
           "30" "90" 30 90).
  - reflexivity.
  - reflexivity.
  - apply Exists_cons_tl, Exists_cons_hd; reflexivity.
Defined.

(** * Generating a paper *)

Section GenerateStep.

Variable env : Platform.
Variable chat : ChatService.

Lemma save_from_flashes (file_type : string) (files : list Upload) (i : nat)
    (saved_paths : list string) (w : World) :
  flashes (snd (save_from env file_type i files saved_paths w)) = flashes w
  \/ flashes (snd (save_from env file_type i files saved_paths w))
     = (flashes w ++ [("Only PDF files are allowed", "error")])%list.
Proof.
  revert i saved_paths w; induction files as [|file files IH];
    intros i saved_paths w; cbn [save_from]; [now left|].
  destruct (is_named file); [|apply IH].
  destruct (is_pdf file); [|now right].
  apply (IH (S i) (saved_paths ++ [saved_path env file_type i file])%list
            (write (saved_path env file_type i file) (payload file) w)).
Qed.

Lemma save_from_unnamed (file_type : string) (files : list Upload) (i : nat)
    (w : World) :
  existsb is_named files = false ->
  save_from env file_type i files [] w = (None, w).
Proof.
  revert i; induction files as [|file files IH]; intros i Hno; [reflexivity|].
  cbn [existsb] in Hno; apply orb_false_iff in Hno as [Hfile Hrest].
  cbn [save_from]; rewrite Hfile; now apply IH.
Qed.

Lemma filter_all {A : Type} (f : A -> bool) (l : list A) :
  forallb f l = true -> filter f l = l.
Proof.
  induction l as [|a l IH]; [reflexivity|].
  cbn [forallb filter]; intro H; apply andb_true_iff in H as [Ha Hl].
  now rewrite Ha, (IH Hl).
Qed.

Lemma forallb_firstn {A : Type} (f : A -> bool) (n : nat) (l : list A) :
  forallb f l = true -> forallb f (firstn n l) = true.
Proof.
  revert n; induction l as [|a l IH]; intros [|n]; auto.
  cbn [forallb firstn]; intro H; apply andb_true_iff in H as [Ha Hl].
  now rewrite Ha, (IH n Hl).
Qed.

Lemma forallb_filter {A : Type} (f : A -> bool) (l : list A) :
  forallb f (filter f l) = true.
Proof.
  induction l as [|a l IH]; [reflexivity|].
  cbn [filter]; destruct (f a) eqn:E; [|exact IH].
  cbn [forallb]; now rewrite E, IH.
Qed.

Lemma existsb_filter {A : Type} (f : A -> bool) (l : list A) :
  existsb f l = false -> filter f l = [].
Proof.
  induction l as [|a l IH]; [reflexivity|].
  cbn [existsb filter]; intro H; apply orb_false_iff in H as [Ha Hl].
  now rewrite Ha, (IH Hl).
Qed.

Lemma save_past_papers_five (past : list Upload) (w : World) :
  save_past_papers env (firstn 5 (filter is_named past)) w
  = save_past_papers env past w.
Proof.
  unfold save_past_papers.
  set (valid := firstn 5 (filter is_named past)).
  assert (Hall : forallb is_named valid = true)
    by (apply forallb_firstn, forallb_filter).
  assert (Hvalid : firstn 5 (filter is_named valid) = valid).
  { rewrite (filter_all _ _ Hall); unfold valid.
    now rewrite firstn_firstn. }
  rewrite Hvalid.
  destruct (existsb is_named past) eqn:Hex.
  - assert (Hne : valid <> []).
    { unfold valid.
      apply existsb_exists in Hex as (file & Hin & Hfile).
      assert (Hf : In file (filter is_named past)) by (now apply filter_In).
      destruct (filter is_named past); [contradiction | discriminate]. }
    destruct valid as [|file valid'] eqn:Ev; [now elim Hne|].
    cbn [forallb] in Hall; apply andb_true_iff in Hall as [Hfile _].
    cbn [List.length Nat.eqb negb andb existsb]; rewrite Hfile; cbn [orb].
    now destruct past.
  - assert (Hv : valid = [])
      by (unfold valid; now rewrite (existsb_filter _ _ Hex)).
    rewrite Hv; cbn [List.length Nat.eqb negb andb].
    now destruct (negb (Nat.eqb (List.length past) 0)).
Qed.

Lemma save_past_papers_flashes (past : list Upload) (w : World) :
  flashes (snd (save_past_papers env past w)) = flashes w
  \/ flashes (snd (save_past_papers env past w))
     = (flashes w ++ [("Only PDF files are allowed", "error")])%list.
Proof.
  unfold save_past_papers.
  destruct (negb (Nat.eqb (List.length past) 0) && existsb is_named past);
    [|now left].
  destruct (firstn 5 (filter is_named past)) as [|file valid]; [now left|].
  unfold save_uploaded_files.
  pose proof (save_from_flashes "past_papers" (file :: valid) 0 [] w) as H.
  destruct (save_from env "past_papers" 0 (file :: valid) [] w) as [saved w'].
  exact H.
Qed.

Lemma join_truthy (sep x : string) (rest : list string) :
  Str.truthy x = true -> Str.is_empty (Str.join sep (x :: rest)) = false.
Proof.
  intro Hx; destruct x as [|c x]; [discriminate|].
  now destruct rest.
Qed.

Lemma generate_questions_message (text : string) (template : Template)
    (quota : DifficultyQuota) (past : option (list string)) (error : string) :
  Str.is_empty text = false ->
  generate_questions chat text template quota past = Ok (Failure error) ->
  exists reason, error = "Error generating questions: " ++ reason.
Proof.
  unfold generate_questions; intros ->.
  destruct (system_prompt template quota past) as [system|e];
    cbn [bind]; [|discriminate].
  destruct (bind _ _) as [doc|e]; [discriminate|].
  intros [= <-]; now exists (message e).
Qed.

End GenerateStep.

(** X19. The step that generates a paper never flashes the message
    that the generator has for an empty text, No meaningful content
    found in the PDFs, whatever the request, the files and the service
    are: from this step the generator's check of the text cannot
    fire. *)
Theorem empty_text_message_is_never_flashed (env : Platform) (chat : ChatService)
    (req : GenerateRequest) (w : World) :
  ~ In ("No meaningful content found in the PDFs", "error") (flashes w) ->
  ~ In ("No meaningful content found in the PDFs", "error")
       (flashes (snd (generate_step env chat req w))).
Proof.
  intro Hw.
  assert (Hflash : forall message w',
             message <> "No meaningful content found in the PDFs" ->
             ~ In ("No meaningful content found in the PDFs", "error")
                  (flashes w') ->
             ~ In ("No meaningful content found in the PDFs", "error")
                  (flashes (flash message "error" w'))).
  { intros message w' Hm Hw' Hin; cbn [flash flashes] in Hin.
    apply in_app_or in Hin as [Hin|[[= E]|[]]]; auto. }
  assert (Hor : forall w1 w2 : World,
             flashes w2 = flashes w1
             \/ flashes w2
                = (flashes w1 ++ [("Only PDF files are allowed", "error")])%list ->
             ~ In ("No meaningful content found in the PDFs", "error")
                  (flashes w1) ->
             ~ In ("No meaningful content found in the PDFs", "error")
                  (flashes w2)).
  { intros w1 w2 [->| ->] H1; [exact H1|].
    intro Hin; apply in_app_or in Hin as [Hin|[[=]|[]]]; auto. }
  unfold generate_step.
  destruct (session_template req) as [| |template];
    [apply Hflash; [discriminate | exact Hw]..|].
  destruct (request_pdfs req) as [|file files];
    [apply Hflash; [discriminate | exact Hw]|].
  unfold save_uploaded_files.
  pose proof (save_from_flashes env "study_materials" (file :: files) 0 [] w)
    as H1.
  destruct (save_from env "study_materials" 0 (file :: files) [] w)
    as [saved w1]; cbn [snd] in H1.
  assert (Hw1 := Hor w w1 H1 Hw).
  destruct saved as [[|path paths]|]; [exact Hw1| |exact Hw1].
  pose proof (save_past_papers_flashes env (request_past_papers req) w1) as H2.
  destruct (save_past_papers env (request_past_papers req) w1)
    as [past_papers w2]; cbn [snd] in H2.
  assert (Hw2 := Hor w1 w2 H2 Hw1).
  destruct (bind _ _) as [quota|e]; [|exact Hw2].
  destruct (filter Str.truthy _) as [|text texts] eqn:Ec;
    [apply Hflash; [discriminate | exact Hw2]|].
  assert (Htext : Str.truthy text = true).
  { assert (Hin : In text (text :: texts)) by now left.
    rewrite <- Ec in Hin; now apply filter_In in Hin. }
  destruct (generate_questions _ _ _ _ _) as [[error|doc]|e] eqn:Eg;
    [|exact Hw2..].
  apply generate_questions_message in Eg as [reason ->];
    [|now apply join_truthy].
  apply Hflash; [discriminate | exact Hw2].
Qed.

Lemma empty_text_message_is_never_flashed_witness :
  ~ In ("No meaningful content found in the PDFs", "error")
       (flashes
          (snd (generate_step example_platform (answering "")
                  {| session_template := WellFormed example_template;
                     request_pdfs :=
                       [{| filename := "scan.pdf"; payload := Ok ["  "; ""] |}];
                     request_past_papers := [];
                     easy_percentage := None;
                     medium_percentage := Some "40";
                     hard_percentage := Some "30" |}
                  empty_world))).
Proof.
  apply empty_text_message_is_never_flashed.
  intros [].
Defined.

(** X20. A request whose study materials are all unnamed file parts, as
    a browser sends them when no file is chosen, is redirected without
    any message, and nothing is saved. *)
Theorem unnamed_files_redirect_silently (env : Platform) (chat : ChatService)
    (req : GenerateRequest) (template : Template) (w : World) :
  session_template req = WellFormed template ->
  request_pdfs req <> [] ->
  existsb is_named (request_pdfs req) = false ->
  generate_step env chat req w = (Ok RedirectBack, w).
Proof.
  intros Ht Hne Hno; unfold generate_step; rewrite Ht.
  destruct (request_pdfs req) as [|file files] eqn:Ef; [now elim Hne|].
  unfold save_uploaded_files.
  now rewrite (save_from_unnamed env "study_materials" _ 0 w Hno).
Qed.

Lemma unnamed_files_redirect_silently_witness :
  generate_step example_platform (answering "**Section A**")
    {| session_template := WellFormed example_template;
       request_pdfs := [{| filename := ""; payload := Ok [] |}];
       request_past_papers := [];
       easy_percentage := Some "30";
       medium_percentage := Some "40";
       hard_percentage := Some "30" |}
    empty_world
  = (Ok RedirectBack, empty_world).
Proof.
  apply (unnamed_files_redirect_silently example_platform
           (answering "**Section A**") _ example_template).
  - reflexivity.
  - discriminate.
  - reflexivity.
Defined.

(** X21. Of the past papers of a request only the first five named
    files count: the step ends in the same way, and leaves the same
    files and messages, when the others are taken away. *)
Theorem only_five_past_papers_count (env : Platform) (chat : ChatService)
    (req : GenerateRequest) (w : World) :
  generate_step env chat
    (with_past_papers req (firstn 5 (filter is_named (request_past_papers req))))
    w
  = generate_step env chat req w.
Proof.
  unfold generate_step, with_past_papers;
    cbn [session_template request_pdfs request_past_papers
         easy_percentage medium_percentage hard_percentage].
  destruct (session_template req); try reflexivity.
  destruct (request_pdfs req) as [|file files]; [reflexivity|].
  destruct (save_uploaded_files env (file :: files) "study_materials" w)
    as [[[|path paths]|] w1]; try reflexivity.
  now rewrite save_past_papers_five.
Qed.

(** * Lines and headers *)

Lemma run_lines_trimmed (template : Template) (lines1 lines2 : list string)
    (st : ParserState) :
  map Str.strip lines1 = map Str.strip lines2 ->
  run_lines template st lines1 = run_lines template st lines2.
Proof.
  revert lines2 st; induction lines1 as [|a lines1 IH];
    intros [|b lines2] st H; try discriminate; [reflexivity|].
  injection H as Hab Hrest.
  cbn [run_lines].
  assert (Hstep : step template st a = step template st b)
    by (unfold step; now rewrite Hab).
  rewrite Hstep.
  destruct (step template st b) as [st'|e]; [|reflexivity].
  cbn [bind]; now apply IH.
Qed.

(** X22. The white space around a line does not matter: two texts
    whose lines agree once they are trimmed give the same document. So
    a text indented by the generator, or with Windows line ends, is
    parsed as the plain text is. *)
Theorem indentation_is_ignored (template : Template) (text1 text2 : string) :
  map Str.strip (Str.split_lines text1) = map Str.strip (Str.split_lines text2) ->
  _format_response text1 template = _format_response text2 template.
Proof.
  intro H; unfold _format_response.
  now rewrite (run_lines_trimmed template _ _ initial_state H).
Qed.

Lemma indentation_is_ignored_witness :
  _format_response
    ("  **Section A**" ++ String (ascii_of_nat 13) Str.nl
     ++ String (ascii_of_nat 9) "- [Easy] Define a group."
     ++ String (ascii_of_nat 13) "")
    example_template
  = _format_response ("**Section A**" ++ Str.nl ++ "- [Easy] Define a group.")
                     example_template.
Proof.
  apply indentation_is_ignored.
  reflexivity.
Defined.

Lemma ends_with_space_snoc (a : string) (c : ascii) :
  Spacing.ends_with_space (a ++ String c "") = Char.isspace c.
Proof.
  induction a as [|d a IH]; [reflexivity|].
  cbn [append Spacing.ends_with_space]; rewrite IH.
  now destruct a.
Qed.

Lemma no_star_no_pair (nm t : string) (i : nat) :
  has_char "*" nm = false ->
  i < String.length nm ->
  prefix "**" (Str.drop i (nm ++ t)) = false.
Proof.
  revert i; induction nm as [|c nm IH]; intros i Hno Hi; [simpl in Hi; lia|].
  cbn [has_char] in Hno; apply orb_false_iff in Hno as [Hc Hno].
  destruct i as [|i].
  - cbn [Str.drop append prefix].
    destruct (ascii_dec "*" c) as [E|_]; [|reflexivity].
    apply Ascii.eqb_neq in Hc; now elim Hc.
  - cbn [Str.drop append]; apply IH; [exact Hno | simpl in Hi; lia].
Qed.

Lemma bold_line_is_header (nm : string) :
  has_char "*" nm = false ->
  Str.all not_newline nm = true ->
  header_of ("**" ++ nm ++ "**") = Some nm.
Proof.
  intros Hstar Hnl.
  assert (Hstrip : Str.strip ("**" ++ nm ++ "**") = "**" ++ nm ++ "**").
  { unfold Str.strip.
    rewrite (lstrip_fixed ("**" ++ nm ++ "**") eq_refl).
    apply rstrip_fixed.
    replace ("**" ++ nm ++ "**") with (("**" ++ nm ++ "*") ++ "*")
      by (simpl; now rewrite append_assoc).
    now rewrite ends_with_space_snoc. }
  apply header_of_iff; rewrite Hstrip; repeat split.
  - apply prefix_append; exists ""; now rewrite append_empty_r.
  - intros i Hi.
    change (Str.drop (2 + i) ("**" ++ nm ++ "**"))
      with (Str.drop i (nm ++ "**")).
    now apply no_star_no_pair.
  - exact Hnl.
Qed.

(** X23. A text made of one bold line with a name, and of lines none of
    which is a header, is parsed into exactly one section, under this
    name, with the questions of these lines: this holds for every name
    that is not empty and holds neither an asterisk nor a line break. *)
Theorem single_section_document (template : Template) (nm body : string) :
  nm <> "" ->
  has_char "*" nm = false ->
  Str.all not_newline nm = true ->
  existsb is_section_header (Str.split_lines body) = false ->
  exists qs,
    run_lines template (opened nm) (Str.split_lines body)
    = Ok {| sections := Dict.empty;
            current_section := Some nm;
            current_questions := qs |}
    /\ _format_response ("**" ++ nm ++ "**" ++ Str.nl ++ body) template
       = Ok {| doc_sections := [(nm, qs)] |}.
Proof.
  intros Hne Hstar Hnl Hbody.
  destruct (run_lines_body template _ (opened nm) Hbody) as (qs & Hrun & Hother).
  exists qs; split; [exact Hrun|].
  unfold _format_response.
  assert (Hlines : Str.split_lines ("**" ++ nm ++ "**" ++ Str.nl ++ body)
                   = ("**" ++ nm ++ "**") :: Str.split_lines body).
  { replace ("**" ++ nm ++ "**" ++ Str.nl ++ body)
      with (("**" ++ nm ++ "**") ++ Str.nl ++ body)
      by (simpl; now rewrite !append_assoc).
    rewrite split_lines_append.
    assert (Hone : Str.split_lines ("**" ++ nm ++ "**") = ["**" ++ nm ++ "**"]).
    { assert (H : forall s, Str.all not_newline s = true ->
                            Str.split_lines s = [s]).
      { induction s as [|c s IH]; [reflexivity|].
        cbn [Str.all Str.split_lines]; intro H.
        apply andb_true_iff in H as [Hc Hs].
        unfold not_newline in Hc; apply negb_true_iff in Hc.
        now rewrite Hc, (IH Hs). }
      apply H.
      change ("**" ++ nm ++ "**") with (String "*" (String "*" (nm ++ "**"))).
      cbn [Str.all]; rewrite all_append, Hnl; reflexivity. }
    now rewrite Hone. }
  rewrite Hlines; cbn [run_lines].
  rewrite (step_header template initial_state _ nm (bold_line_is_header nm Hstar Hnl)).
  cbn [bind].
  rewrite (Hother {| sections := commit initial_state;
                     current_section := Some nm;
                     current_questions := [] |} eq_refl eq_refl).
  cbn [bind]; unfold commit; cbn [current_section section_open sections
                                   current_questions section_name].
  apply truthy_true in Hne; rewrite Hne; reflexivity.
Qed.

Lemma single_section_document_witness :
  exists qs,
    run_lines example_template (opened "Part 1: Algebra")
      (Str.split_lines ("1. [Hard] Define a group." ++ Str.nl ++ "that is finite"))
    = Ok {| sections := Dict.empty;
            current_section := Some "Part 1: Algebra";
            current_questions := qs |}
    /\ _format_response
         ("**" ++ "Part 1: Algebra" ++ "**" ++ Str.nl
          ++ ("1. [Hard] Define a group." ++ Str.nl ++ "that is finite"))
         example_template
       = Ok {| doc_sections := [("Part 1: Algebra", qs)] |}.
Proof.
  apply single_section_document.
  - discriminate.
  - reflexivity.
  - reflexivity.
  - reflexivity.
Defined.

(** * Fields under edits *)

Section FieldsKept.

Context {V : Type}.

Lemma dict_update_keeps (q question : Dict.t V) :
  keeps_fields q (dict_update q question).
Proof.
  unfold keeps_fields, dict_update; revert q.
  induction question as [|[k v] question IH]; intros q k0 Hin; [exact Hin|].
  cbn [fold_left fst snd]; apply IH.
  apply dict_set_keys_in; now right.
Qed.

Lemma keeps_fields_refl (q : Dict.t V) : keeps_fields q q.
Proof. intros k H; exact H. Qed.

Lemma edit_questions_keeps (stored questions : list (Dict.t V)) :
  Forall2 keeps_fields stored (edit_questions stored questions).
Proof.
  assert (Hrefl : forall l : list (Dict.t V), Forall2 keeps_fields l l)
    by (induction l; constructor; auto using keeps_fields_refl).
  revert questions; induction stored as [|q stored IH]; intros [|e es];
    cbn [edit_questions]; try apply Hrefl.
  constructor; [apply dict_update_keeps | apply IH].
Qed.

Lemma keeps_questions_refl (sections : Dict.t (list (Dict.t V))) :
  keeps_questions sections sections.
Proof.
  induction sections as [|p sections IH]; constructor; [|exact IH].
  split; [reflexivity|].
  induction (snd p); constructor; auto using keeps_fields_refl.
Qed.

Lemma forall2_keeps_trans (a b c : list (Dict.t V)) :
  Forall2 keeps_fields a b -> Forall2 keeps_fields b c ->
  Forall2 keeps_fields a c.
Proof.
  intro Hab; revert c; induction Hab as [|x y a b Hxy _ IH]; intros c Hbc;
    inversion Hbc; subst; constructor; [|now apply IH].
  intros k Hk; auto.
Qed.

Lemma keeps_questions_trans (a b c : Dict.t (list (Dict.t V))) :
  keeps_questions a b -> keeps_questions b c -> keeps_questions a c.
Proof.
  intro Hab; revert c; induction Hab as [|x y a b [Hk Hq] _ IH]; intros c Hbc;
    inversion Hbc as [|? z ? c' [Hk' Hq'] Hrest]; subst; constructor;
    [|now apply IH].
  split; [congruence | now apply (forall2_keeps_trans _ (snd y))].
Qed.

Lemma dict_set_keeps (sections : Dict.t (list (Dict.t V))) (nm : string)
    (stored edited : list (Dict.t V)) :
  Dict.get sections nm = Some stored ->
  Forall2 keeps_fields stored edited ->
  keeps_questions sections (Dict.set sections nm edited).
Proof.
  induction sections as [|[k qs] sections IH]; cbn [Dict.get Dict.set];
    [discriminate|].
  destruct (String.eqb k nm).
  - intros [= ->] H; constructor; [now split | apply keeps_questions_refl].
  - intros Hget H; constructor; [|now apply IH].
    split; [reflexivity|].
    clear; induction qs; constructor; auto using keeps_fields_refl.
Qed.

(** X24. Editing never takes a field away: after any edits the paper
    has the same sections in the same order, its questions correspond
    one to one to the questions before, and every field that a question
    had, such as its text and its marks, is still a field of it. *)
Theorem edits_keep_the_fields (sections edits : Dict.t (list (Dict.t V))) :
  keeps_questions sections (apply_edits sections edits).
Proof.
  unfold apply_edits; revert sections.
  induction edits as [|[nm es] edits IH]; intro sections;
    [apply keeps_questions_refl|].
  cbn [fold_left fst snd].
  destruct (Dict.get sections nm) as [stored|] eqn:E; [|apply IH].
  apply (keeps_questions_trans _ (Dict.set sections nm (edit_questions stored es)));
    [|apply IH].
  apply (dict_set_keeps _ _ stored _ E), edit_questions_keeps.
Qed.

End FieldsKept.
